(** * aab_to_apk.py: the bundletool wrapper, embedded and verified

    A shallow embedding of [src/apk/aab_to_apk.py].  The script is glue
    code around the Python standard library, so the development has two
    layers:

    - a model of the library functions the script calls ([str] methods,
      the [utf-8] and [unicode_escape] codecs, [pathlib], a tree-shaped
      file system, [subprocess.run], [tempfile], [shutil.copy2]);
    - the script itself ([BundletoolWrapper] and [main]), written over
      that model function by function, in a state-and-exception monad
      that logs every effect.

    Conventions of the library model: Linux, CPython 3.11, a UTF-8
    locale; a file system without symbolic links, access rights or
    limits of size, reached through paths without [".."]; the file names
    a run is given, and the names in the tree, are names a command line
    can hold (no NUL, no code point that the file-system encoding
    refuses); the name of the properties file is one that [open] and
    [pathlib] read alike (not empty, and not ending in a slash or in a
    ["."] component); [print] never fails; no asynchronous signal is
    delivered; no program that the script starts puts a regular file in
    the place of the temporary directory, so that its removal cannot
    fail.  The log holds what the script does; what the interpreter
    writes of its own accord (the deprecation warning of the
    [unicode_escape] codec for an unknown escape) is not in it.  What
    external programs do, which names [tempfile] draws, and on which
    files the times and the mode may not be set, is part of the world a
    run starts in, and arbitrary.  [main] is modelled from the parsed
    arguments on. *)

From Stdlib Require Import NArith ZArith String Ascii List Lia DecimalString.
From stdpp Require Import base option list gmap.

Local Open Scope N_scope.

(** ** Python strings

    A [str] is a sequence of Unicode code points, a [bytes] object a
    sequence of numbers below 256. *)

Abbreviation str := (list N).
Abbreviation bytes := (list N).

(** An ASCII literal of the script. *)
Definition lit (s : string) : str :=
  map N_of_ascii (list_ascii_of_string s).

(** [Py_UNICODE_ISSPACE]: the characters [str.strip()] removes. *)
Definition isspace (c : N) : bool :=
  ((9 <=? c) && (c <=? 13)) || ((28 <=? c) && (c <=? 32))
  || (c =? 133) || (c =? 160) || (c =? 5760)
  || ((8192 <=? c) && (c <=? 8202))
  || (c =? 8232) || (c =? 8233) || (c =? 8239) || (c =? 8287)
  || (c =? 12288).

Fixpoint lstrip (s : str) : str :=
  match s with
  | [] => []
  | c :: s' => if isspace c then lstrip s' else s
  end.

Definition rstrip (s : str) : str := rev (lstrip (rev s)).

(** [s.strip()] *)
Definition strip (s : str) : str := rstrip (lstrip s).

(** [s.startswith(prefix)] *)
Fixpoint startswith (prefix s : str) : bool :=
  match prefix, s with
  | [], _ => true
  | _ :: _, [] => false
  | a :: prefix', b :: s' => (a =? b) && startswith prefix' s'
  end.

(** [c in s] for a one-character [c]. *)
Definition contains (c : N) (s : str) : bool := existsb (N.eqb c) s.

(** [s.split(sep, 1)] for a one-character [sep]: the text before the
    first separator and the text after it, [None] when [s] has no
    separator (Python then returns a one-element list). *)
Fixpoint split_once (sep : N) (s : str) : option (str * str) :=
  match s with
  | [] => None
  | c :: s' =>
      if c =? sep then Some ([], s')
      else match split_once sep s' with
           | Some (a, b) => Some (c :: a, b)
           | None => None
           end
  end.

(** [s.replace(old, new)] for a non-empty [old]: matches are found from
    the left and do not overlap.  [skip] counts the characters of a match
    that are still to be passed over. *)
Fixpoint replace_from (old new : str) (skip : nat) (s : str) : str :=
  match s with
  | [] => []
  | c :: s' =>
      match skip with
      | S k => replace_from old new k s'
      | O =>
          if startswith old s
          then new ++ replace_from old new (Nat.pred (length old)) s'
          else c :: replace_from old new O s'
      end
  end.

Definition replace (old new s : str) : str := replace_from old new O s.

(** [sep.join(items)] *)
Fixpoint join (sep : str) (items : list str) : str :=
  match items with
  | [] => []
  | [x] => x
  | x :: rest => x ++ sep ++ join sep rest
  end.

(** Iterating over a text file opened with the default [newline=None]:
    the text is cut after every ["\n"], ["\r"] or ["\r\n"], and each
    terminator is handed to the program as ["\n"].  [cur] is the current
    line, reversed. *)
Fixpoint readlines_from (cur : str) (s : str) : list str :=
  match s with
  | [] => match cur with [] => [] | _ => [rev cur] end
  | c :: s' =>
      if c =? 10 then rev (10 :: cur) :: readlines_from [] s'
      else if c =? 13 then
        match s' with
        | d :: s'' =>
            if d =? 10 then rev (10 :: cur) :: readlines_from [] s''
            else rev (10 :: cur) :: readlines_from [] s'
        | [] => [rev (10 :: cur)]
        end
      else readlines_from (c :: cur) s'
  end.

Definition readlines (text : str) : list str := readlines_from [] text.

(** ** Exceptions

    The exception classes the script raises or lets through.  [msg] is
    the text [str(e)] renders; for the errors of the system and of the
    codecs it is abbreviated. *)
Inductive exn : Type :=
  | FileNotFoundError (msg : str)
  | IsADirectoryError (msg : str)
  | NotADirectoryError (msg : str)
  | FileExistsError (msg : str)
  | PermissionError (msg : str)
  | SameFileError (msg : str)
  | UnicodeDecodeError (msg : str)
  | UnicodeEncodeError (msg : str)
  | RuntimeError (msg : str)
  | ValueError (msg : str)
  | KeyError (msg : str)
  | CalledProcessError (returncode : Z) (cmd : list str) (stdout stderr : str).

(** [isinstance(e, UnicodeError)]; [UnicodeDecodeError] is a subclass. *)
Definition is_UnicodeError (e : exn) : bool :=
  match e with
  | UnicodeDecodeError _ | UnicodeEncodeError _ => true
  | _ => false
  end.

Definition is_FileNotFoundError (e : exn) : bool :=
  match e with FileNotFoundError _ => true | _ => false end.

Definition is_CalledProcessError (e : exn) : bool :=
  match e with CalledProcessError _ _ _ _ => true | _ => false end.

Definition is_IsADirectoryError (e : exn) : bool :=
  match e with IsADirectoryError _ => true | _ => false end.

(** ** What [repr] and [str(e)] show *)

(** The code points from 128 on for which [str.isprintable()] is false
    (Unicode 14.0, the tables of CPython 3.11), as closed ranges. *)
Definition nonprintable_ranges : list (N * N) :=
  [(128, 160); (173, 173); (888, 889); (896, 899); (907, 907); (909, 909);
   (930, 930); (1328, 1328); (1367, 1368); (1419, 1420); (1424, 1424);
   (1480, 1487); (1515, 1518); (1525, 1541); (1564, 1564); (1757, 1757);
   (1806, 1807); (1867, 1868); (1970, 1983); (2043, 2044); (2094, 2095);
   (2111, 2111); (2140, 2141); (2143, 2143); (2155, 2159); (2191, 2199);
   (2274, 2274); (2436, 2436); (2445, 2446); (2449, 2450); (2473, 2473);
   (2481, 2481); (2483, 2485); (2490, 2491); (2501, 2502); (2505, 2506);
   (2511, 2518); (2520, 2523); (2526, 2526); (2532, 2533); (2559, 2560);
   (2564, 2564); (2571, 2574); (2577, 2578); (2601, 2601); (2609, 2609);
   (2612, 2612); (2615, 2615); (2618, 2619); (2621, 2621); (2627, 2630);
   (2633, 2634); (2638, 2640); (2642, 2648); (2653, 2653); (2655, 2661);
   (2679, 2688); (2692, 2692); (2702, 2702); (2706, 2706); (2729, 2729);
   (2737, 2737); (2740, 2740); (2746, 2747); (2758, 2758); (2762, 2762);
   (2766, 2767); (2769, 2783); (2788, 2789); (2802, 2808); (2816, 2816);
   (2820, 2820); (2829, 2830); (2833, 2834); (2857, 2857); (2865, 2865);
   (2868, 2868); (2874, 2875); (2885, 2886); (2889, 2890); (2894, 2900);
   (2904, 2907); (2910, 2910); (2916, 2917); (2936, 2945); (2948, 2948);
   (2955, 2957); (2961, 2961); (2966, 2968); (2971, 2971); (2973, 2973);
   (2976, 2978); (2981, 2983); (2987, 2989); (3002, 3005); (3011, 3013);
   (3017, 3017); (3022, 3023); (3025, 3030); (3032, 3045); (3067, 3071);
   (3085, 3085); (3089, 3089); (3113, 3113); (3130, 3131); (3141, 3141);
   (3145, 3145); (3150, 3156); (3159, 3159); (3163, 3164); (3166, 3167);
   (3172, 3173); (3184, 3190); (3213, 3213); (3217, 3217); (3241, 3241);
   (3252, 3252); (3258, 3259); (3269, 3269); (3273, 3273); (3278, 3284);
   (3287, 3292); (3295, 3295); (3300, 3301); (3312, 3312); (3315, 3327);
   (3341, 3341); (3345, 3345); (3397, 3397); (3401, 3401); (3408, 3411);
   (3428, 3429); (3456, 3456); (3460, 3460); (3479, 3481); (3506, 3506);
   (3516, 3516); (3518, 3519); (3527, 3529); (3531, 3534); (3541, 3541);
   (3543, 3543); (3552, 3557); (3568, 3569); (3573, 3584); (3643, 3646);
   (3676, 3712); (3715, 3715); (3717, 3717); (3723, 3723); (3748, 3748);
   (3750, 3750); (3774, 3775); (3781, 3781); (3783, 3783); (3790, 3791);
   (3802, 3803); (3808, 3839); (3912, 3912); (3949, 3952); (3992, 3992);
   (4029, 4029); (4045, 4045); (4059, 4095); (4294, 4294); (4296, 4300);
   (4302, 4303); (4681, 4681); (4686, 4687); (4695, 4695); (4697, 4697);
   (4702, 4703); (4745, 4745); (4750, 4751); (4785, 4785); (4790, 4791);
   (4799, 4799); (4801, 4801); (4806, 4807); (4823, 4823); (4881, 4881);
   (4886, 4887); (4955, 4956); (4989, 4991); (5018, 5023); (5110, 5111);
   (5118, 5119); (5760, 5760); (5789, 5791); (5881, 5887); (5910, 5918);
   (5943, 5951); (5972, 5983); (5997, 5997); (6001, 6001); (6004, 6015);
   (6110, 6111); (6122, 6127); (6138, 6143); (6158, 6158); (6170, 6175);
   (6265, 6271); (6315, 6319); (6390, 6399); (6431, 6431); (6444, 6447);
   (6460, 6463); (6465, 6467); (6510, 6511); (6517, 6527); (6572, 6575);
   (6602, 6607); (6619, 6621); (6684, 6685); (6751, 6751); (6781, 6782);
   (6794, 6799); (6810, 6815); (6830, 6831); (6863, 6911); (6989, 6991);
   (7039, 7039); (7156, 7163); (7224, 7226); (7242, 7244); (7305, 7311);
   (7355, 7356); (7368, 7375); (7419, 7423); (7958, 7959); (7966, 7967);
   (8006, 8007); (8014, 8015); (8024, 8024); (8026, 8026); (8028, 8028);
   (8030, 8030); (8062, 8063); (8117, 8117); (8133, 8133); (8148, 8149);
   (8156, 8156); (8176, 8177); (8181, 8181); (8191, 8207); (8232, 8239);
   (8287, 8303); (8306, 8307); (8335, 8335); (8349, 8351); (8385, 8399);
   (8433, 8447); (8588, 8591); (9255, 9279); (9291, 9311); (11124, 11125);
   (11158, 11158); (11508, 11512); (11558, 11558); (11560, 11564);
   (11566, 11567); (11624, 11630); (11633, 11646); (11671, 11679);
   (11687, 11687); (11695, 11695); (11703, 11703); (11711, 11711);
   (11719, 11719); (11727, 11727); (11735, 11735); (11743, 11743);
   (11870, 11903); (11930, 11930); (12020, 12031); (12246, 12271);
   (12284, 12288); (12352, 12352); (12439, 12440); (12544, 12548);
   (12592, 12592); (12687, 12687); (12772, 12783); (12831, 12831);
   (42125, 42127); (42183, 42191); (42540, 42559); (42744, 42751);
   (42955, 42959); (42962, 42962); (42964, 42964); (42970, 42993);
   (43053, 43055); (43066, 43071); (43128, 43135); (43206, 43213);
   (43226, 43231); (43348, 43358); (43389, 43391); (43470, 43470);
   (43482, 43485); (43519, 43519); (43575, 43583); (43598, 43599);
   (43610, 43611); (43715, 43738); (43767, 43776); (43783, 43784);
   (43791, 43792); (43799, 43807); (43815, 43815); (43823, 43823);
   (43884, 43887); (44014, 44015); (44026, 44031); (55204, 55215);
   (55239, 55242); (55292, 63743); (64110, 64111); (64218, 64255);
   (64263, 64274); (64280, 64284); (64311, 64311); (64317, 64317);
   (64319, 64319); (64322, 64322); (64325, 64325); (64451, 64466);
   (64912, 64913); (64968, 64974); (64976, 65007); (65050, 65055);
   (65107, 65107); (65127, 65127); (65132, 65135); (65141, 65141);
   (65277, 65280); (65471, 65473); (65480, 65481); (65488, 65489);
   (65496, 65497); (65501, 65503); (65511, 65511); (65519, 65531);
   (65534, 65535); (65548, 65548); (65575, 65575); (65595, 65595);
   (65598, 65598); (65614, 65615); (65630, 65663); (65787, 65791);
   (65795, 65798); (65844, 65846); (65935, 65935); (65949, 65951);
   (65953, 65999); (66046, 66175); (66205, 66207); (66257, 66271);
   (66300, 66303); (66340, 66348); (66379, 66383); (66427, 66431);
   (66462, 66462); (66500, 66503); (66518, 66559); (66718, 66719);
   (66730, 66735); (66772, 66775); (66812, 66815); (66856, 66863);
   (66916, 66926); (66939, 66939); (66955, 66955); (66963, 66963);
   (66966, 66966); (66978, 66978); (66994, 66994); (67002, 67002);
   (67005, 67071); (67383, 67391); (67414, 67423); (67432, 67455);
   (67462, 67462); (67505, 67505); (67515, 67583); (67590, 67591);
   (67593, 67593); (67638, 67638); (67641, 67643); (67645, 67646);
   (67670, 67670); (67743, 67750); (67760, 67807); (67827, 67827);
   (67830, 67834); (67868, 67870); (67898, 67902); (67904, 67967);
   (68024, 68027); (68048, 68049); (68100, 68100); (68103, 68107);
   (68116, 68116); (68120, 68120); (68150, 68151); (68155, 68158);
   (68169, 68175); (68185, 68191); (68256, 68287); (68327, 68330);
   (68343, 68351); (68406, 68408); (68438, 68439); (68467, 68471);
   (68498, 68504); (68509, 68520); (68528, 68607); (68681, 68735);
   (68787, 68799); (68851, 68857); (68904, 68911); (68922, 69215);
   (69247, 69247); (69290, 69290); (69294, 69295); (69298, 69375);
   (69416, 69423); (69466, 69487); (69514, 69551); (69580, 69599);
   (69623, 69631); (69710, 69713); (69750, 69758); (69821, 69821);
   (69827, 69839); (69865, 69871); (69882, 69887); (69941, 69941);
   (69960, 69967); (70007, 70015); (70112, 70112); (70133, 70143);
   (70162, 70162); (70207, 70271); (70279, 70279); (70281, 70281);
   (70286, 70286); (70302, 70302); (70314, 70319); (70379, 70383);
   (70394, 70399); (70404, 70404); (70413, 70414); (70417, 70418);
   (70441, 70441); (70449, 70449); (70452, 70452); (70458, 70458);
   (70469, 70470); (70473, 70474); (70478, 70479); (70481, 70486);
   (70488, 70492); (70500, 70501); (70509, 70511); (70517, 70655);
   (70748, 70748); (70754, 70783); (70856, 70863); (70874, 71039);
   (71094, 71095); (71134, 71167); (71237, 71247); (71258, 71263);
   (71277, 71295); (71354, 71359); (71370, 71423); (71451, 71452);
   (71468, 71471); (71495, 71679); (71740, 71839); (71923, 71934);
   (71943, 71944); (71946, 71947); (71956, 71956); (71959, 71959);
   (71990, 71990); (71993, 71994); (72007, 72015); (72026, 72095);
   (72104, 72105); (72152, 72153); (72165, 72191); (72264, 72271);
   (72355, 72367); (72441, 72703); (72713, 72713); (72759, 72759);
   (72774, 72783); (72813, 72815); (72848, 72849); (72872, 72872);
   (72887, 72959); (72967, 72967); (72970, 72970); (73015, 73017);
   (73019, 73019); (73022, 73022); (73032, 73039); (73050, 73055);
   (73062, 73062); (73065, 73065); (73103, 73103); (73106, 73106);
   (73113, 73119); (73130, 73439); (73465, 73647); (73649, 73663);
   (73714, 73726); (74650, 74751); (74863, 74863); (74869, 74879);
   (75076, 77711); (77811, 77823); (78895, 82943); (83527, 92159);
   (92729, 92735); (92767, 92767); (92778, 92781); (92863, 92863);
   (92874, 92879); (92910, 92911); (92918, 92927); (92998, 93007);
   (93018, 93018); (93026, 93026); (93048, 93052); (93072, 93759);
   (93851, 93951); (94027, 94030); (94088, 94094); (94112, 94175);
   (94181, 94191); (94194, 94207); (100344, 100351); (101590, 101631);
   (101641, 110575); (110580, 110580); (110588, 110588); (110591, 110591);
   (110883, 110927); (110931, 110947); (110952, 110959); (111356, 113663);
   (113771, 113775); (113789, 113791); (113801, 113807); (113818, 113819);
   (113824, 118527); (118574, 118575); (118599, 118607); (118724, 118783);
   (119030, 119039); (119079, 119080); (119155, 119162); (119275, 119295);
   (119366, 119519); (119540, 119551); (119639, 119647); (119673, 119807);
   (119893, 119893); (119965, 119965); (119968, 119969); (119971, 119972);
   (119975, 119976); (119981, 119981); (119994, 119994); (119996, 119996);
   (120004, 120004); (120070, 120070); (120075, 120076); (120085, 120085);
   (120093, 120093); (120122, 120122); (120127, 120127); (120133, 120133);
   (120135, 120137); (120145, 120145); (120486, 120487); (120780, 120781);
   (121484, 121498); (121504, 121504); (121520, 122623); (122655, 122879);
   (122887, 122887); (122905, 122906); (122914, 122914); (122917, 122917);
   (122923, 123135); (123181, 123183); (123198, 123199); (123210, 123213);
   (123216, 123535); (123567, 123583); (123642, 123646); (123648, 124895);
   (124903, 124903); (124908, 124908); (124911, 124911); (124927, 124927);
   (125125, 125126); (125143, 125183); (125260, 125263); (125274, 125277);
   (125280, 126064); (126133, 126208); (126270, 126463); (126468, 126468);
   (126496, 126496); (126499, 126499); (126501, 126502); (126504, 126504);
   (126515, 126515); (126520, 126520); (126522, 126522); (126524, 126529);
   (126531, 126534); (126536, 126536); (126538, 126538); (126540, 126540);
   (126544, 126544); (126547, 126547); (126549, 126550); (126552, 126552);
   (126554, 126554); (126556, 126556); (126558, 126558); (126560, 126560);
   (126563, 126563); (126565, 126566); (126571, 126571); (126579, 126579);
   (126584, 126584); (126589, 126589); (126591, 126591); (126602, 126602);
   (126620, 126624); (126628, 126628); (126634, 126634); (126652, 126703);
   (126706, 126975); (127020, 127023); (127124, 127135); (127151, 127152);
   (127168, 127168); (127184, 127184); (127222, 127231); (127406, 127461);
   (127491, 127503); (127548, 127551); (127561, 127567); (127570, 127583);
   (127590, 127743); (128728, 128732); (128749, 128751); (128765, 128767);
   (128884, 128895); (128985, 128991); (129004, 129007); (129009, 129023);
   (129036, 129039); (129096, 129103); (129114, 129119); (129160, 129167);
   (129198, 129199); (129202, 129279); (129620, 129631); (129646, 129647);
   (129653, 129655); (129661, 129663); (129671, 129679); (129709, 129711);
   (129723, 129727); (129734, 129743); (129754, 129759); (129768, 129775);
   (129783, 129791); (129939, 129939); (129995, 130031); (130042, 131071);
   (173792, 173823); (177977, 177983); (178206, 178207); (183970, 183983);
   (191457, 194559); (195102, 196607); (201547, 917759); (918000, 1114111)].

(** [Py_UNICODE_ISPRINTABLE] *)
Definition isprintable (c : N) : bool :=
  if c <? 128 then (32 <=? c) && (c <? 127)
  else negb (existsb (fun r => (fst r <=? c) && (c <=? snd r))
               nonprintable_ranges).

Definition hex_digit (v : N) : N := if v <? 10 then 48 + v else 87 + v.

(** The last [width] hexadecimal digits of [c], lower case. *)
Fixpoint hex_fixed (width : nat) (c : N) : str :=
  match width with
  | O => []
  | S k => hex_fixed k (N.shiftr c 4) ++ [hex_digit (N.land c 15)]
  end.

(** One character inside [repr(s)], for the quote that was chosen. *)
Definition repr_char (quote c : N) : str :=
  if (c =? quote) || (c =? 92) then [92; c]
  else if c =? 9 then [92; 116]
  else if c =? 10 then [92; 110]
  else if c =? 13 then [92; 114]
  else if (c <? 32) || (c =? 127) then [92; 120] ++ hex_fixed 2 c
  else if isprintable c then [c]
  else if c <=? 255 then [92; 120] ++ hex_fixed 2 c
  else if c <=? 65535 then [92; 117] ++ hex_fixed 4 c
  else [92; 85] ++ hex_fixed 8 c.

(** [repr(s)] for a [str]: single quotes, unless the text has a single
    quote and no double quote. *)
Definition py_repr (s : str) : str :=
  let quote := if contains 39 s && negb (contains 34 s) then 34 else 39 in
  [quote] ++ flat_map (repr_char quote) s ++ [quote].

(** [str(l)] for a list of [str]. *)
Definition list_repr (l : list str) : str :=
  lit "[" ++ join (lit ", ") (map py_repr l) ++ lit "]".

(** [str(n)] for a natural number. *)
Definition decimal (n : N) : str :=
  lit (NilZero.string_of_uint (N.to_uint n)).

(** The members of [signal.Signals] on Linux. *)
Definition signal_names : list (N * string) :=
  [(1, "SIGHUP"); (2, "SIGINT"); (3, "SIGQUIT"); (4, "SIGILL");
   (5, "SIGTRAP"); (6, "SIGABRT"); (7, "SIGBUS"); (8, "SIGFPE");
   (9, "SIGKILL"); (10, "SIGUSR1"); (11, "SIGSEGV"); (12, "SIGUSR2");
   (13, "SIGPIPE"); (14, "SIGALRM"); (15, "SIGTERM"); (16, "SIGSTKFLT");
   (17, "SIGCHLD"); (18, "SIGCONT"); (19, "SIGSTOP"); (20, "SIGTSTP");
   (21, "SIGTTIN"); (22, "SIGTTOU"); (23, "SIGURG"); (24, "SIGXCPU");
   (25, "SIGXFSZ"); (26, "SIGVTALRM"); (27, "SIGPROF"); (28, "SIGWINCH");
   (29, "SIGIO"); (30, "SIGPWR"); (31, "SIGSYS"); (34, "SIGRTMIN");
   (64, "SIGRTMAX")]%string.

Definition signal_name (n : N) : option string :=
  snd <$> List.find (fun x => fst x =? n) signal_names.

(** [CalledProcessError.__str__]: a negative return code is the number
    of the signal that ended the program. *)
Definition called_process_error_str (returncode : Z) (cmd : list str) : str :=
  let command := lit "Command '" ++ list_repr cmd in
  if (returncode <? 0)%Z then
    let n := Z.to_N (- returncode) in
    match signal_name n with
    | Some name =>
        command ++ lit "' died with <Signals." ++ lit name ++ lit ": "
        ++ decimal n ++ lit ">."
    | None =>
        command ++ lit "' died with unknown signal " ++ decimal n ++ lit "."
    end
  else
    command ++ lit "' returned non-zero exit status "
    ++ decimal (Z.to_N returncode) ++ lit ".".

(** [str(e)].  For an [OSError] or a [UnicodeError] that the library
    raised, [msg] is the reason alone. *)
Definition exn_str (e : exn) : str :=
  match e with
  | FileNotFoundError msg | IsADirectoryError msg | NotADirectoryError msg
  | FileExistsError msg | PermissionError msg | SameFileError msg
  | UnicodeDecodeError msg | UnicodeEncodeError msg
  | RuntimeError msg | ValueError msg => msg
  | KeyError key => py_repr key
  | CalledProcessError returncode cmd _ _ =>
      called_process_error_str returncode cmd
  end.

(** The outcome of a computation that may raise. *)
Inductive result (A : Type) : Type :=
  | Ok (a : A)
  | Raise (e : exn).
Arguments Ok {A} a.
Arguments Raise {A} e.

Definition rbind {A B} (r : result A) (k : A -> result B) : result B :=
  match r with
  | Ok a => k a
  | Raise e => Raise e
  end.

Definition rmap {A B} (f : A -> B) (r : result A) : result B :=
  rbind r (fun a => Ok (f a)).

(** ** Codecs *)

(** [str.encode()]: UTF-8; a lone surrogate cannot be encoded. *)
Definition utf8_encode_char (c : N) : result bytes :=
  if c <? 128 then Ok [c]
  else if c <? 2048 then
    Ok [N.lor 192 (N.shiftr c 6); N.lor 128 (N.land c 63)]
  else if c <? 65536 then
    if (55296 <=? c) && (c <=? 57343)
    then Raise (UnicodeEncodeError (lit "surrogates not allowed"))
    else Ok [N.lor 224 (N.shiftr c 12);
             N.lor 128 (N.land (N.shiftr c 6) 63);
             N.lor 128 (N.land c 63)]
  else
    Ok [N.lor 240 (N.shiftr c 18);
        N.lor 128 (N.land (N.shiftr c 12) 63);
        N.lor 128 (N.land (N.shiftr c 6) 63);
        N.lor 128 (N.land c 63)].

Fixpoint encode (s : str) : result bytes :=
  match s with
  | [] => Ok []
  | c :: s' =>
      rbind (utf8_encode_char c) (fun b =>
      rbind (encode s') (fun bs => Ok (b ++ bs)))
  end.

Definition is_cont (b : N) : bool := (128 <=? b) && (b <=? 191).

(** Strict UTF-8 decoding, as a text file opened with [encoding='utf-8']
    does it: overlong forms, surrogates and values above U+10FFFF are
    refused. *)
Fixpoint utf8_decode (b : bytes) : result str :=
  let bad := Raise (UnicodeDecodeError (lit "invalid utf-8")) in
  match b with
  | [] => Ok []
  | b0 :: r0 =>
      if b0 <? 128 then rmap (cons b0) (utf8_decode r0)
      else if (194 <=? b0) && (b0 <=? 223) then
        match r0 with
        | b1 :: r1 =>
            if is_cont b1
            then rmap (cons (N.lor (N.shiftl (N.land b0 31) 6) (N.land b1 63)))
                      (utf8_decode r1)
            else bad
        | _ => bad
        end
      else if (224 <=? b0) && (b0 <=? 239) then
        match r0 with
        | b1 :: b2 :: r2 =>
            if is_cont b1 && is_cont b2
               && negb ((b0 =? 224) && (b1 <? 160))
               && negb ((b0 =? 237) && (159 <? b1))
            then rmap (cons (N.lor (N.shiftl (N.land b0 15) 12)
                               (N.lor (N.shiftl (N.land b1 63) 6)
                                      (N.land b2 63))))
                      (utf8_decode r2)
            else bad
        | _ => bad
        end
      else if (240 <=? b0) && (b0 <=? 244) then
        match r0 with
        | b1 :: b2 :: b3 :: r3 =>
            if is_cont b1 && is_cont b2 && is_cont b3
               && negb ((b0 =? 240) && (b1 <? 144))
               && negb ((b0 =? 244) && (143 <? b1))
            then rmap (cons (N.lor (N.shiftl (N.land b0 7) 18)
                               (N.lor (N.shiftl (N.land b1 63) 12)
                                  (N.lor (N.shiftl (N.land b2 63) 6)
                                         (N.land b3 63)))))
                      (utf8_decode r3)
            else bad
        | _ => bad
        end
      else bad
  end.

(** The [unicode_escape] codec, decoding direction
    ([_PyUnicode_DecodeUnicodeEscapeInternal]).  The decoder reads one
    byte at a time; [esc_state] records how far into an escape it is. *)
Inductive esc_state : Type :=
  | Plain
  | Backslash
  | Octal (room : nat) (ch : N)
  | Hex (count : nat) (ch : N)
  | NameOpen
  | NameBody (name : bytes).

Definition is_octal (c : N) : bool := (48 <=? c) && (c <=? 55).

Definition hexval (c : N) : option N :=
  if (48 <=? c) && (c <=? 57) then Some (c - 48)
  else if (97 <=? c) && (c <=? 102) then Some (c - 87)
  else if (65 <=? c) && (c <=? 70) then Some (c - 55)
  else None.

Definition MAX_UNICODE : N := 1114111.

Definition decode_error (message : string) : exn :=
  UnicodeDecodeError (lit message).

Section NameTable.

(** The character-name table of [unicodedata], consulted by the
    [\N{...}] escape. *)
Variable getcode : bytes -> option N.

(** A byte outside any escape: copied, as a Latin-1 character. *)
Definition plain_step (c : N) : esc_state * str :=
  if c =? 92 then (Backslash, []) else (Plain, [c]).

(** The byte after a backslash. *)
Definition backslash_step (c : N) : esc_state * str :=
  if c =? 10 then (Plain, [])
  else if c =? 92 then (Plain, [92])
  else if c =? 39 then (Plain, [39])
  else if c =? 34 then (Plain, [34])
  else if c =? 98 then (Plain, [8])
  else if c =? 102 then (Plain, [12])
  else if c =? 116 then (Plain, [9])
  else if c =? 110 then (Plain, [10])
  else if c =? 114 then (Plain, [13])
  else if c =? 118 then (Plain, [11])
  else if c =? 97 then (Plain, [7])
  else if is_octal c then (Octal 2 (c - 48), [])
  else if c =? 120 then (Hex 2 0, [])
  else if c =? 117 then (Hex 4 0, [])
  else if c =? 85 then (Hex 8 0, [])
  else if c =? 78 then (NameOpen, [])
  else (Plain, [92; c]).

(** One byte [c] in state [st]: the next state and the characters
    written. *)
Definition escape_step (st : esc_state) (c : N) : result (esc_state * str) :=
  match st with
  | Plain => Ok (plain_step c)
  | Backslash => Ok (backslash_step c)
  | Octal room ch =>
      if is_octal c && negb (Nat.eqb room 0) then
        let ch' := N.shiftl ch 3 + (c - 48) in
        if Nat.eqb room 1 then Ok (Plain, [ch'])
        else Ok (Octal (Nat.pred room) ch', [])
      else
        let '(st', out) := plain_step c in Ok (st', ch :: out)
  | Hex count ch =>
      match hexval c with
      | Some v =>
          let ch' := N.shiftl ch 4 + v in
          if Nat.leb count 1 then
            if MAX_UNICODE <? ch'
            then Raise (decode_error "illegal Unicode character")
            else Ok (Plain, [ch'])
          else Ok (Hex (Nat.pred count) ch', [])
      | None => Raise (decode_error "truncated escape")
      end
  | NameOpen =>
      if c =? 123 then Ok (NameBody [], [])
      else Raise (decode_error "malformed \N character escape")
  | NameBody name =>
      if c =? 125 then
        match name with
        | [] => Raise (decode_error "malformed \N character escape")
        | _ =>
            match getcode (rev name) with
            | Some ch => Ok (Plain, [ch])
            | None => Raise (decode_error "unknown Unicode character name")
            end
        end
      else Ok (NameBody (c :: name), [])
  end.

(** The end of the input in state [st]. *)
Definition escape_finish (st : esc_state) : result str :=
  match st with
  | Plain => Ok []
  | Backslash => Raise (decode_error "\ at end of string")
  | Octal _ ch => Ok [ch]
  | Hex _ _ => Raise (decode_error "truncated escape")
  | NameOpen | NameBody _ =>
      Raise (decode_error "malformed \N character escape")
  end.

Fixpoint unicode_escape_from (st : esc_state) (b : bytes) : result str :=
  match b with
  | [] => escape_finish st
  | c :: b' =>
      rbind (escape_step st c) (fun '(st', out) =>
      rmap (app out) (unicode_escape_from st' b'))
  end.

(** [b.decode('unicode_escape')] *)
Definition unicode_escape_decode (b : bytes) : result str :=
  unicode_escape_from Plain b.

(** ** The properties reader: the body of the loop *)

Definition required_keys : list str :=
  [lit "release.keystore"; lit "keystore.password";
   lit "key.alias"; lit "key.password"].

(** Lines 79-80: the two replacements made on the keystore path. *)
Definition replace_separators (value : str) : str :=
  let value := replace (lit "\\") (lit "\") value in
  replace (lit "\:") (lit ":") value.

(** Lines 79-89: the replacements, then
    [value.encode().decode('unicode_escape')] under
    [except (UnicodeDecodeError, UnicodeError): pass]. *)
Definition unescape_keystore (value : str) : result str :=
  let value := replace_separators value in
  match rbind (encode value) unicode_escape_decode with
  | Ok decoded => Ok decoded
  | Raise e => if is_UnicodeError e then Ok value else Raise e
  end.

(** Lines 69-91: one iteration of [for line in f]. *)
Definition process_line (properties : gmap str str) (line : str)
  : result (gmap str str) :=
  let line := strip line in
  if negb (bool_decide (line = []))
     && negb (startswith (lit "#") line)
     && contains 61 line
  then
    match split_once 61 line with
    | Some (key, value) =>
        let key := strip key in
        let value := strip value in
        rbind (if bool_decide (key = lit "release.keystore")
               then unescape_keystore value
               else Ok value) (fun value =>
        Ok (<[key := value]> properties))
    | None => Raise (ValueError (lit "not enough values to unpack"))
    end
  else Ok properties.

(** Lines 68-91: the loop over the lines of the file. *)
Fixpoint process_lines (properties : gmap str str) (lines : list str)
  : result (gmap str str) :=
  match lines with
  | [] => Ok properties
  | line :: rest =>
      rbind (process_line properties line) (fun properties' =>
      process_lines properties' rest)
  end.

(** Lines 98-99: the required keys that are not in the mapping. *)
Definition missing_keys (properties : gmap str str) : list str :=
  filter (fun key => properties !! key = None) required_keys.

(** Lines 97-103: the validation that ends the reader. *)
Definition check_required (properties : gmap str str)
  : result (gmap str str) :=
  match missing_keys properties with
  | [] => Ok properties
  | missing =>
      Raise (ValueError (lit "Missing required properties: "
                         ++ join (lit ", ") missing))
  end.

End NameTable.

(** ** Paths ([pathlib], POSIX flavour)

    A path object keeps its root and its components.  [".."] is an
    ordinary component for [pathlib]; the file system below does not
    resolve it, so paths are taken without [".."]. *)
Record ppath : Type := { anchor : str; parts : list str }.

(** [s.split(sep)] for a one-character [sep]; [cur] is the current
    field, reversed. *)
Fixpoint split_from (sep : N) (cur : str) (s : str) : list str :=
  match s with
  | [] => [rev cur]
  | c :: s' =>
      if c =? sep then rev cur :: split_from sep [] s'
      else split_from sep (c :: cur) s'
  end.

Definition split_on (sep : N) (s : str) : list str := split_from sep [] s.

Definition is_part (x : str) : bool :=
  negb (bool_decide (x = [])) && negb (bool_decide (x = lit ".")).

(** [Path(s)]: exactly two leading slashes are kept as a root of their
    own, empty components and ["."] are dropped. *)
Definition Path (s : str) : ppath :=
  {| anchor :=
       if startswith (lit "/") s then
         if startswith (lit "//") s && negb (startswith (lit "///") s)
         then lit "//" else lit "/"
       else [];
     parts := List.filter is_part (split_on 47 s) |}.

(** [str(p)] *)
Definition path_str (p : ppath) : str :=
  match anchor p, parts p with
  | [], [] => lit "."
  | a, ps => a ++ join (lit "/") ps
  end.

(** [p / segment]: an absolute segment replaces [p]. *)
Definition joinpath (p : ppath) (segment : str) : ppath :=
  let q := Path segment in
  match anchor q with
  | [] => {| anchor := anchor p; parts := parts p ++ parts q |}
  | _ => q
  end.

(** [p.parent] *)
Definition parent (p : ppath) : ppath :=
  {| anchor := anchor p; parts := removelast (parts p) |}.

(** ** The file system

    A tree of directories; a location is the list of names leading to it
    from the root. *)
Abbreviation path := (list (list N)).

#[local] Set Warnings "-register-all".
Inductive node : Type :=
  | File (data : bytes)
  | Dir (entries : gmap (list N) node).

(** Where a path object points, for a process whose working directory is
    [cwd]. *)
Definition locate (cwd : path) (p : ppath) : path :=
  (match anchor p with [] => cwd | _ => [] end) ++ parts p.

(** Path resolution: [ENOENT] when a name is missing, [ENOTDIR] when a
    regular file stands where a directory is needed. *)
Fixpoint stat (n : node) (p : path) : result node :=
  match p with
  | [] => Ok n
  | c :: p' =>
      match n with
      | File _ => Raise (NotADirectoryError (lit "Not a directory"))
      | Dir entries =>
          match entries !! c with
          | Some n' => stat n' p'
          | None => Raise (FileNotFoundError (lit "No such file or directory"))
          end
      end
  end.

Definition exists_ (fs : node) (p : path) : bool :=
  match stat fs p with Ok _ => true | Raise _ => false end.

Definition is_dir (fs : node) (p : path) : bool :=
  match stat fs p with Ok (Dir _) => true | _ => false end.

(** The tree with the entry at [p] set to [x] ([None] removes it).  The
    root is never replaced, and nothing changes when the directory that
    holds [p] is missing. *)
Fixpoint put (n : node) (p : path) (x : option node) : node :=
  match p with
  | [] => n
  | c :: p' =>
      match n with
      | File _ => n
      | Dir entries =>
          match p' with
          | [] => Dir (partial_alter (fun _ => x) c entries)
          | _ :: _ =>
              match entries !! c with
              | Some n' => Dir (<[c := put n' p' x]> entries)
              | None => n
              end
          end
      end
  end.

(** What the system answers when asked to create or open [p] for
    writing: the directory that holds [p] has to be there. *)
Definition holder_check (fs : node) (p : path) : result unit :=
  match stat fs (removelast p) with
  | Ok (Dir _) => Ok tt
  | Ok (File _) => Raise (NotADirectoryError (lit "Not a directory"))
  | Raise e => Raise e
  end.

(** [os.mkdir(p)] *)
Definition os_mkdir (fs : node) (p : path) : result node :=
  match stat fs p with
  | Ok _ => Raise (FileExistsError (lit "File exists"))
  | Raise _ =>
      rbind (holder_check fs p) (fun _ => Ok (put fs p (Some (Dir ∅))))
  end.

(** [Path.mkdir(parents=False, exist_ok=True)] *)
Definition mkdir_leaf (fs : node) (p : path) : result node :=
  match os_mkdir fs p with
  | Ok fs' => Ok fs'
  | Raise e =>
      if is_FileNotFoundError e then Raise e
      else if is_dir fs p then Ok fs else Raise e
  end.

(** [Path.mkdir(parents=True, exist_ok=True)] on the path whose
    components are [rev rparts] below [base]: try the directory itself;
    when its holder is missing, make the parent the same way and try
    again. *)
Fixpoint mkdir_parents (fs : node) (base : path) (rparts : list str)
  : result node :=
  let p := base ++ rev rparts in
  match os_mkdir fs p with
  | Ok fs' => Ok fs'
  | Raise e =>
      if is_FileNotFoundError e then
        match rparts with
        | [] => Raise e
        | _ :: rparts' =>
            rbind (mkdir_parents fs base rparts') (fun fs1 => mkdir_leaf fs1 p)
        end
      else if is_dir fs p then Ok fs else Raise e
  end.

(** [open(p, 'r', encoding='utf-8').read()] *)
Definition read_text (fs : node) (p : path) : result str :=
  match stat fs p with
  | Ok (File data) => utf8_decode data
  | Ok (Dir _) => Raise (IsADirectoryError (lit "Is a directory"))
  | Raise e => Raise e
  end.

(** [open(p, 'wb')]: the file is created, or emptied. *)
Definition open_write (fs : node) (p : path) : result node :=
  match stat fs p with
  | Ok (Dir _) => Raise (IsADirectoryError (lit "Is a directory"))
  | _ => rbind (holder_check fs p) (fun _ => Ok (put fs p (Some (File []))))
  end.

(** ** File names given as strings

    [os.stat] and [open] take a file name as it is written.  The system
    walks the same components as [pathlib] keeps, but a name that ends in
    a slash, or in a ["."] component, asks for a directory; and the empty
    name is no file. *)
Inductive ending : Type := Bare | Slash | Dot.

(** [rcomps] are the components from the last one back; [slash] tells
    that empty ones have been passed. *)
Fixpoint ending_from (slash : bool) (rcomps : list str) : ending :=
  match rcomps with
  | [] => Slash
  | c :: rest =>
      if bool_decide (c = []) then ending_from true rest
      else if bool_decide (c = lit ".") then Dot
      else if slash then Slash else Bare
  end.

Definition ending_of (s : str) : ending :=
  ending_from false (rev (split_on 47 s)).

(** [os.stat(s)] *)
Definition os_stat (fs : node) (cwd : path) (s : str) : result node :=
  match s with
  | [] => Raise (FileNotFoundError (lit "No such file or directory"))
  | _ =>
      match stat fs (locate cwd (Path s)), ending_of s with
      | Ok (File _), (Slash | Dot) =>
          Raise (NotADirectoryError (lit "Not a directory"))
      | r, _ => r
      end
  end.

(** [os.path.isdir(s)] and [os.path.exists(s)] *)
Definition os_path_isdir (fs : node) (cwd : path) (s : str) : bool :=
  match os_stat fs cwd s with Ok (Dir _) => true | _ => false end.

Definition os_path_exists (fs : node) (cwd : path) (s : str) : bool :=
  match os_stat fs cwd s with Ok _ => true | Raise _ => false end.

(** [os.path.join(a, b)] *)
Definition os_path_join (a b : str) : str :=
  if startswith (lit "/") b then b
  else match a with
       | [] => b
       | _ => if List.last a 0 =? 47 then a ++ b else a ++ lit "/" ++ b
       end.

(** [open(s, 'wb')]: only a bare name can be created or emptied.  With
    a slash at the end the system answers [EISDIR] once the holder is
    found; with a ["."] at the end it looks for a directory of that
    name. *)
Definition os_open_write (fs : node) (cwd : path) (s : str) : result node :=
  match s with
  | [] => Raise (FileNotFoundError (lit "No such file or directory"))
  | _ =>
      let p := locate cwd (Path s) in
      match ending_of s with
      | Bare => open_write fs p
      | Slash =>
          match stat fs p with
          | Ok _ => Raise (IsADirectoryError (lit "Is a directory"))
          | Raise _ =>
              rbind (holder_check fs p) (fun _ =>
              Raise (IsADirectoryError (lit "Is a directory")))
          end
      | Dot =>
          match stat fs p with
          | Ok (Dir _) => Raise (IsADirectoryError (lit "Is a directory"))
          | Ok (File _) => Raise (NotADirectoryError (lit "Not a directory"))
          | Raise e => Raise e
          end
      end
  end.

(** ** The world

    What a run can observe and change: the file system, the environment,
    the behaviour of external programs, the names [tempfile] will try,
    the files whose times and mode the process may not set (they belong
    to someone else, which the tree does not show), and the log of
    effects so far (oldest first). *)
Inductive outcome : Type :=
  | Exited (returncode : Z) (stdout stderr : bytes)
  | NotFound
  | Denied.

Inductive event : Type :=
  | EPrint (text : str)
  | EPrintErr (text : str)
  | ESpawn (argv : list str) (o : outcome)
  | EMkdir (p : path)
  | EMkdtemp (d : path)
  | EWrite (p : path)
  | ECopy (src dst : path)
  | ERmtree (d : path).

Record world : Type := {
  fs : node;
  cwd : path;
  environ : gmap (list N) (list N);
  unicodedata : bytes -> option N;
  processes : list str -> node -> outcome * node;
  tmp_candidates : list str;
  copystat_refused : path -> bool;
  log : list event
}.

Definition set_fs (w : world) (fs' : node) : world :=
  {| fs := fs'; cwd := cwd w; environ := environ w;
     unicodedata := unicodedata w; processes := processes w;
     tmp_candidates := tmp_candidates w;
     copystat_refused := copystat_refused w; log := log w |}.

Definition add_log (w : world) (e : event) : world :=
  {| fs := fs w; cwd := cwd w; environ := environ w;
     unicodedata := unicodedata w; processes := processes w;
     tmp_candidates := tmp_candidates w;
     copystat_refused := copystat_refused w; log := log w ++ [e] |}.

(** Computations: they read and change the world, and return or raise. *)
Definition M (A : Type) : Type := world -> result A * world.

Definition ret {A} (a : A) : M A := fun w => (Ok a, w).

Definition raise {A} (e : exn) : M A := fun w => (Raise e, w).

Definition bind {A B} (m : M A) (k : A -> M B) : M B :=
  fun w =>
    match m w with
    | (Ok a, w') => k a w'
    | (Raise e, w') => (Raise e, w')
    end.

#[global] Instance M_ret : MRet M := @ret.
#[global] Instance M_bind : MBind M := fun A B k m => bind m k.

(** [try: m  except ...: handler]; a handler that does not apply
    re-raises. *)
Definition try_catch {A} (m : M A) (handler : exn -> M A) : M A :=
  fun w =>
    match m w with
    | (Ok a, w') => (Ok a, w')
    | (Raise e, w') => handler e w'
    end.

(** A pure computation that may raise, run inside [M]. *)
Definition lift {A} (r : result A) : M A := fun w => (r, w).

Definition emit (e : event) : M unit := fun w => (Ok tt, add_log w e).

(** [print(text)]; a line printed with [file=sys.stderr] is logged as
    [EPrintErr]. *)
Definition print (text : str) : M unit := emit (EPrint text).

(** [Path(...).exists()] *)
Definition path_exists (p : ppath) : M bool :=
  fun w => (Ok (exists_ (fs w) (locate (cwd w) p)), w).

(** [os.environ.get(name)] *)
Definition environ_get (name : str) : M (option str) :=
  fun w => (Ok (environ w !! name), w).

(** [d[key]] *)
Definition getitem (d : gmap (list N) (list N)) (key : str) : M str :=
  match d !! key with
  | Some v => ret v
  | None => raise (KeyError key)
  end.

(** A file-system operation: [op] applied to the current tree, logged as
    [e] when it succeeds. *)
Definition fs_op (op : node -> result node) (e : event) : M unit :=
  fun w =>
    match op (fs w) with
    | Ok fs' => (Ok tt, add_log (set_fs w fs') e)
    | Raise err => (Raise err, w)
    end.

(** What [communicate()] hands over for a pipe read in text mode: the
    bytes decoded strictly in the locale's encoding, which is UTF-8, with
    every ["\r\n"] and ["\r"] turned into ["\n"]. *)
Definition translate_newlines (s : str) : str :=
  replace [13] [10] (replace [13; 10] [10] s).

Definition decode_output (b : bytes) : result str :=
  rmap translate_newlines (utf8_decode b).

(** The captured output as the caller gets it: both streams are decoded
    when [text=True], the standard output first; without it they stay
    [bytes]. *)
Definition captured (text : bool) (out err : bytes) : result (str * str) :=
  if text then
    rbind (decode_output out) (fun out' =>
    rbind (decode_output err) (fun err' => Ok (out', err')))
  else Ok (out, err).

(** [subprocess.run(argv, capture_output=True, check=True)], with
    [text=True] or without.  An argument that holds a NUL is refused
    before anything is started.  Otherwise the program runs to its end,
    or cannot be started; its output is decoded before its exit status is
    looked at, and a non-zero status raises [CalledProcessError] with the
    captured output. *)
Definition subprocess_run (text : bool) (argv : list str) : M (str * str) :=
  fun w =>
    if existsb (contains 0) argv
    then (Raise (ValueError (lit "embedded null byte")), w)
    else
      let '(o, fs') := processes w argv (fs w) in
      let w' := add_log (set_fs w fs') (ESpawn argv o) in
      match o with
      | Exited rc out err =>
          match captured text out err with
          | Ok (out', err') =>
              if (rc =? 0)%Z then (Ok (out', err'), w')
              else (Raise (CalledProcessError rc argv out' err'), w')
          | Raise e => (Raise e, w')
          end
      | NotFound =>
          (Raise (FileNotFoundError (lit "No such file or directory")), w')
      | Denied => (Raise (PermissionError (lit "Permission denied")), w')
      end.

(** [tempfile.mkdtemp()]: the first candidate name that [os.mkdir]
    accepts. *)
Fixpoint mkdtemp_from (fs : node) (cwd : path) (names : list str)
  : result (str * node) :=
  match names with
  | [] =>
      Raise (FileExistsError (lit "No usable temporary directory name found"))
  | name :: names' =>
      match os_mkdir fs (locate cwd (Path name)) with
      | Ok fs' => Ok (name, fs')
      | Raise (FileExistsError _) => mkdtemp_from fs cwd names'
      | Raise e => Raise e
      end
  end.

Definition mkdtemp : M str :=
  fun w =>
    match mkdtemp_from (fs w) (cwd w) (tmp_candidates w) with
    | Ok (name, fs') =>
        (Ok name, add_log (set_fs w fs') (EMkdtemp (locate (cwd w) (Path name))))
    | Raise e => (Raise e, w)
    end.

(** [TemporaryDirectory.cleanup()]: the directory goes, with all it
    holds, and a name that is no longer there is no error.  The removal
    raises only when a regular file stands at the name, which the
    conventions exclude. *)
Definition cleanup (name : str) : M unit :=
  fun w =>
    let d := locate (cwd w) (Path name) in
    (Ok tt, add_log (set_fs w (put (fs w) d None)) (ERmtree d)).

(** [with tempfile.TemporaryDirectory() as temp_dir: body]: [cleanup]
    runs however [body] ends. *)
Definition with_TemporaryDirectory {A} (body : str -> M A) : M A :=
  fun w =>
    match mkdtemp w with
    | (Raise e, w1) => (Raise e, w1)
    | (Ok temp_dir, w1) =>
        let '(r, w2) := body temp_dir w1 in
        match cleanup temp_dir w2 with
        | (Ok _, w3) => (r, w3)
        | (Raise e, w3) => (Raise e, w3)
        end
    end.

(** [open(p, 'w', encoding='utf-8')] followed by [f.write(content)] *)
Definition write_text (p : ppath) (content : str) : M unit :=
  fun w =>
    let loc := locate (cwd w) p in
    match open_write (fs w) loc with
    | Raise e => (Raise e, w)
    | Ok fs1 =>
        match encode content with
        | Raise e => (Raise e, add_log (set_fs w fs1) (EWrite loc))
        | Ok data =>
            (Ok tt, add_log (set_fs w (put fs1 loc (Some (File data))))
                            (EWrite loc))
        end
    end.

(** [shutil.copyfile(src, dst)] for a path object [src] and a file name
    [dst]: a file is not copied onto itself; the source is opened, then
    the destination, which is created or emptied, and the bytes are
    written.  When the destination cannot be opened because it is taken
    for a directory that is not there, the error says so. *)
Definition shutil_copyfile (src : ppath) (dst : str) : M unit :=
  fun w =>
    let s := locate (cwd w) src in
    let d := locate (cwd w) (Path dst) in
    if bool_decide (s = d) && exists_ (fs w) s
       && os_path_exists (fs w) (cwd w) dst
    then (Raise (SameFileError
                   (lit "PosixPath(" ++ py_repr (path_str src) ++ lit ") and "
                    ++ py_repr dst ++ lit " are the same file")), w)
    else
      match stat (fs w) s with
      | Ok (File data) =>
          match os_open_write (fs w) (cwd w) dst with
          | Ok fs1 =>
              (Ok tt, add_log (set_fs w (put fs1 d (Some (File data))))
                              (ECopy s d))
          | Raise e =>
              if is_IsADirectoryError e
                 && negb (os_path_exists (fs w) (cwd w) dst)
              then (Raise (FileNotFoundError
                             (lit "Directory does not exist: " ++ dst)), w)
              else (Raise e, w)
          end
      | Ok (Dir _) => (Raise (IsADirectoryError (lit "Is a directory")), w)
      | Raise e => (Raise e, w)
      end.

(** [shutil.copystat(src, dst)]: the times and the mode of the source
    are set on the destination, which the system refuses for a file of
    another owner. *)
Definition shutil_copystat (src : ppath) (dst : str) : M unit :=
  fun w =>
    if copystat_refused w (locate (cwd w) (Path dst))
    then (Raise (PermissionError (lit "Operation not permitted")), w)
    else (Ok tt, w).

(** [os.path.basename(str(p))] *)
Definition basename_of (p : ppath) : str :=
  match anchor p, parts p with
  | [], [] => lit "."
  | _, ps => List.last ps []
  end.

(** [shutil.copy2(src, dst)]: into [dst], under the name of the source,
    when [dst] is a directory; the content first, then the metadata. *)
Definition shutil_copy2 (src : ppath) (dst : str) : M unit :=
  fun w =>
    let dst :=
      if os_path_isdir (fs w) (cwd w) dst
      then os_path_join dst (basename_of src)
      else dst in
    (_ ← shutil_copyfile src dst; shutil_copystat src dst) w.

(** [p.parent.mkdir(parents=True, exist_ok=True)] *)
Definition mkdir_parent_of (p : ppath) : M unit :=
  fun w =>
    let q := parent p in
    let base := match anchor q with [] => cwd w | _ => [] end in
    fs_op (fun f => mkdir_parents f base (rev (parts q)))
          (EMkdir (locate (cwd w) q)) w.

(** ** The script *)

(** Lines 31-36. *)
Record config : Type := {
  aab_file : str;
  output_file : str;
  bundletool_jar : str;
  signing_properties : str
}.

Definition DEFAULT_CONFIG : config :=
  {| aab_file := lit "app.aab";
     output_file := lit "app-universal.apk";
     bundletool_jar := lit "bundletool-all-1.18.1.jar";
     signing_properties := lit "signing.properties" |}.

(** The attributes of a [BundletoolWrapper] object. *)
Record BundletoolWrapper : Type := {
  bundletool_path : ppath;
  java_cmd : str
}.

Definition java_probe : list str := [lit "java"; lit "-version"].

(** [Path(java_home) / 'bin' / 'java'] *)
Definition java_under (home : str) : ppath :=
  joinpath (joinpath (Path home) (lit "bin")) (lit "java").

Definition java_not_found : exn :=
  RuntimeError (lit
    "Java not found. Please install Java or set JAVA_HOME environment variable.").

(** Lines 54-61: the second attempt of [_find_java]. *)
Definition java_from_home : M str :=
  java_home ← environ_get (lit "JAVA_HOME");
  match java_home with
  | Some ((_ :: _) as home) =>
      let java_exe := java_under home in
      there ← path_exists java_exe;
      if there : bool then mret (path_str java_exe) else raise java_not_found
  | _ => raise java_not_found
  end.

(** Lines 44-61.  The [try] block answers [Some 'java'] when it
    returns, and [None] when its [except] clause swallowed the error. *)
Definition _find_java : M str :=
  found ← try_catch
            (_ ← subprocess_run false java_probe; mret (Some (lit "java")))
            (fun e =>
               if is_CalledProcessError e || is_FileNotFoundError e
               then mret None else raise e);
  match found with
  | Some java => mret java
  | None => java_from_home
  end.

(** Lines 40-42. *)
Definition __init__ (bundletool : str) : M BundletoolWrapper :=
  java ← _find_java;
  mret {| bundletool_path := Path bundletool; java_cmd := java |}.

(** Lines 63-103. *)
Definition _read_signing_properties (properties_file : str)
  : M (gmap (list N) (list N)) :=
  properties ← try_catch
    (fun w =>
       (rbind (read_text (fs w) (locate (cwd w) (Path properties_file)))
          (fun text => process_lines (unicodedata w) ∅ (readlines text)), w))
    (fun e =>
       if is_FileNotFoundError e
       then raise (FileNotFoundError
                     (lit "Properties file not found: " ++ properties_file))
       else raise (RuntimeError
                     (lit "Error reading properties file: " ++ exn_str e)));
  lift (check_required properties).

(** Lines 105-122. *)
Definition _validate_inputs (self : BundletoolWrapper)
    (aab output : str) (signing_props : gmap (list N) (list N)) : M unit :=
  aab_there ← path_exists (Path aab);
  if negb aab_there
  then raise (FileNotFoundError (lit "AAB file not found: " ++ aab))
  else
    jar_there ← path_exists (bundletool_path self);
    if negb jar_there
    then raise (FileNotFoundError
                  (lit "Bundletool JAR not found: "
                   ++ path_str (bundletool_path self)))
    else
      keystore_path ← getitem signing_props (lit "release.keystore");
      keystore_there ← path_exists (Path keystore_path);
      if negb keystore_there
      then raise (FileNotFoundError
                    (lit "Keystore file not found: " ++ keystore_path))
      else mkdir_parent_of (Path output).

Definition dq : str := [34].
Definition nl : str := [10].

(** Lines 192-197. *)
Definition device_spec_content : str :=
  lit "{" ++ nl
  ++ lit "  " ++ dq ++ lit "supportedAbis" ++ dq ++ lit ": ["
     ++ dq ++ lit "arm64-v8a" ++ dq ++ lit "]," ++ nl
  ++ lit "  " ++ dq ++ lit "supportedLocales" ++ dq ++ lit ": ["
     ++ dq ++ lit "en" ++ dq ++ lit "]," ++ nl
  ++ lit "  " ++ dq ++ lit "screenDensity" ++ dq ++ lit ": 480," ++ nl
  ++ lit "  " ++ dq ++ lit "sdkVersion" ++ dq ++ lit ": 34" ++ nl
  ++ lit "}".

(** Lines 189-202. *)
Definition _create_device_spec (temp_dir : str) : M str :=
  let device_spec_path := joinpath (Path temp_dir) (lit "device_spec.json") in
  _ ← write_text device_spec_path device_spec_content;
  mret (path_str device_spec_path).

Definition check_mark : str := [10003].

(** Lines 152-159 and 171-178: run one bundletool command; a
    [CalledProcessError] is reported on the standard output and raised
    again. *)
Definition run_step (cmd : list str) (done failed : str) : M unit :=
  try_catch
    (_ ← subprocess_run true cmd; print (check_mark ++ done))
    (fun e =>
       match e with
       | CalledProcessError _ _ out err =>
           _ ← print (failed ++ exn_str e);
           _ ← print (lit "Command output: " ++ out);
           _ ← print (lit "Command error: " ++ err);
           raise e
       | _ => raise e
       end).

(** Lines 140-150. *)
Definition build_cmd (self : BundletoolWrapper) (aab : str)
    (temp_apks : ppath) (ks ks_pass alias key_pass : str) : list str :=
  [java_cmd self; lit "-jar"; path_str (bundletool_path self);
   lit "build-apks";
   lit "--bundle"; aab;
   lit "--output"; path_str temp_apks;
   lit "--mode"; lit "universal";
   lit "--ks"; ks;
   lit "--ks-pass"; lit "pass:" ++ ks_pass;
   lit "--ks-key-alias"; alias;
   lit "--key-pass"; lit "pass:" ++ key_pass].

(** Lines 163-169. *)
Definition extract_cmd (self : BundletoolWrapper) (temp_apks : ppath)
    (temp_dir device_spec : str) : list str :=
  [java_cmd self; lit "-jar"; path_str (bundletool_path self);
   lit "extract-apks";
   lit "--apks"; path_str temp_apks;
   lit "--output-dir"; temp_dir;
   lit "--device-spec"; device_spec].

(** Lines 180-187: the third step of the body. *)
Definition copy_step (temp_dir output : str) : M unit :=
  let universal_apk := joinpath (Path temp_dir) (lit "universal.apk") in
  there ← path_exists universal_apk;
  if there : bool then
    _ ← shutil_copy2 universal_apk output;
    print (check_mark ++ lit " APK saved to: " ++ output)
  else raise (RuntimeError (lit "Universal APK not found after extraction")).

(** Lines 136-187: the body of the [with] block. *)
Definition convert_in (self : BundletoolWrapper) (aab output : str)
    (signing_props : gmap (list N) (list N)) (temp_dir : str) : M unit :=
  let temp_apks := joinpath (Path temp_dir) (lit "temp.apks") in
  _ ← print (lit "Step 1: Generating universal APK set...");
  ks ← getitem signing_props (lit "release.keystore");
  ks_pass ← getitem signing_props (lit "keystore.password");
  alias ← getitem signing_props (lit "key.alias");
  key_pass ← getitem signing_props (lit "key.password");
  _ ← run_step (build_cmd self aab temp_apks ks ks_pass alias key_pass)
        (lit " Universal APK set generated successfully")
        (lit "Error generating APK set: ");
  _ ← print (lit "Step 2: Extracting universal APK...");
  device_spec ← _create_device_spec temp_dir;
  _ ← run_step (extract_cmd self temp_apks temp_dir device_spec)
        (lit " Universal APK extracted successfully")
        (lit "Error extracting APK: ");
  copy_step temp_dir output.

(** Lines 124-187. *)
Definition convert_aab_to_apk (self : BundletoolWrapper)
    (aab output signing_properties_file : str) : M unit :=
  _ ← print (lit "Converting " ++ aab ++ lit " to " ++ output ++ lit "...");
  signing_props ← _read_signing_properties signing_properties_file;
  _ ← _validate_inputs self aab output signing_props;
  with_TemporaryDirectory (convert_in self aab output signing_props).

(** Lines 225-232: the body of the [try] in [main]. *)
Definition main_body (args : config) : M unit :=
  wrapper ← __init__ (bundletool_jar args);
  _ ← convert_aab_to_apk wrapper (aab_file args) (output_file args)
        (signing_properties args);
  print (nl ++ [127881] ++ lit " Successfully converted " ++ aab_file args
         ++ lit " to " ++ output_file args).

(** Lines 223-236, from the parsed arguments on: the exit status of the
    process and the world it leaves. *)
Definition main (args : config) (w : world) : Z * world :=
  match main_body args w with
  | (Ok _, w') => (0%Z, w')
  | (Raise e, w') =>
      (1%Z, add_log w' (EPrintErr ([10060] ++ lit " Error: " ++ exn_str e)))
  end.

(** ** Sample worlds *)

Definition no_names : bytes -> option N := fun _ => None.

Definition dir_of (entries : list (str * node)) : node :=
  Dir (list_to_map entries).

(** A bundletool that works: [build-apks] writes the archive named by
    its eighth argument, [extract-apks] writes [universal.apk] into the
    directory named by its eighth argument. *)
Definition good_tool (argv : list str) (f : node) : outcome * node :=
  match argv with
  | [_; _] => (Exited 0 [] (lit "openjdk version 17"), f)
  | _ :: _ :: _ :: cmd :: _ :: _ :: _ :: target :: _ =>
      if bool_decide (cmd = lit "build-apks")
      then (Exited 0 [] [], put f (locate [] (Path target)) (Some (File [80; 75])))
      else (Exited 0 [] [],
            put f (locate [] (Path target) ++ [lit "universal.apk"])
                  (Some (File [65; 80; 75])))
  | _ => (NotFound, f)
  end.

(** A bundletool whose [build-apks] step fails. *)
Definition failing_tool (argv : list str) (f : node) : outcome * node :=
  match argv with
  | [_; _] => (Exited 0 [] [], f)
  | _ => (Exited 1 (lit "out") (lit "bad keystore"), f)
  end.

(** A bundletool whose [build-apks] step fails and writes bytes that are
    not UTF-8. *)
Definition garbling_tool (argv : list str) (f : node) : outcome * node :=
  match argv with
  | [_; _] => (Exited 0 [] [], f)
  | _ => (Exited 1 [255] (lit "bad keystore"), f)
  end.

Definition good_properties : str :=
  lit "# signing" ++ nl
  ++ lit "release.keystore = /work/release.jks" ++ nl
  ++ nl
  ++ lit "keystore.password=secret" ++ nl
  ++ lit "key.alias=upload" ++ nl
  ++ lit "key.password=secret2" ++ nl.

Definition short_properties : str :=
  lit "release.keystore=/work/release.jks" ++ nl
  ++ lit "key.alias=upload" ++ nl.

Definition work_dir (with_aab : bool) (properties : str) : node :=
  dir_of ((if with_aab then [(lit "app.aab", File [1; 2; 3])] else [])
          ++ [(lit "bundletool.jar", File [4]);
              (lit "release.jks", File [5]);
              (lit "signing.properties", File properties)]).

Definition sample_world (with_aab : bool) (properties : str)
    (tool : list str -> node -> outcome * node) : world :=
  {| fs := dir_of [(lit "work", work_dir with_aab properties);
                   (lit "tmp", dir_of [])];
     cwd := [lit "work"];
     environ := ∅;
     unicodedata := no_names;
     processes := tool;
     tmp_candidates := [lit "/tmp"; lit "/tmp/tmpab12cd34"];
     copystat_refused := fun _ => false;
     log := [] |}.

(** The sample world on a file system that does not let a process set
    the times and the mode of a file. *)
Definition refusing_world : world :=
  let w := sample_world true good_properties good_tool in
  {| fs := fs w; cwd := cwd w; environ := environ w;
     unicodedata := unicodedata w; processes := processes w;
     tmp_candidates := tmp_candidates w;
     copystat_refused := fun _ => true; log := [] |}.

Definition sample_args : config :=
  {| aab_file := lit "app.aab";
     output_file := lit "out/app.apk";
     bundletool_jar := lit "/work/bundletool.jar";
     signing_properties := lit "signing.properties" |}.


(** No [java] on the search path, and a [java] that may not be run. *)
Definition no_java_tool (argv : list str) (f : node) : outcome * node :=
  (NotFound, f).

Definition denied_tool (argv : list str) (f : node) : outcome * node :=
  (Denied, f).

(** A machine with a JDK under [/opt/jdk] and [JAVA_HOME] pointing at
    it. *)
Definition jdk_world (tool : list str -> node -> outcome * node) : world :=
  {| fs := dir_of [(lit "opt",
             dir_of [(lit "jdk",
               dir_of [(lit "bin", dir_of [(lit "java", File [127])])])])];
     cwd := [];
     environ := {[ lit "JAVA_HOME" := lit "/opt/jdk" ]};
     unicodedata := no_names;
     processes := tool;
     tmp_candidates := [];
     copystat_refused := fun _ => false;
     log := [] |}.

Definition sample_wrapper : BundletoolWrapper :=
  {| bundletool_path := Path (lit "/work/bundletool.jar");
     java_cmd := lit "java" |}.

(** What [main] prints on the error stream for the exception [e]. *)
Definition failure_report (e : exn) : event :=
  EPrintErr ([10060] ++ lit " Error: " ++ exn_str e).

(** ** The reader, in the words of the specification

    A line that is not blank and not a comment is split on the first
    ["="], and key and value are trimmed. *)
Definition spec_split (line : str) : option (str * str) :=
  let t := strip line in
  if bool_decide (t = []) || startswith (lit "#") t then None
  else match split_once 61 t with
       | Some (k, v) => Some (strip k, strip v)
       | None => None
       end.

Definition spec_key (line : str) : option str := fst <$> spec_split line.

(** The value kept for the keystore path: the two replacements, then
    the generic decode when it succeeds. *)
Definition spec_keystore (getcode : bytes -> option N) (v : str) : str :=
  match rbind (encode (replace_separators v)) (unicode_escape_decode getcode) with
  | Ok decoded => decoded
  | Raise _ => replace_separators v
  end.

Definition spec_value (getcode : bytes -> option N) (k v : str) : str :=
  if bool_decide (k = lit "release.keystore") then spec_keystore getcode v
  else v.

Definition keystore_key : str := lit "release.keystore".

(** [sub in s] *)
Fixpoint occurs (sub s : str) : bool :=
  startswith sub s || match s with [] => false | _ :: s' => occurs sub s' end.

(** The mapping after one more line. *)
Definition apply_entry (gc : bytes -> option N) (m : gmap (list N) (list N))
    (line : str) : gmap (list N) (list N) :=
  match spec_split line with
  | Some (k, v) => <[k := spec_value gc k v]> m
  | None => m
  end.

(** The characters that start an escape the decoder knows. *)
Definition recognised (d : N) : bool :=
  (d =? 10) || (d =? 92) || (d =? 39) || (d =? 34) || (d =? 98)
  || (d =? 102) || (d =? 116) || (d =? 110) || (d =? 114) || (d =? 118)
  || (d =? 97) || is_octal d || (d =? 120) || (d =? 117) || (d =? 85)
  || (d =? 78).

(** An ASCII text in which every backslash is followed by a character
    that starts no known escape. *)
Fixpoint tame (s : str) : bool :=
  match s with
  | [] => true
  | c :: s' =>
      (c <? 128)
      && (if c =? 92
          then match s' with d :: _ => negb (recognised d) | [] => false end
          else true)
      && tame s'
  end.

(** The events of a run that starts in [w] and ends in [w']. *)
Definition events_since (w w' : world) : list event :=
  drop (length (log w)) (log w').

Definition is_spawn (e : event) : bool :=
  match e with ESpawn _ _ => true | _ => false end.

Definition is_copy (e : event) : bool :=
  match e with ECopy _ _ => true | _ => false end.

(** The external programs started, in order. *)
Definition spawns (evs : list event) : list (list str * outcome) :=
  omap (fun e => match e with ESpawn argv o => Some (argv, o) | _ => None end)
       evs.

Definition is_file (f : node) (p : path) : bool :=
  match stat f p with Ok (File _) => true | _ => false end.

(** What stands at [p]: nothing, a directory ([true]) or a regular
    file ([false]). *)
Definition kind (f : node) (p : path) : option bool :=
  match stat f p with
  | Ok (Dir _) => Some true
  | Ok (File _) => Some false
  | Raise _ => None
  end.

(** ** Reasoning about runs *)

(** What no operation of the script changes. *)
Definition same_frame (w w' : world) : Prop :=
  cwd w' = cwd w /\ environ w' = environ w
  /\ unicodedata w' = unicodedata w /\ processes w' = processes w
  /\ tmp_candidates w' = tmp_candidates w
  /\ copystat_refused w' = copystat_refused w.

(** [w'] is reached from [w] by logging events that all satisfy [P]. *)
Definition steps (P : event -> Prop) (w w' : world) : Prop :=
  same_frame w w' /\ exists evs, log w' = log w ++ evs /\ Forall P evs.

(** The program that [argv] starts makes no regular file at [x]. *)
Definition tool_keeps (w : world) (argv : list str) (x : path) : Prop :=
  forall f,
    is_file f x = false -> is_file (snd (processes w argv f)) x = false.

(** None of the programs started in [evs] makes a regular file at
    [x]. *)
Definition started_keep (w : world) (evs : list event) (x : path) : Prop :=
  forall argv o, ESpawn argv o ∈ evs -> tool_keeps w argv x.

(** From [w] to [w'], no regular file appeared at [x], a location
    outside the directory [name], unless a program that was started made
    one. *)
Definition keeps (name : str) (x : path) (w w' : world) : Prop :=
  same_frame w w'
  /\ exists evs,
       log w' = log w ++ evs
       /\ (started_keep w evs x ->
           ~ locate (cwd w) (Path name) `prefix_of` x ->
           is_file (fs w) x = false -> is_file (fs w') x = false).

(** However [m] ends, the worlds before and after are related by [R]. *)
Definition respects (R : world -> world -> Prop) {A} (m : M A) : Prop :=
  forall w, R w (snd (m w)).

(** [m], run in [w], ends with a result and a world that satisfy [Q]. *)
Definition ends {A} (m : M A) (w : world) (Q : result A -> world -> Prop)
  : Prop :=
  Q (fst (m w)) (snd (m w)).

Definition quiet_event (e : event) : Prop :=
  match e with
  | EPrint _ | ESpawn _ _ | EWrite _ => True
  | _ => False
  end.

Definition any_event (e : event) : Prop := True.

(** One step of the body of the [with] block, before the copy. *)
Definition body_step (name : str) (x : path) (w w' : world) : Prop :=
  steps quiet_event w w' /\ keeps name x w w'.

Definition body_event (e : event) : Prop :=
  match e with
  | EPrint _ | ESpawn _ _ | EWrite _ | ECopy _ _ => True
  | _ => False
  end.

(** How the body of the [with] block, started in [w0], ends.  Without
    a copy it has failed, and no new regular file stands at [x] unless a
    program it started made one.  With a copy the destination is a
    regular file, at the output path or inside it, and not where the
    temporary directory is; the body has then returned, or failed because
    the metadata could not be set. *)
Definition body_post (out name : str) (x : path) (w0 : world)
    (r : result unit) (w' : world) : Prop :=
  let o := locate (cwd w0) (Path out) in
  let d := locate (cwd w0) (Path name) in
  same_frame w0 w'
  /\ exists evs, log w' = log w0 ++ evs /\ Forall body_event evs
     /\ ((Forall (fun e => is_copy e = false) evs
          /\ (exists e, r = Raise e)
          /\ (started_keep w0 evs x -> ~ d `prefix_of` x ->
              is_file (fs w0) x = false -> is_file (fs w') x = false))
         \/ (exists src dst,
               ECopy src dst ∈ evs
               /\ dst = (if is_dir (fs w') o
                         then o ++ [lit "universal.apk"] else o)
               /\ is_file (fs w') dst = true
               /\ is_dir (fs w') d = true
               /\ o <> d /\ dst <> d
               /\ match r with
                  | Ok _ => True
                  | Raise e =>
                      copystat_refused w0 dst = true
                      /\ e = PermissionError (lit "Operation not permitted")
                  end)).

Definition no_spawn (e : event) : Prop := is_spawn e = false.

(** The prefixes of a path, the path itself included. *)
Fixpoint prefixes_of (p : path) : list path :=
  [] :: match p with
        | [] => []
        | c :: p' => map (cons c) (prefixes_of p')
        end.

(** What [subprocess.run(argv, text=True, check=True)] raises for an
    outcome of the program, if anything. *)
Definition spawn_error (argv : list str) (o : outcome) : option exn :=
  match o with
  | Exited rc out err =>
      match captured true out err with
      | Ok (out', err') =>
          if (rc =? 0)%Z then None
          else Some (CalledProcessError rc argv out' err')
      | Raise e => Some e
      end
  | NotFound => Some (FileNotFoundError (lit "No such file or directory"))
  | Denied => Some (PermissionError (lit "Permission denied"))
  end.

(** The external programs of one conversion that worked in the
    temporary directory [name] with the properties [props], in the order
    they were started, against the result [r] of the conversion. *)
Definition protocol (self : BundletoolWrapper) (aab : str)
    (props : gmap (list N) (list N)) (name : str) (r : result unit)
    (started : list (list str * outcome)) : Prop :=
  let temp_apks := joinpath (Path name) (lit "temp.apks") in
  match started with
  | [] => exists e, r = Raise e
  | (argv1, o1) :: rest =>
      (exists ks ks_pass alias key_pass,
         props !! lit "release.keystore" = Some ks
         /\ props !! lit "keystore.password" = Some ks_pass
         /\ props !! lit "key.alias" = Some alias
         /\ props !! lit "key.password" = Some key_pass
         /\ argv1 = build_cmd self aab temp_apks ks ks_pass alias key_pass)
      /\ match rest with
         | [] =>
             exists e, r = Raise e
                       /\ forall e1, spawn_error argv1 o1 = Some e1 -> e = e1
         | [(argv2, o2)] =>
             spawn_error argv1 o1 = None
             /\ argv2 = extract_cmd self temp_apks name
                          (path_str (joinpath (Path name)
                                       (lit "device_spec.json")))
             /\ match spawn_error argv2 o2 with
                | Some e2 => r = Raise e2
                | None => True
                end
         | _ => False
         end
  end.

(** What the body of the [with] block may do with the temporary
    directory [d]: print, start programs, write the device
    specification there and copy the artefact from there. *)
Definition inside (d : path) (e : event) : Prop :=
  match e with
  | EPrint _ | ESpawn _ _ => True
  | EWrite p => p = d ++ [lit "device_spec.json"]
  | ECopy src _ => src = d ++ [lit "universal.apk"]
  | _ => False
  end.

(** What happens before the temporary directory is made. *)
Definition before_body (e : event) : Prop :=
  match e with
  | EPrint _ | EMkdir _ => True
  | _ => False
  end.

Definition confined (name : str) (w w' : world) : Prop :=
  steps (inside (locate (cwd w) (Path name))) w w'.

Definition is_KeyError (e : exn) : bool :=
  match e with KeyError _ => true | _ => false end.

(** Neither a [KeyError] nor a [UnicodeError]. *)
Definition plain (e : exn) : Prop :=
  is_KeyError e = false /\ is_UnicodeError e = false.




(** What [run_step] prints about the error [e] of a run before it
    raises it again: three lines for a [CalledProcessError], nothing for
    any other error. *)
Definition report_lines (failed : str) (e : exn) : list event :=
  match e with
  | CalledProcessError _ _ out err =>
      [EPrint (failed ++ exn_str e);
       EPrint (lit "Command output: " ++ out);
       EPrint (lit "Command error: " ++ err)]
  | _ => []
  end.

(** An event that is not a line the script prints on the error
    stream. *)
Definition no_stderr (e : event) : Prop :=
  match e with EPrintErr _ => False | _ => True end.

(** * Properties *)

(** ** Strings *)

Lemma lstrip_contains c s : contains c s = false -> contains c (lstrip s) = false.
Proof.
  induction s as [|a s IH]; simpl; [done|].
  intros H. apply orb_false_elim in H as [Ha Hs].
  destruct (isspace a); [auto|]. simpl. by rewrite Ha, Hs.
Qed.

Lemma contains_rev c s : contains c (rev s) = contains c s.
Proof.
  unfold contains. induction s as [|a s IH]; simpl; [done|].
  rewrite existsb_app, IH. simpl. rewrite orb_false_r. apply orb_comm.
Qed.

Lemma strip_contains c s : contains c s = false -> contains c (strip s) = false.
Proof.
  intros H. unfold strip, rstrip. rewrite contains_rev.
  apply lstrip_contains. rewrite contains_rev. by apply lstrip_contains.
Qed.

Lemma split_once_none c s : split_once c s = None <-> contains c s = false.
Proof.
  induction s as [|a s IH]; simpl; [done|].
  rewrite (N.eqb_sym c a). destruct (a =? c); simpl; [split; discriminate|].
  destruct (split_once c s) as [[x y]|]; split; intros H; try discriminate; try done.
  - apply IH in H. discriminate.
  - by apply IH.
Qed.

Lemma join_infix sep k (l : list str) :
  k ∈ l -> exists a b, join sep l = a ++ k ++ b.
Proof.
  induction l as [|x l IH]; [by intros H%elem_of_nil|].
  intros [->|H]%elem_of_cons.
  - destruct l as [|y l]; simpl.
    + exists [], []. by rewrite app_nil_r.
    + by exists [], (sep ++ join sep (y :: l)).
  - destruct (IH H) as (a & b & E). destruct l as [|y l]; [by apply elem_of_nil in H|].
    exists (x ++ sep ++ a), b.
    change (join sep (x :: y :: l)) with (x ++ sep ++ join sep (y :: l)).
    rewrite E. by rewrite <- !app_assoc.
Qed.

(** ** Codecs never raise anything but a [UnicodeError] *)

Lemma encode_raises s e : encode s = Raise e -> is_UnicodeError e = true.
Proof.
  revert e. induction s as [|c s IH]; simpl; intros e; [discriminate|].
  destruct (utf8_encode_char c) as [b|e'] eqn:Ec; simpl.
  - destruct (encode s) eqn:E; simpl; [discriminate|].
    intros [= <-]. by apply IH.
  - intros [= <-]. unfold utf8_encode_char in Ec.
    repeat case_match; try discriminate. by injection Ec as <-.
Qed.

Lemma escape_step_raises gc st c e :
  escape_step gc st c = Raise e -> is_UnicodeError e = true.
Proof.
  unfold escape_step, decode_error.
  repeat case_match; try discriminate; by intros [= <-].
Qed.

Lemma unicode_escape_raises gc b : forall st e,
  unicode_escape_from gc st b = Raise e -> is_UnicodeError e = true.
Proof.
  induction b as [|c b IH]; simpl; intros st e.
  - destruct st; simpl; try discriminate; by intros [= <-].
  - destruct (escape_step gc st c) as [[st' out]|e'] eqn:E; simpl.
    + unfold rmap, rbind. destruct (unicode_escape_from gc st' b) eqn:E'; [discriminate|].
      intros [= <-]. eauto.
    + intros [= <-]. eauto using escape_step_raises.
Qed.

Lemma unescape_keystore_spec gc v :
  unescape_keystore gc v = Ok (spec_keystore gc v).
Proof.
  unfold unescape_keystore, spec_keystore.
  destruct (rbind _ _) as [d|e] eqn:E; [done|].
  assert (is_UnicodeError e = true) as ->; [|done].
  unfold rbind in E. destruct (encode _) as [b|e'] eqn:E1.
  - eapply unicode_escape_raises, E.
  - injection E as <-. eapply encode_raises, E1.
Qed.

(** ** The loop of the reader computes the mapping of the specification *)

Lemma process_line_spec gc m line :
  process_line gc m line = Ok (apply_entry gc m line).
Proof.
  unfold process_line, apply_entry, spec_split.
  destruct (bool_decide (strip line = [])); cbn [negb andb orb]; [done|].
  destruct (startswith (lit "#") (strip line)); cbn [negb andb orb]; [done|].
  destruct (split_once 61 (strip line)) as [[k v]|] eqn:E.
  - assert (contains 61 (strip line) = true) as ->.
    { destruct (contains 61 (strip line)) eqn:C; [done|].
      apply split_once_none in C. congruence. }
    unfold spec_value. destruct (bool_decide _); cbn [rbind]; [|done].
    by rewrite unescape_keystore_spec.
  - apply split_once_none in E. by rewrite E.
Qed.

Lemma apply_entry_some gc m line k v :
  spec_split line = Some (k, v) ->
  apply_entry gc m line = <[k := spec_value gc k v]> m.
Proof. intros H. unfold apply_entry. by rewrite H. Qed.

Lemma process_lines_spec gc lines : forall m,
  process_lines gc m lines = Ok (foldl (apply_entry gc) m lines).
Proof.
  induction lines as [|l lines IH]; intros m; simpl; [done|].
  rewrite process_line_spec. simpl. apply IH.
Qed.

Lemma foldl_apply_entry_lookup gc lines : forall m k,
  foldl (apply_entry gc) m lines !! k = None <->
  m !! k = None /\ forall line, line ∈ lines -> spec_key line <> Some k.
Proof.
  induction lines as [|l lines IH]; intros m k; simpl.
  - split; [|tauto]. intros H. split; [done|]. by intros line H'%elem_of_nil.
  - rewrite IH. unfold apply_entry, spec_key.
    destruct (spec_split l) as [[k' v]|] eqn:E.
    + destruct (decide (k' = k)) as [->|Hne].
      * rewrite lookup_insert_eq. split; [intros [? _]; done|].
        intros [_ H]. exfalso. apply (H l); [left|]. by rewrite E.
      * rewrite lookup_insert_ne by done. split; intros [H1 H2]; split; try done.
        -- intros line [->|H]%elem_of_cons; [|by apply H2].
           rewrite E. simpl. congruence.
        -- intros line H. apply H2. by right.
    + split; intros [H1 H2]; split; try done.
      * intros line [->|H]%elem_of_cons; [|by apply H2]. by rewrite E.
      * intros line H. apply H2. by right.
Qed.

Lemma foldl_apply_entry_last gc l2 : forall m k v,
  m !! k = Some v ->
  (forall line, line ∈ l2 -> spec_key line <> Some k) ->
  foldl (apply_entry gc) m l2 !! k = Some v.
Proof.
  induction l2 as [|l l2 IH]; intros m k v Hm H; simpl; [done|].
  apply IH; [|intros line Hl; apply H; by right].
  unfold apply_entry. specialize (H l (ltac:(left))). unfold spec_key in H.
  destruct (spec_split l) as [[k' v']|]; [|done].
  rewrite lookup_insert_ne; [done|]. simpl in H. congruence.
Qed.

Lemma foldl_apply_entry_skip gc line l2 : forall m,
  spec_split line = None ->
  foldl (apply_entry gc) m (line :: l2) = foldl (apply_entry gc) m l2.
Proof. intros m H. simpl. unfold apply_entry at 2. by rewrite H. Qed.

Lemma process_lines_skip gc line l1 l2 m :
  spec_split line = None ->
  process_lines gc m (l1 ++ line :: l2) = process_lines gc m (l1 ++ l2).
Proof.
  intros H. rewrite !process_lines_spec, !foldl_app.
  by rewrite foldl_apply_entry_skip.
Qed.

(** ** The generic decode leaves tame texts alone *)

Lemma backslash_step_unrecognised d :
  recognised d = false -> backslash_step d = (Plain, [92; d]).
Proof.
  unfold recognised. intros H.
  repeat (apply orb_false_elim in H as [H ?]).
  unfold backslash_step.
  repeat match goal with E : _ = false |- _ => rewrite E; clear E end.
  done.
Qed.

Lemma tame_encode s : tame s = true -> encode s = Ok s.
Proof.
  induction s as [|c s IH]; [done|].
  cbn [tame encode]. intros [[Hc _]%andb_prop Hs]%andb_prop.
  unfold utf8_encode_char. rewrite Hc. cbn [rbind]. by rewrite (IH Hs).
Qed.

Lemma tame_decode gc s :
  tame s = true ->
  unicode_escape_from gc Plain s = Ok s
  /\ (forall d s', s = d :: s' -> recognised d = false ->
        unicode_escape_from gc Backslash s = Ok (92 :: s)).
Proof.
  induction s as [|c s IH]; [by split|].
  cbn [tame]. intros [[Hc Hb]%andb_prop Hs]%andb_prop.
  destruct (IH Hs) as [IH1 IH2]. split.
  - cbn [unicode_escape_from escape_step rbind]. unfold plain_step.
    destruct (c =? 92) eqn:E.
    + apply N.eqb_eq in E as ->. destruct s as [|d s]; [done|].
      apply negb_true_iff in Hb. cbn [rmap rbind app].
      unfold rmap. by rewrite (IH2 d s eq_refl Hb).
    + unfold rmap. by rewrite IH1.
  - intros d s' [= <- <-] Hd.
    cbn [unicode_escape_from escape_step rbind].
    rewrite (backslash_step_unrecognised _ Hd). unfold rmap. by rewrite IH1.
Qed.

Lemma spec_keystore_tame gc v :
  tame (replace_separators v) = true ->
  spec_keystore gc v = replace_separators v.
Proof.
  intros H. unfold spec_keystore, unicode_escape_decode.
  rewrite (tame_encode _ H). cbn [rbind].
  by rewrite (proj1 (tame_decode gc _ H)).
Qed.

(** ** The reader as a whole *)

Lemma read_signing_properties_eq file w :
  _read_signing_properties file w =
  match read_text (fs w) (locate (cwd w) (Path file)) with
  | Ok text =>
      (check_required (foldl (apply_entry (unicodedata w)) ∅ (readlines text)), w)
  | Raise e =>
      (Raise (if is_FileNotFoundError e
              then FileNotFoundError (lit "Properties file not found: " ++ file)
              else RuntimeError (lit "Error reading properties file: " ++ exn_str e)),
       w)
  end.
Proof.
  unfold _read_signing_properties, mbind, M_bind, bind, try_catch, lift, raise.
  destruct (read_text _ _) as [text|e]; cbn [rbind].
  - by rewrite process_lines_spec.
  - by destruct (is_FileNotFoundError e).
Qed.

Lemma read_signing_properties_frame file w :
  snd (_read_signing_properties file w) = w.
Proof. rewrite read_signing_properties_eq. by destruct (read_text _ _). Qed.

Lemma missing_keys_elem m k :
  k ∈ missing_keys m <-> k ∈ required_keys /\ m !! k = None.
Proof. unfold missing_keys. rewrite list_elem_of_filter. tauto. Qed.

Lemma check_required_ok m :
  (forall k, k ∈ required_keys -> m !! k <> None) -> check_required m = Ok m.
Proof.
  intros H. unfold check_required.
  destruct (missing_keys m) as [|k l] eqn:E; [done|].
  assert (k ∈ missing_keys m) as [? ?]%missing_keys_elem by (rewrite E; left).
  by destruct (H k).
Qed.

Lemma check_required_missing m k :
  k ∈ required_keys -> m !! k = None ->
  check_required m =
  Raise (ValueError (lit "Missing required properties: "
                     ++ join (lit ", ") (missing_keys m))).
Proof.
  intros Hk Hm. unfold check_required.
  destruct (missing_keys m) as [|k' l] eqn:E; [|done].
  assert (k ∈ missing_keys m) as H by by apply missing_keys_elem.
  rewrite E in H. by apply elem_of_nil in H.
Qed.

(** ** Claims about the properties reader *)

(** C2, as the code has it: on a [release.keystore] line the reader
    replaces every doubled backslash by one backslash and every escaped
    colon by a colon, and then runs the generic escape decode.  When the
    decode succeeds its result is kept; when it raises a decode error the
    value after the two replacements is kept; and when that value is
    ASCII and none of its backslashes starts an escape the decoder knows,
    the decode changes nothing, as for [C\:\\keys\\my.jks], which is read
    as [C:\keys\my.jks]. *)
Theorem keystore_value_unescaped gc props line value :
  spec_split line = Some (keystore_key, value) ->
  let replaced := replace_separators value in
  let decode := rbind (encode replaced) (unicode_escape_decode gc) in
  (forall decoded, decode = Ok decoded ->
     process_line gc props line = Ok (<[keystore_key := decoded]> props))
  /\ (forall e, decode = Raise e ->
        process_line gc props line = Ok (<[keystore_key := replaced]> props))
  /\ (tame replaced = true ->
        process_line gc props line = Ok (<[keystore_key := replaced]> props))
  /\ process_line gc props (lit "release.keystore=C\:\\keys\\my.jks")
     = Ok (<[keystore_key := lit "C:\keys\my.jks"]> props).
Proof.
  intros Hs replaced decode.
  assert (process_line gc props line
          = Ok (<[keystore_key := spec_keystore gc value]> props)) as E.
  { rewrite process_line_spec. unfold apply_entry. by rewrite Hs. }
  rewrite E. split; [|split; [|split]].
  - intros decoded Hd. unfold spec_keystore. fold replaced. fold decode.
    by rewrite Hd.
  - intros e He. unfold spec_keystore. fold replaced. fold decode.
    by rewrite He.
  - intros Ht. by rewrite spec_keystore_tame.
  - rewrite process_line_spec. unfold apply_entry.
    assert (spec_split (lit "release.keystore=C\:\\keys\\my.jks")
            = Some (keystore_key, lit "C\:\\keys\\my.jks")) as ->
      by (vm_compute; reflexivity).
    assert (spec_value gc keystore_key (lit "C\:\\keys\\my.jks")
            = lit "C:\keys\my.jks") as -> by (vm_compute; reflexivity).
    done.
Qed.

Lemma keystore_value_unescaped_witness :
  spec_split (lit "  release.keystore = D\:\\ci\\debug.jks ")
  = Some (keystore_key, lit "D\:\\ci\\debug.jks")
  /\ process_line no_names ∅ (lit "  release.keystore = D\:\\ci\\debug.jks ")
     = Ok (<[keystore_key := lit "D:\ci\debug.jks"]> ∅).
Proof.
  assert (spec_split (lit "  release.keystore = D\:\\ci\\debug.jks ")
          = Some (keystore_key, lit "D\:\\ci\\debug.jks")) as Hs
    by (vm_compute; reflexivity).
  split; [exact Hs|].
  destruct (keystore_value_unescaped no_names ∅ _ _ Hs) as (_ & _ & Ht & _).
  rewrite Ht by (vm_compute; reflexivity). vm_compute; reflexivity.
Defined.

(** C2, as stated, fails twice.  A value with escaped separators need
    not come back as the path with the separators unescaped
    ([C\:\\temp] comes back with a tab in it), and when the decode raises
    (as for [C\:\\xy], where [\x] wants two hexadecimal digits) the
    reader does not keep the raw trimmed value. *)
Lemma keystore_value_claim_fails :
  ~ (forall gc props line value,
       spec_split line = Some (keystore_key, value) ->
       occurs (lit "\\") value || occurs (lit "\:") value = true ->
       process_line gc props line
       = Ok (<[keystore_key := replace_separators value]> props))
  /\ ~ (forall gc props line value e,
          spec_split line = Some (keystore_key, value) ->
          rbind (encode (replace_separators value)) (unicode_escape_decode gc)
          = Raise e ->
          process_line gc props line = Ok (<[keystore_key := value]> props)).
Proof.
  assert (forall a b : str,
            Ok (<[keystore_key := a]> (∅ : gmap (list N) (list N)))
            = Ok (<[keystore_key := b]> ∅) -> a = b) as inj.
  { intros a b E.
    apply (f_equal (fun r => match r with
                             | Ok m => m !! keystore_key
                             | Raise _ => None
                             end)) in E.
    cbv beta iota in E. rewrite !lookup_insert_eq in E. congruence. }
  split; intros H.
  - assert (spec_split (lit "release.keystore=C\:\\temp")
            = Some (keystore_key, lit "C\:\\temp")) as E
      by (vm_compute; reflexivity).
    assert (occurs (lit "\\") (lit "C\:\\temp")
            || occurs (lit "\:") (lit "C\:\\temp") = true) as Ho
      by (vm_compute; reflexivity).
    pose proof (H no_names ∅ _ _ E Ho) as H'.
    rewrite process_line_spec in H'. unfold apply_entry in H'.
    rewrite E in H'. apply inj in H'. vm_compute in H'. discriminate.
  - assert (spec_split (lit "release.keystore=C\:\\xy")
            = Some (keystore_key, lit "C\:\\xy")) as E
      by (vm_compute; reflexivity).
    assert (rbind (encode (replace_separators (lit "C\:\\xy")))
                  (unicode_escape_decode no_names)
            = Raise (decode_error "truncated escape")) as Hd
      by (vm_compute; reflexivity).
    pose proof (H no_names ∅ _ _ _ E Hd) as H'.
    rewrite process_line_spec in H'. unfold apply_entry in H'.
    rewrite E in H'. apply inj in H'. vm_compute in H'. discriminate.
Qed.

(** C10: there are keystore values on which the generic decode succeeds
    and yet changes the text beyond the two documented replacements: in
    [C\:\\temp\\new.jks] the sequences [\t] and [\n] become a tab and a
    line feed, and the non-ASCII letter of [café.jks] becomes the two
    Latin-1 characters of its UTF-8 bytes.  The fallback does not
    trigger, and the altered value is what the reader stores. *)
Theorem decode_alters_keystore_value gc props :
  exists v1 v2 d1 d2,
    v1 = lit "C\:\\temp\\new.jks"
    /\ d1 = lit "C:" ++ [9] ++ lit "emp" ++ [10] ++ lit "ew.jks"
    /\ v2 = lit "caf" ++ [233] ++ lit ".jks"
    /\ d2 = lit "caf" ++ [195; 169] ++ lit ".jks"
    /\ rbind (encode (replace_separators v1)) (unicode_escape_decode gc) = Ok d1
    /\ rbind (encode (replace_separators v2)) (unicode_escape_decode gc) = Ok d2
    /\ d1 <> replace_separators v1
    /\ d2 <> replace_separators v2
    /\ process_line gc props (lit "release.keystore=" ++ v1)
       = Ok (<[keystore_key := d1]> props)
    /\ process_line gc props (lit "release.keystore=" ++ v2)
       = Ok (<[keystore_key := d2]> props).
Proof.
  eexists _, _, _, _.
  split; [reflexivity|]. split; [reflexivity|].
  split; [reflexivity|]. split; [reflexivity|].
  split; [vm_compute; reflexivity|]. split; [vm_compute; reflexivity|].
  split; [vm_compute; discriminate|]. split; [vm_compute; discriminate|].
  split; rewrite process_line_spec; unfold apply_entry.
  - assert (spec_split (lit "release.keystore=" ++ lit "C\:\\temp\\new.jks")
            = Some (keystore_key, lit "C\:\\temp\\new.jks")) as ->
      by (vm_compute; reflexivity).
    assert (spec_value gc keystore_key (lit "C\:\\temp\\new.jks")
            = lit "C:" ++ [9] ++ lit "emp" ++ [10] ++ lit "ew.jks") as ->
      by (vm_compute; reflexivity).
    done.
  - assert (spec_split (lit "release.keystore=" ++ (lit "caf" ++ [233] ++ lit ".jks"))
            = Some (keystore_key, lit "caf" ++ [233] ++ lit ".jks")) as ->
      by (vm_compute; reflexivity).
    assert (spec_value gc keystore_key (lit "caf" ++ [233] ++ lit ".jks")
            = lit "caf" ++ [195; 169] ++ lit ".jks") as ->
      by (vm_compute; reflexivity).
    done.
Qed.

(** C3: when the file can be read and one or more of the four required
    keys has no line, the reader raises [ValueError] (the
    [MissingProperty] of the specification) and leaves the world as it
    was; the message lists the absent keys, all of them, in the order of
    [required_keys], and so names each one. *)
Theorem reader_names_every_missing_key w file text :
  read_text (fs w) (locate (cwd w) (Path file)) = Ok text ->
  (exists k, k ∈ required_keys
             /\ forall line, line ∈ readlines text -> spec_key line <> Some k) ->
  exists msg,
    _read_signing_properties file w = (Raise (ValueError msg), w)
    /\ msg = lit "Missing required properties: "
             ++ join (lit ", ")
                  (filter (fun k => Some k ∉ spec_key <$> readlines text)
                          required_keys)
    /\ forall k, k ∈ required_keys ->
         (forall line, line ∈ readlines text -> spec_key line <> Some k) ->
         exists a b, msg = a ++ k ++ b.
Proof.
  intros Hr (k0 & Hk0 & Habs).
  set (m := foldl (apply_entry (unicodedata w)) ∅ (readlines text)).
  assert (forall k, m !! k = None <->
            forall line, line ∈ readlines text -> spec_key line <> Some k) as Hm.
  { intros k. unfold m. rewrite foldl_apply_entry_lookup, lookup_empty. tauto. }
  assert (missing_keys m
          = filter (fun k => Some k ∉ spec_key <$> readlines text) required_keys)
    as Hf.
  { unfold missing_keys. apply list_filter_iff. intros k. rewrite Hm.
    rewrite list_elem_of_fmap. split.
    - intros H (line & E & Hl). by apply (H line).
    - intros H line Hl E. apply H. eauto. }
  eexists. split; [|split; [reflexivity|]].
  - rewrite read_signing_properties_eq, Hr. fold m.
    rewrite (check_required_missing m k0 Hk0) by by apply Hm.
    by rewrite Hf.
  - intros k Hk Hno.
    destruct (join_infix (lit ", ") k (missing_keys m)) as (a & b & E).
    { apply missing_keys_elem. split; [done|]. by apply Hm. }
    exists (lit "Missing required properties: " ++ a), b.
    rewrite <- Hf, E. by rewrite <- app_assoc.
Qed.

(** C4: when the file can be read and every required key has a line,
    the reader returns a mapping and leaves the world as it was.  The
    keys of the mapping are exactly the keys of the [key=value] lines of
    the file, so exactly the four required keys when the file has no
    other.  The value of a key is the one of its last line: the text
    after the first ["="], trimmed (and unescaped for the keystore
    path).  A line that is blank or begins with ["#"] adds nothing: the
    file without it is read to the same mapping. *)
Theorem reader_well_formed w file text :
  read_text (fs w) (locate (cwd w) (Path file)) = Ok text ->
  (forall k, k ∈ required_keys ->
     exists line, line ∈ readlines text /\ spec_key line = Some k) ->
  exists props,
    _read_signing_properties file w = (Ok props, w)
    /\ dom props = (list_to_set (omap spec_key (readlines text)) : gset (list N))
    /\ ((forall line k, line ∈ readlines text -> spec_key line = Some k ->
           k ∈ required_keys) ->
        dom props = (list_to_set required_keys : gset (list N)))
    /\ (forall l1 line l2 k v,
          readlines text = l1 ++ line :: l2 ->
          spec_split line = Some (k, v) ->
          (forall line', line' ∈ l2 -> spec_key line' <> Some k) ->
          props !! k = Some (spec_value (unicodedata w) k v))
    /\ (forall l1 line l2,
          readlines text = l1 ++ line :: l2 ->
          strip line = [] \/ startswith (lit "#") (strip line) = true ->
          process_lines (unicodedata w) ∅ (l1 ++ l2) = Ok props).
Proof.
  intros Hr Hall.
  set (m := foldl (apply_entry (unicodedata w)) ∅ (readlines text)).
  assert (forall k, m !! k = None <->
            forall line, line ∈ readlines text -> spec_key line <> Some k) as Hm.
  { intros k. unfold m. rewrite foldl_apply_entry_lookup, lookup_empty. tauto. }
  assert (dom m = (list_to_set (omap spec_key (readlines text)) : gset (list N)))
    as Hdom.
  { apply set_eq. intros k.
    rewrite elem_of_dom, elem_of_list_to_set, list_elem_of_omap. split.
    - intros Hsome.
      destruct (decide (k ∈ omap spec_key (readlines text))) as [Hin|Hn].
      + by apply list_elem_of_omap in Hin.
      + exfalso. apply (is_Some_None (A := list N)).
        rewrite <- (proj2 (Hm k)); [done|].
        intros line Hl E. apply Hn. apply list_elem_of_omap. eauto.
    - intros (line & Hl & E). destruct (m !! k) eqn:Ek; [done|].
      exfalso. by apply (proj1 (Hm k) Ek line). }
  exists m. split; [|split; [done|split; [|split]]].
  - rewrite read_signing_properties_eq, Hr. fold m.
    rewrite check_required_ok; [done|].
    intros k Hk Hnone. destruct (Hall k Hk) as (line & Hl & E).
    by apply (proj1 (Hm k) Hnone line).
  - intros Honly. rewrite Hdom. apply set_eq. intros k.
    rewrite !elem_of_list_to_set, list_elem_of_omap. split.
    + intros (line & Hl & E). eauto.
    + intros Hk. destruct (Hall k Hk) as (line & Hl & E). eauto.
  - intros l1 line l2 k v E Hs Hlast. unfold m. rewrite E, foldl_app.
    cbn [foldl]. apply foldl_apply_entry_last; [|done].
    rewrite (apply_entry_some _ _ _ _ _ Hs). apply lookup_insert_eq.
  - intros l1 line l2 E Hb.
    rewrite <- (process_lines_skip _ line).
    + rewrite <- E. apply process_lines_spec.
    + unfold spec_split. destruct Hb as [-> | ->]; [done|].
      by rewrite orb_true_r.
Qed.

(** C9: a line that is not blank, is not a comment and has no ["="] is
    passed over in silence.  The loop body returns the mapping it was
    given, as it does for a blank line, and does not raise; the loop,
    and so the reader, gives the same result as for the file without the
    line. *)
Theorem line_without_equals_skipped gc props line :
  strip line <> [] ->
  startswith (lit "#") (strip line) = false ->
  contains 61 line = false ->
  process_line gc props line = Ok props
  /\ process_line gc props line = process_line gc props []
  /\ (forall l1 l2,
        process_lines gc props (l1 ++ line :: l2)
        = process_lines gc props (l1 ++ l2))
  /\ (forall w file text l1 l2,
        read_text (fs w) (locate (cwd w) (Path file)) = Ok text ->
        readlines text = l1 ++ line :: l2 ->
        _read_signing_properties file w
        = (rbind (process_lines (unicodedata w) ∅ (l1 ++ l2)) check_required,
           w)).
Proof.
  intros Hne Hc He.
  assert (spec_split line = None) as Hs.
  { unfold spec_split. rewrite Hc, orb_false_r.
    destruct (bool_decide _); [done|].
    apply strip_contains, split_once_none in He. by rewrite He. }
  assert (process_line gc props line = Ok props) as E.
  { rewrite process_line_spec. unfold apply_entry. by rewrite Hs. }
  split; [done|]. split; [by rewrite E|]. split.
  - intros l1 l2. by apply process_lines_skip.
  - intros w file text l1 l2 Hr Hl.
    rewrite read_signing_properties_eq, Hr, Hl.
    rewrite <- (process_lines_skip _ line) by done.
    by rewrite process_lines_spec.
Qed.

Lemma line_without_equals_skipped_witness :
  process_line no_names ∅ (lit "  keystore.password secret") = Ok ∅.
Proof.
  apply (line_without_equals_skipped no_names ∅
           (lit "  keystore.password secret")).
  - vm_compute; discriminate.
  - vm_compute; reflexivity.
  - vm_compute; reflexivity.
Defined.

Lemma reader_names_every_missing_key_witness :
  _read_signing_properties (lit "signing.properties")
    (sample_world false short_properties failing_tool)
  = (Raise (ValueError
       (lit "Missing required properties: keystore.password, key.password")),
     sample_world false short_properties failing_tool).
Proof.
  destruct (reader_names_every_missing_key
              (sample_world false short_properties failing_tool)
              (lit "signing.properties") short_properties)
    as (msg & E & Emsg & _).
  - vm_compute; reflexivity.
  - exists (lit "keystore.password"). split.
    + apply (bool_decide_unpack _). vm_compute. exact I.
    + apply Forall_forall. apply (bool_decide_unpack _). vm_compute. exact I.
  - rewrite E.
    assert (msg = lit "Missing required properties: keystore.password, key.password")
      as -> by (rewrite Emsg; vm_compute; reflexivity).
    reflexivity.
Defined.

Lemma reader_well_formed_witness :
  exists props,
    _read_signing_properties (lit "signing.properties")
      (sample_world true good_properties good_tool)
    = (Ok props, sample_world true good_properties good_tool)
    /\ dom props = (list_to_set required_keys : gset (list N))
    /\ props !! lit "key.alias" = Some (lit "upload").
Proof.
  assert (readlines good_properties
          = [lit "# signing" ++ nl;
             lit "release.keystore = /work/release.jks" ++ nl;
             nl;
             lit "keystore.password=secret" ++ nl]
            ++ (lit "key.alias=upload" ++ nl)
            :: [lit "key.password=secret2" ++ nl]) as El
    by (vm_compute; reflexivity).
  destruct (reader_well_formed
              (sample_world true good_properties good_tool)
              (lit "signing.properties") good_properties)
    as (props & E & _ & Hdom & Hval & _).
  - vm_compute; reflexivity.
  - apply Forall_forall. eapply Forall_impl.
    + apply (bool_decide_unpack
               (Forall (fun k => Exists (fun line => spec_key line = Some k)
                                        (readlines good_properties))
                       required_keys)).
      vm_compute. exact I.
    + intros k (line & Hl & Hk)%Exists_exists. eauto.
  - exists props. split; [exact E|]. split.
    + apply Hdom. intros line k Hl Hk.
      assert (Forall (fun k => k ∈ required_keys)
                     (omap spec_key (readlines good_properties))) as HF
        by (apply (bool_decide_unpack _); vm_compute; exact I).
      rewrite Forall_forall in HF. apply HF. apply list_elem_of_omap. eauto.
    + rewrite (Hval _ _ _ (lit "key.alias") (lit "upload") El).
      * vm_compute; reflexivity.
      * vm_compute; reflexivity.
      * apply Forall_forall. apply (bool_decide_unpack _). vm_compute. exact I.
Defined.

(** ** The file system *)

Lemma exists_kind f p : exists_ f p = bool_decide (kind f p <> None).
Proof. unfold exists_, kind. by destruct (stat f p) as [[]|]. Qed.

Lemma is_dir_kind f p : is_dir f p = bool_decide (kind f p = Some true).
Proof. unfold is_dir, kind. by destruct (stat f p) as [[]|]. Qed.

Lemma is_file_kind f p : is_file f p = bool_decide (kind f p = Some false).
Proof. unfold is_file, kind. by destruct (stat f p) as [[]|]. Qed.

Lemma stat_app f p : forall q,
  stat f (p ++ q) = rbind (stat f p) (fun n => stat n q).
Proof.
  revert f. induction p as [|c p IH]; intros f q; [done|].
  cbn [app stat]. destruct f as [|es]; [done|].
  destruct (es !! c); [apply IH|done].
Qed.

Lemma stat_below_is_dir f p c q :
  exists_ f (p ++ c :: q) = true -> is_dir f p = true.
Proof.
  unfold exists_, is_dir. rewrite stat_app.
  destruct (stat f p) as [[|es]|]; cbn [rbind stat]; done.
Qed.

Lemma is_dir_prefix f p q : is_dir f p = true -> q `prefix_of` p -> is_dir f q = true.
Proof.
  intros H [k ->]. destruct k as [|c k]; [by rewrite app_nil_r in H|].
  apply (stat_below_is_dir f q c k).
  unfold exists_. unfold is_dir in H. by destruct (stat f (q ++ c :: k)).
Qed.

Lemma kind_put_outside p : forall f q x,
  ~ p `prefix_of` q -> kind (put f p x) q = kind f q.
Proof.
  induction p as [|c p IH]; intros f q x Hp.
  - destruct Hp. apply prefix_nil.
  - destruct f as [|es]; [done|]. cbn [put].
    destruct q as [|c' q].
    { destruct p; [done|]. by destruct (es !! c). }
    destruct (decide (c = c')) as [<-|Hne].
    + assert (~ p `prefix_of` q) as Hp'.
      { intros H. apply Hp. by apply prefix_cons. }
      destruct p as [|c2 p]; [destruct Hp'; apply prefix_nil|].
      destruct (es !! c) as [n'|] eqn:E; [|done].
      unfold kind. cbn [stat]. rewrite lookup_insert_eq, E.
      apply (IH n' q x Hp').
    + unfold kind. destruct p as [|c2 p].
      * cbn [stat]. by rewrite lookup_partial_alter_ne.
      * destruct (es !! c) as [n'|] eqn:E; [|done].
        cbn [stat]. by rewrite lookup_insert_ne.
Qed.

Lemma stat_put_here p : forall f n,
  p <> [] -> is_dir f (removelast p) = true ->
  stat (put f p (Some n)) p = Ok n.
Proof.
  induction p as [|c p IH]; intros f n Hne Hd; [done|].
  destruct p as [|c2 p].
  - destruct f as [|es]; [done|]. cbn [put stat].
    by rewrite lookup_partial_alter_eq.
  - change (removelast (c :: c2 :: p)) with (c :: removelast (c2 :: p)) in Hd.
    unfold is_dir in Hd. destruct f as [|es]; [done|]. cbn [stat] in Hd.
    cbn [put]. destruct (es !! c) as [n'|] eqn:E; [|done].
    cbn [stat]. rewrite lookup_insert_eq. apply IH; [done|].
    unfold is_dir. by destruct (stat n' _).
Qed.

Lemma kind_put_None p : forall f q,
  p <> [] -> kind (put f p None) (p ++ q) = None.
Proof.
  induction p as [|c p IH]; intros f q Hne; [done|].
  destruct f as [|es]; [done|]. cbn [put].
  destruct p as [|c2 p].
  - unfold kind. cbn [app stat]. by rewrite lookup_partial_alter_eq.
  - destruct (es !! c) as [n'|] eqn:E.
    + unfold kind. cbn [app stat]. rewrite lookup_insert_eq.
      by apply (IH n' q).
    + unfold kind. cbn [app stat]. by rewrite E.
Qed.

Lemma kind_missing_below f p q : kind f p = None -> kind f (p ++ q) = None.
Proof.
  unfold kind. rewrite stat_app. by destruct (stat f p) as [[]|].
Qed.

(** A fresh leaf has nothing below it. *)
Lemma kind_put_leaf f p n q :
  p <> [] -> is_dir f (removelast p) = true ->
  n = Dir ∅ \/ (exists data, n = File data) ->
  kind (put f p (Some n)) (p ++ q)
  = match q with [] => kind n [] | _ => None end.
Proof.
  intros Hne Hd Hn. unfold kind. rewrite stat_app, stat_put_here by done.
  cbn [rbind]. destruct q as [|c q]; [done|].
  destruct Hn as [->|[data ->]]; cbn [stat]; [|done].
  by rewrite lookup_empty.
Qed.

Lemma os_mkdir_ok f p f' :
  os_mkdir f p = Ok f' ->
  kind f p = None /\ is_dir f (removelast p) = true /\ p <> []
  /\ f' = put f p (Some (Dir ∅)).
Proof.
  unfold os_mkdir, holder_check, kind, is_dir.
  destruct (stat f p) as [n|e] eqn:E; [done|].
  destruct (stat f (removelast p)) as [[|es]|] eqn:E'; cbn [rbind]; try done.
  intros [= <-]. repeat split; try done. intros ->. discriminate.
Qed.

Lemma os_mkdir_is_dir f p f' : os_mkdir f p = Ok f' -> is_dir f' p = true.
Proof.
  intros (_ & Hd & Hne & ->)%os_mkdir_ok.
  unfold is_dir. by rewrite stat_put_here.
Qed.

(** Making a directory makes no regular file and leaves the ones there
    are. *)
Lemma os_mkdir_is_file f p f' x :
  os_mkdir f p = Ok f' -> is_file f' x = is_file f x.
Proof.
  intros (Hk & Hd & Hne & ->)%os_mkdir_ok. rewrite !is_file_kind.
  destruct (decide (p `prefix_of` x)) as [[q ->]|Hp].
  - rewrite kind_put_leaf, kind_missing_below by auto.
    by destruct q.
  - by rewrite kind_put_outside.
Qed.

Lemma mkdir_leaf_is_dir f p f' : mkdir_leaf f p = Ok f' -> is_dir f' p = true.
Proof.
  unfold mkdir_leaf. destruct (os_mkdir f p) as [f1|e] eqn:E.
  - intros [= <-]. eauto using os_mkdir_is_dir.
  - destruct (is_FileNotFoundError e); [done|].
    destruct (is_dir f p) eqn:Ed; [|done]. by intros [= <-].
Qed.

Lemma mkdir_leaf_is_file f p f' x :
  mkdir_leaf f p = Ok f' -> is_file f' x = is_file f x.
Proof.
  unfold mkdir_leaf. destruct (os_mkdir f p) as [f1|e] eqn:E.
  - intros [= <-]. eauto using os_mkdir_is_file.
  - destruct (is_FileNotFoundError e); [done|].
    destruct (is_dir f p); [|done]. by intros [= <-].
Qed.

Lemma mkdir_parents_is_dir base rparts : forall f f',
  mkdir_parents f base rparts = Ok f' ->
  is_dir f' (base ++ rev rparts) = true.
Proof.
  destruct rparts as [|c rparts]; intros f f'; cbn [mkdir_parents].
  - destruct (os_mkdir f _) as [f1|e] eqn:E.
    + intros [= <-]. eauto using os_mkdir_is_dir.
    + destruct (is_FileNotFoundError e); [done|].
      destruct (is_dir f _) eqn:Ed; [|done]. by intros [= <-].
  - destruct (os_mkdir f _) as [f1|e] eqn:E.
    + intros [= <-]. eauto using os_mkdir_is_dir.
    + destruct (is_FileNotFoundError e).
      * destruct (mkdir_parents f base rparts) as [f1|]; [|done].
        cbn [rbind]. apply mkdir_leaf_is_dir.
      * destruct (is_dir f _) eqn:Ed; [|done]. by intros [= <-].
Qed.

Lemma mkdir_parents_is_file base x rparts : forall f f',
  mkdir_parents f base rparts = Ok f' -> is_file f' x = is_file f x.
Proof.
  induction rparts as [|c rparts IH]; intros f f'; cbn [mkdir_parents].
  - destruct (os_mkdir f _) as [f1|e] eqn:E.
    + intros [= <-]. eauto using os_mkdir_is_file.
    + destruct (is_FileNotFoundError e); [done|].
      destruct (is_dir f _); [|done]. by intros [= <-].
  - destruct (os_mkdir f _) as [f1|e] eqn:E.
    + intros [= <-]. eauto using os_mkdir_is_file.
    + destruct (is_FileNotFoundError e).
      * destruct (mkdir_parents f base rparts) as [f1|] eqn:E1; [|done].
        cbn [rbind]. intros H. rewrite (mkdir_leaf_is_file _ _ _ _ H). eauto.
      * destruct (is_dir f _); [|done]. by intros [= <-].
Qed.

Lemma mkdtemp_from_ok cwd0 names : forall f name f',
  mkdtemp_from f cwd0 names = Ok (name, f') ->
  os_mkdir f (locate cwd0 (Path name)) = Ok f'.
Proof.
  induction names as [|n names IH]; intros f name f'; cbn [mkdtemp_from]; [done|].
  destruct (os_mkdir f (locate cwd0 (Path n))) as [f1|e] eqn:E.
  - by intros [= <- <-].
  - destruct e; try done. apply IH.
Qed.

(** ** Runs *)

Lemma same_frame_refl w : same_frame w w.
Proof. by repeat split. Qed.

Lemma same_frame_trans a b c : same_frame a b -> same_frame b c -> same_frame a c.
Proof.
  intros (?&?&?&?&?&?) (?&?&?&?&?&?). repeat split; congruence.
Qed.

#[global] Instance steps_preorder P : PreOrder (steps P).
Proof.
  split.
  - intros w. split; [apply same_frame_refl|].
    exists []. by rewrite app_nil_r.
  - intros a b c (Hf1 & evs1 & E1 & H1) (Hf2 & evs2 & E2 & H2).
    split; [eauto using same_frame_trans|].
    exists (evs1 ++ evs2). rewrite E2, E1, app_assoc. split; [done|].
    by apply Forall_app.
Qed.

#[global] Instance keeps_preorder name x : PreOrder (keeps name x).
Proof.
  split.
  - intros w. split; [apply same_frame_refl|].
    exists []. by rewrite app_nil_r.
  - intros a b c (Hf1 & evs1 & E1 & H1) (Hf2 & evs2 & E2 & H2).
    split; [eauto using same_frame_trans|].
    exists (evs1 ++ evs2). rewrite E2, E1, app_assoc. split; [done|].
    intros Ht Hp Hx. destruct Hf1 as (Ec & _ & _ & Ep & _).
    apply H2; [|by rewrite Ec|apply H1; [|done..]].
    + intros argv o Hin. unfold tool_keeps. rewrite Ep.
      apply (Ht argv o). apply elem_of_app. by right.
    + intros argv o Hin. apply (Ht argv o). apply elem_of_app. by left.
Qed.


Section Respects.
Context (R : world -> world -> Prop) `{!PreOrder R}.

Lemma respects_ret {A} (a : A) : respects R (mret a).
Proof. intros w. reflexivity. Qed.

Lemma respects_raise {A} e : respects R (raise (A := A) e).
Proof. intros w. reflexivity. Qed.

Lemma respects_lift {A} (r : result A) : respects R (lift r).
Proof. intros w. reflexivity. Qed.

Lemma respects_bind {A B} (m : M A) (k : A -> M B) :
  respects R m -> (forall a, respects R (k a)) -> respects R (m ≫= k).
Proof.
  intros Hm Hk w. unfold mbind, M_bind, bind.
  specialize (Hm w). destruct (m w) as [[a|e] w1]; cbn [snd] in *; [|done].
  etransitivity; [exact Hm|apply Hk].
Qed.

Lemma respects_try_catch {A} (m : M A) (h : exn -> M A) :
  respects R m -> (forall e, respects R (h e)) -> respects R (try_catch m h).
Proof.
  intros Hm Hh w. unfold try_catch.
  specialize (Hm w). destruct (m w) as [[a|e] w1]; cbn [snd] in *; [done|].
  etransitivity; [exact Hm|apply Hh].
Qed.

Lemma respects_getitem d key : respects R (getitem d key).
Proof. unfold getitem. destruct (d !! key); intros w; reflexivity. Qed.

Lemma respects_path_exists p : respects R (path_exists p).
Proof. intros w. reflexivity. Qed.

Lemma respects_environ_get name : respects R (environ_get name).
Proof. intros w. reflexivity. Qed.

(** Prefixing: what holds of the rest of a run holds of the run. *)
Lemma ends_bind {A B} (m : M A) (k : A -> M B) w0 Q :
  respects R m ->
  (forall e w1, R w0 w1 -> Q (Raise e) w1) ->
  (forall a w1, R w0 w1 -> ends (k a) w1 Q) ->
  forall w, R w0 w -> ends (m ≫= k) w Q.
Proof.
  intros Hm Hraise Hk w Hw. unfold ends, mbind, M_bind, bind.
  specialize (Hm w). destruct (m w) as [[a|e] w1]; cbn [fst snd] in *.
  - apply Hk. by etransitivity.
  - apply Hraise. by etransitivity.
Qed.
End Respects.

Lemma respects_and (R1 R2 : world -> world -> Prop) {A} (m : M A) :
  respects R1 m -> respects R2 m -> respects (fun w w' => R1 w w' /\ R2 w w') m.
Proof. intros H1 H2 w. split; [apply H1|apply H2]. Qed.

(** *** What each operation logs *)

Lemma steps_add_log P w e : P e -> steps P w (add_log w e).
Proof.
  intros H. split; [by repeat split|]. exists [e]. split; [done|].
  by apply Forall_singleton.
Qed.

Lemma steps_set_fs_log P w f e : P e -> steps P w (add_log (set_fs w f) e).
Proof.
  intros H. split; [by repeat split|]. exists [e]. split; [done|].
  by apply Forall_singleton.
Qed.

Lemma log_foldl l : forall w, log (foldl add_log w l) = log w ++ l.
Proof.
  induction l as [|e l IH]; intros w; cbn [foldl]; [by rewrite app_nil_r|].
  rewrite IH. cbn [log add_log]. by rewrite <- app_assoc.
Qed.

Lemma steps_print P text : P (EPrint text) -> respects (steps P) (print text).
Proof. intros H w. by apply steps_add_log. Qed.

Lemma steps_subprocess_run (P : event -> Prop) text argv :
  (forall o, P (ESpawn argv o)) ->
  respects (steps P) (subprocess_run text argv).
Proof.
  intros H w. unfold subprocess_run.
  destruct (existsb _ _); [reflexivity|].
  destruct (processes w argv (fs w)) as [o f'].
  assert (steps P w (add_log (set_fs w f') (ESpawn argv o)))
    by by apply steps_set_fs_log.
  destruct o as [rc out err| |]; [|done..].
  destruct (captured text out err) as [[out' err']|]; [|done].
  by destruct (rc =? 0)%Z.
Qed.

Lemma steps_write_text (P : event -> Prop) p content :
  (forall loc, P (EWrite loc)) -> respects (steps P) (write_text p content).
Proof.
  intros H w. unfold write_text.
  destruct (open_write _ _); [|reflexivity].
  destruct (encode content); by apply steps_set_fs_log.
Qed.

Lemma steps_mkdir_parent_of (P : event -> Prop) p :
  (forall loc, P (EMkdir loc)) -> respects (steps P) (mkdir_parent_of p).
Proof.
  intros H w. unfold mkdir_parent_of, fs_op.
  destruct (mkdir_parents _ _ _); [|reflexivity]. by apply steps_set_fs_log.
Qed.

Lemma open_write_ok f p f' :
  open_write f p = Ok f' ->
  p <> [] /\ is_dir f (removelast p) = true /\ f' = put f p (Some (File [])).
Proof.
  intros H. destruct (decide (p = [])) as [->|Hne].
  - exfalso. unfold open_write, holder_check in H.
    cbn [stat removelast] in H. by destruct f.
  - split; [done|]. unfold open_write, holder_check, is_dir in *.
    destruct (stat f (removelast p)) as [[|es]|];
      destruct (stat f p) as [[|]|]; cbn [rbind] in H; try done;
      by injection H as <-.
Qed.

Lemma not_prefix_below (d x : path) seg :
  ~ d `prefix_of` x -> ~ (d ++ seg) `prefix_of` x.
Proof. intros H [k ->]. apply H. exists (seg ++ k). by rewrite app_assoc. Qed.

Lemma locate_joinpath c p seg :
  anchor (Path seg) = [] ->
  locate c (joinpath p seg) = locate c p ++ parts (Path seg).
Proof.
  intros H. unfold joinpath, locate. rewrite H. cbn [anchor parts].
  by rewrite app_assoc.
Qed.

Ltac event_ok := intros; first [exact I | reflexivity].

Lemma run_step_steps (P : event -> Prop) cmd ok failed :
  (forall e, quiet_event e -> P e) -> respects (steps P) (run_step cmd ok failed).
Proof.
  intros H. unfold run_step.
  assert (forall t, P (EPrint t)) by (intros; by apply H).
  assert (forall a o, P (ESpawn a o)) by (intros; by apply H).
  repeat (intros;
    first [ match goal with |- PreOrder _ => typeclasses eauto end
          | apply respects_bind | apply respects_try_catch
          | apply respects_raise | by apply steps_print
          | by apply steps_subprocess_run
          | match goal with
            | |- respects _ (match ?x with _ => _ end) => destruct x
            end ]).
Qed.

Lemma parts_joinpath p seg :
  anchor (Path seg) = [] -> parts (joinpath p seg) = parts p ++ parts (Path seg).
Proof. intros H. unfold joinpath. by rewrite H. Qed.

Lemma prefix_longer (o : path) c : ~ (o ++ [c]) `prefix_of` o.
Proof.
  intros [k E]. apply (f_equal length) in E. rewrite !length_app in E.
  cbn in E. lia.
Qed.

Lemma prefix_snoc_inv {A} (d o : list A) c :
  d `prefix_of` o ++ [c] -> d `prefix_of` o \/ d = o ++ [c].
Proof.
  intros [k Hk]. destruct k as [|x k _] using rev_ind.
  - right. by rewrite app_nil_r in Hk.
  - left. rewrite app_assoc in Hk. apply app_inj_tail in Hk as [-> _].
    by eexists.
Qed.

Lemma removelast_not_below (o : path) : o <> [] -> ~ o `prefix_of` removelast o.
Proof.
  intros Hne [k E]. apply (f_equal length) in E.
  destruct (exists_last Hne) as (l & a & ->).
  rewrite removelast_last, !length_app in E. cbn in E. lia.
Qed.

(** ** The whole conversion *)

Lemma events_since_app w w' evs :
  log w' = log w ++ evs -> events_since w w' = evs.
Proof. intros E. unfold events_since. rewrite E. apply drop_app_length. Qed.

Lemma validate_inputs_spec self aab out props w :
  match _validate_inputs self aab out props w with
  | (Raise _, w') => w' = w
  | (Ok _, w') =>
      exists_ (fs w) (locate (cwd w) (Path aab)) = true
      /\ exists f1,
           w' = add_log (set_fs w f1) (EMkdir (locate (cwd w) (parent (Path out))))
           /\ is_dir f1 (locate (cwd w) (parent (Path out))) = true
           /\ forall x, is_file f1 x = is_file (fs w) x
  end.
Proof.
  unfold _validate_inputs, mbind, M_bind, bind, path_exists, raise, getitem.
  destruct (exists_ (fs w) (locate (cwd w) (Path aab))); cbn [negb]; [|done].
  destruct (exists_ (fs w) (locate (cwd w) (bundletool_path self)));
    cbn [negb]; [|done].
  destruct (props !! lit "release.keystore") as [ks|]; [|done].
  unfold ret.
  destruct (exists_ (fs w) (locate (cwd w) (Path ks))); cbn [negb]; [|done].
  unfold mkdir_parent_of, fs_op.
  destruct (mkdir_parents _ _ _) as [f1|] eqn:E; [|done].
  split; [done|]. exists f1. split; [done|]. split.
  - apply mkdir_parents_is_dir in E. by rewrite rev_involutive in E.
  - intros x. eauto using mkdir_parents_is_file.
Qed.

Lemma below_parent c p (q : path) a rest :
  locate c p = q ++ a :: rest -> q `prefix_of` locate c (parent p).
Proof.
  unfold locate, parent. cbn [anchor parts].
  set (base := match anchor p with [] => c | _ => [] end).
  intros E. destruct (parts p) as [|b ps] eqn:Ep.
  - cbn [removelast]. rewrite E. by exists (a :: rest).
  - assert (base ++ removelast (b :: ps) = removelast (base ++ b :: ps)) as ->
      by (by rewrite removelast_app).
    rewrite E, removelast_app by done. by eexists.
Qed.

(** ** The order of the external programs *)

Lemma spawns_app a b : spawns (a ++ b) = spawns a ++ spawns b.
Proof. apply omap_app. Qed.

Lemma spawns_quiet evs : Forall no_spawn evs -> spawns evs = [].
Proof.
  induction 1 as [|e evs He _ IH]; [done|].
  destruct e; try done; exact IH.
Qed.

Lemma read_signing_properties_respects R `{!PreOrder R} file :
  respects R (_read_signing_properties file).
Proof. intros w. rewrite read_signing_properties_frame. reflexivity. Qed.

Lemma validate_inputs_steps self aab out props :
  respects (steps no_spawn) (_validate_inputs self aab out props).
Proof.
  intros w. pose proof (validate_inputs_spec self aab out props w) as H.
  destruct (_validate_inputs self aab out props w) as [[[]|e] w']; cbn [snd].
  - destruct H as (_ & f1 & -> & _). by apply steps_set_fs_log.
  - subst w'. reflexivity.
Qed.

(** ** Preconditions *)

Lemma convert_missing_aab self aab out sp w :
  exists_ (fs w) (locate (cwd w) (Path aab)) = false ->
  convert_aab_to_apk self aab out sp w
  = (match (_read_signing_properties sp w).1 with
     | Ok _ => Raise (FileNotFoundError (lit "AAB file not found: " ++ aab))
     | Raise e => Raise e
     end,
     add_log w (EPrint (lit "Converting " ++ aab ++ lit " to " ++ out
                        ++ lit "..."))).
Proof.
  intros Haab.
  unfold convert_aab_to_apk, mbind, M_bind, bind. unfold print at 1, emit.
  set (w0 := add_log w _).
  assert ((_read_signing_properties sp w0).1 = (_read_signing_properties sp w).1
          /\ (_read_signing_properties sp w0).2 = w0) as [Er Ew].
  { rewrite !read_signing_properties_eq. cbn [fs cwd unicodedata w0 add_log].
    by destruct (read_text _ _). }
  destruct (_read_signing_properties sp w0) as [[props|e] w1];
    cbn [fst snd] in Er, Ew; subst w1; rewrite <- Er; [|done].
  unfold _validate_inputs, mbind, M_bind, bind, path_exists, raise.
  cbn [fs cwd w0 add_log]. by rewrite Haab.
Qed.

(** C1, as the code has it: when the input AAB does not exist,
    [convert_aab_to_apk] fails without starting any program and without
    touching the file system; all it does is print its first progress
    line.  The error is [FileNotFoundError] for the AAB when the signing
    properties were read, and the error of the reader otherwise, since
    the properties are read first.  More generally the reader never
    changes the world, and a failed validation leaves it as it was. *)
Theorem missing_aab_stops_before_tools self aab out sp w :
  exists_ (fs w) (locate (cwd w) (Path aab)) = false ->
  let r := (convert_aab_to_apk self aab out sp w).1 in
  let w' := (convert_aab_to_apk self aab out sp w).2 in
  fs w' = fs w
  /\ events_since w w'
     = [EPrint (lit "Converting " ++ aab ++ lit " to " ++ out ++ lit "...")]
  /\ spawns (events_since w w') = []
  /\ match (_read_signing_properties sp w).1 with
     | Ok _ => r = Raise (FileNotFoundError (lit "AAB file not found: " ++ aab))
     | Raise e => r = Raise e
     end
  /\ (_read_signing_properties sp w).2 = w
  /\ (forall props e w1,
        _validate_inputs self aab out props w = (Raise e, w1) -> w1 = w).
Proof.
  intros Haab. cbv zeta. rewrite (convert_missing_aab _ _ _ _ _ Haab).
  cbn [fst snd]. rewrite (events_since_app w _ [EPrint _]) by done.
  split; [done|]. split; [done|]. split; [done|].
  split; [by destruct (_read_signing_properties sp w).1|].
  split; [apply read_signing_properties_frame|].
  intros props e w1 H.
  pose proof (validate_inputs_spec self aab out props w) as Hv.
  by rewrite H in Hv.
Qed.

Lemma missing_aab_stops_before_tools_witness :
  (convert_aab_to_apk sample_wrapper (lit "app.aab") (lit "out/app.apk")
     (lit "signing.properties")
     (sample_world false good_properties good_tool)).1
  = Raise (FileNotFoundError (lit "AAB file not found: app.aab")).
Proof.
  destruct (missing_aab_stops_before_tools sample_wrapper (lit "app.aab")
              (lit "out/app.apk") (lit "signing.properties")
              (sample_world false good_properties good_tool))
    as (_ & _ & _ & H & _).
  - vm_compute; reflexivity.
  - assert (match (_read_signing_properties (lit "signing.properties")
                     (sample_world false good_properties good_tool)).1
            with Ok _ => true | Raise _ => false end = true) as Hb
      by (vm_compute; reflexivity).
    destruct (_read_signing_properties _ _).1; [exact H|discriminate Hb].
Defined.

(** C1, as stated, fails: with the AAB missing and a properties file
    that lacks two required keys, the run ends with the [ValueError] of
    the reader, not with a [FileNotFoundError]. *)
Lemma missing_aab_not_always_file_not_found :
  ~ (forall self aab out sp w,
       exists_ (fs w) (locate (cwd w) (Path aab)) = false ->
       exists msg,
         (convert_aab_to_apk self aab out sp w).1
         = Raise (FileNotFoundError msg)).
Proof.
  intros H.
  destruct (H sample_wrapper (lit "app.aab") (lit "out/app.apk")
              (lit "signing.properties")
              (sample_world false short_properties good_tool)) as [msg E].
  - vm_compute; reflexivity.
  - vm_compute in E. discriminate.
Qed.

(** ** The runtime locator *)

Lemma java_from_home_eq w :
  java_from_home w
  = (match environ w !! lit "JAVA_HOME" with
     | Some (c :: h) =>
         if exists_ (fs w) (locate (cwd w) (java_under (c :: h)))
         then Ok (path_str (java_under (c :: h)))
         else Raise java_not_found
     | _ => Raise java_not_found
     end, w).
Proof.
  unfold java_from_home, mbind, M_bind, bind, environ_get, path_exists, raise.
  destruct (environ w !! lit "JAVA_HOME") as [[|c h]|]; try done.
  by destruct (exists_ (fs w) (locate (cwd w) (java_under (c :: h)))).
Qed.

Lemma find_java_eq w :
  _find_java w
  = (let fallback :=
       match environ w !! lit "JAVA_HOME" with
       | Some (c :: h) =>
           if exists_ (processes w java_probe (fs w)).2
                (locate (cwd w) (java_under (c :: h)))
           then Ok (path_str (java_under (c :: h)))
           else Raise java_not_found
       | _ => Raise java_not_found
       end in
     match (processes w java_probe (fs w)).1 with
     | Exited rc _ _ => if (rc =? 0)%Z then Ok (lit "java") else fallback
     | NotFound => fallback
     | Denied => Raise (PermissionError (lit "Permission denied"))
     end,
     add_log (set_fs w (processes w java_probe (fs w)).2)
       (ESpawn java_probe (processes w java_probe (fs w)).1)).
Proof.
  unfold _find_java, mbind, M_bind, bind, try_catch, subprocess_run.
  change (existsb (contains 0) java_probe) with false. cbv iota.
  destruct (processes w java_probe (fs w)) as [o f']. cbn [fst snd].
  destruct o as [rc out err| |].
  - cbn [captured]. destruct (rc =? 0)%Z; [done|].
    cbn [is_CalledProcessError orb]. unfold mret, M_ret, ret.
    by rewrite java_from_home_eq.
  - cbn [is_CalledProcessError is_FileNotFoundError orb].
    unfold mret, M_ret, ret. by rewrite java_from_home_eq.
  - done.
Qed.

(** C7, as the code has it: the locator first runs [java -version] and
    starts nothing else.  When that program exits with status 0 the
    answer is ['java'].  When it exits with another status, or no such
    program is found, [JAVA_HOME] is consulted: if it is set, not empty
    and [bin/java] exists below it, the answer is that path; otherwise
    the locator raises [RuntimeError].  Any other failure to start the
    program (such as a [java] that may not be executed) is not caught:
    it propagates, and [JAVA_HOME] is not consulted.  Every error of the
    locator is fatal: [main] reports it and exits with status 1. *)
Theorem find_java_order w :
  let o := (processes w java_probe (fs w)).1 in
  let f' := (processes w java_probe (fs w)).2 in
  let r := (_find_java w).1 in
  let w' := (_find_java w).2 in
  let home := environ w !! lit "JAVA_HOME" in
  events_since w w' = [ESpawn java_probe o]
  /\ (forall out err, o = Exited 0 out err -> r = Ok (lit "java"))
  /\ ((exists rc out err, o = Exited rc out err /\ rc <> 0%Z) \/ o = NotFound ->
      (forall h, home = Some h -> h <> [] ->
         exists_ f' (locate (cwd w) (java_under h)) = true ->
         r = Ok (path_str (java_under h)))
      /\ (home = None \/ home = Some []
          \/ (exists h, home = Some h
                        /\ exists_ f' (locate (cwd w) (java_under h)) = false) ->
          r = Raise java_not_found))
  /\ (o = Denied -> r = Raise (PermissionError (lit "Permission denied")))
  /\ (forall e args, r = Raise e ->
        main args w = (1%Z, add_log w' (failure_report e))).
Proof.
  cbv zeta.
  assert (forall e args, (_find_java w).1 = Raise e ->
            main args w = (1%Z, add_log (_find_java w).2 (failure_report e)))
    as Hfatal.
  { intros e args H. unfold main, main_body, __init__, mbind, M_bind, bind.
    destruct (_find_java w) as [[j|e'] w1]; cbn [fst snd] in *; [done|].
    by injection H as ->. }
  split; [|split; [|split; [|split; [|exact Hfatal]]]];
    rewrite find_java_eq; cbn [fst snd].
  - by apply events_since_app.
  - by intros out err ->.
  - set (fallback := match environ w !! lit "JAVA_HOME" with
                     | Some (c :: h) => _
                     | _ => Raise java_not_found
                     end).
    intros Ho.
    assert (match (processes w java_probe (fs w)).1 with
            | Exited rc _ _ => if (rc =? 0)%Z then Ok (lit "java") else fallback
            | NotFound => fallback
            | Denied => Raise (PermissionError (lit "Permission denied"))
            end = fallback) as ->.
    { destruct Ho as [(rc & out & err & -> & Hrc)| ->]; [|done].
      by apply Z.eqb_neq in Hrc as ->. }
    unfold fallback. clear fallback Ho.
    destruct (environ w !! lit "JAVA_HOME") as [[|c h]|]; split; try done.
    + by intros h [= <-].
    + intros h' [= <-] _ ->. done.
    + intros [?|[?|(h' & [= <-] & ->)]]; done.
  - by intros ->.
Qed.

Lemma find_java_order_witness :
  (_find_java (jdk_world no_java_tool)).1 = Ok (lit "/opt/jdk/bin/java").
Proof.
  destruct (find_java_order (jdk_world no_java_tool)) as (_ & _ & H & _).
  destruct H as [H _]; [by right|].
  apply (H (lit "/opt/jdk")).
  - vm_compute; reflexivity.
  - discriminate.
  - vm_compute; reflexivity.
Defined.

(** C7, as stated, fails: when [java] is there but may not be run, the
    locator does not fall back on [JAVA_HOME], although it is set and
    holds a [bin/java]; the [PermissionError] propagates. *)
Lemma find_java_no_fallback_when_denied :
  ~ (forall w,
       (forall out err, (processes w java_probe (fs w)).1 <> Exited 0 out err) ->
       forall h, environ w !! lit "JAVA_HOME" = Some h -> h <> [] ->
         exists_ (processes w java_probe (fs w)).2
           (locate (cwd w) (java_under h)) = true ->
         (_find_java w).1 = Ok (path_str (java_under h))).
Proof.
  intros H.
  specialize (H (jdk_world denied_tool) ltac:(discriminate) (lit "/opt/jdk")).
  assert ((_find_java (jdk_world denied_tool)).1
          = Raise (PermissionError (lit "Permission denied"))) as E
    by (vm_compute; reflexivity).
  rewrite E in H. discriminate H.
  - vm_compute; reflexivity.
  - discriminate.
  - vm_compute; reflexivity.
Qed.

(** ** The entry point *)

(** C8: [main] exits with status 0 when the wrapper is built and the
    conversion succeeds, and not otherwise; whatever exception the body
    raises is caught, and [main] then prints the failure sign and
    [str(e)] on the error stream, as its last act, and exits with status
    1. *)
Theorem main_exit_status args w :
  let r := (main_body args w).1 in
  let w1 := (main_body args w).2 in
  match r with
  | Ok _ => main args w = (0%Z, w1)
  | Raise e => main args w = (1%Z, add_log w1 (failure_report e))
  end
  /\ ((main args w).1 = 0%Z <->
      exists wrapper w2 w3,
        __init__ (bundletool_jar args) w = (Ok wrapper, w2)
        /\ convert_aab_to_apk wrapper (aab_file args) (output_file args)
             (signing_properties args) w2 = (Ok tt, w3))
  /\ ((main args w).1 <> 0%Z -> (main args w).1 = 1%Z /\ exists e, r = Raise e).
Proof.
  cbv zeta. unfold main.
  assert ((exists u, (main_body args w).1 = Ok u) <->
          exists wrapper w2 w3,
            __init__ (bundletool_jar args) w = (Ok wrapper, w2)
            /\ convert_aab_to_apk wrapper (aab_file args) (output_file args)
                 (signing_properties args) w2 = (Ok tt, w3)) as Hok.
  { unfold main_body, mbind, M_bind, bind.
    destruct (__init__ (bundletool_jar args) w) as [[wrapper|e] w2].
    - destruct (convert_aab_to_apk wrapper _ _ _ w2) as [[[]|e] w3] eqn:E.
      + split; [intros _; by exists wrapper, w2, w3|].
        intros _. unfold print, emit. by exists tt.
      + split; [by intros [u ?]|].
        intros (wr & w2' & w3' & [= <- <-] & E'). congruence.
    - split; [by intros [u ?]|]. by intros (wr & w2' & w3' & [=] & _). }
  destruct (main_body args w) as [[u|e] w1]; cbn [fst snd] in *.
  - split; [done|]. split; [|done]. split; [intros _|done].
    apply Hok. by exists u.
  - split; [done|]. split.
    + split; [done|]. intros H. apply Hok in H as [u H]. done.
    + intros _. split; [done|]. by exists e.
Qed.

(** ** More about the reader *)

Lemma lstrip_idem s : lstrip (lstrip s) = lstrip s.
Proof.
  induction s as [|c s IH]; [done|]. cbn [lstrip].
  destruct (isspace c) eqn:E; [done|]. cbn [lstrip]. by rewrite E.
Qed.

Lemma lstrip_snoc s c : isspace c = false -> lstrip (s ++ [c]) = lstrip s ++ [c].
Proof.
  intros Hc. induction s as [|a s IH]; cbn [app lstrip].
  - by rewrite Hc.
  - by destruct (isspace a).
Qed.

Lemma rstrip_cons c s : isspace c = false -> rstrip (c :: s) = c :: rstrip s.
Proof.
  intros Hc. unfold rstrip. cbn [rev].
  change (rev s ++ [c]) with (rev s ++ [c]).
  by rewrite lstrip_snoc, rev_app_distr.
Qed.

Lemma rstrip_idem s : rstrip (rstrip s) = rstrip s.
Proof. unfold rstrip. by rewrite rev_involutive, lstrip_idem. Qed.

Lemma lstrip_head s : lstrip s = [] \/ exists c t, lstrip s = c :: t /\ isspace c = false.
Proof.
  induction s as [|c s IH]; [by left|]. cbn [lstrip].
  destruct (isspace c) eqn:E; [done|]. right. eauto.
Qed.

(** Trimming twice is trimming once. *)
Lemma strip_idem s : strip (strip s) = strip s.
Proof.
  unfold strip. destruct (lstrip_head s) as [->|(c & t & -> & Hc)]; [done|].
  rewrite (rstrip_cons _ _ Hc). cbn [lstrip]. rewrite Hc.
  by rewrite (rstrip_cons _ _ Hc), rstrip_idem.
Qed.

Lemma split_once_some c s a b :
  split_once c s = Some (a, b) -> s = a ++ c :: b /\ contains c a = false.
Proof.
  revert a b. induction s as [|x s IH]; intros a b; cbn [split_once]; [done|].
  destruct (x =? c) eqn:E.
  - intros [= <- <-]. apply N.eqb_eq in E as ->. done.
  - destruct (split_once c s) as [[a' b']|]; [|done].
    intros [= <- <-]. destruct (IH a' b' eq_refl) as [-> Hc]. split; [done|].
    cbn [contains existsb]. rewrite (N.eqb_sym c x), E. exact Hc.
Qed.

Lemma spec_split_clean line k v :
  spec_split line = Some (k, v) ->
  strip k = k /\ contains 61 k = false /\ strip v = v.
Proof.
  unfold spec_split. destruct (_ || _); [done|].
  destruct (split_once 61 (strip line)) as [[a b]|] eqn:E; [|done].
  intros [= <- <-]. apply split_once_some in E as [_ Hc].
  rewrite !strip_idem. auto using strip_contains.
Qed.

(** X1: in the mapping the loop of the reader builds, no key has white
    space at either end and no key contains ["="]; and no value but the
    keystore path's has white space at either end. *)
Theorem reader_keys_are_clean gc lines props :
  process_lines gc ∅ lines = Ok props ->
  forall k v, props !! k = Some v ->
    strip k = k /\ contains 61 k = false
    /\ (k <> keystore_key -> strip v = v).
Proof.
  rewrite process_lines_spec. intros [= <-].
  assert (forall m : gmap (list N) (list N),
            (forall k v, m !! k = Some v ->
               strip k = k /\ contains 61 k = false
               /\ (k <> keystore_key -> strip v = v)) ->
            forall k v, foldl (apply_entry gc) m lines !! k = Some v ->
              strip k = k /\ contains 61 k = false
              /\ (k <> keystore_key -> strip v = v)) as H.
  { induction lines as [|line lines IH]; intros m Hm; [done|].
    cbn [foldl]. apply IH. unfold apply_entry.
    destruct (spec_split line) as [[k0 v0]|] eqn:E; [|done].
    destruct (spec_split_clean _ _ _ E) as (Hk & Hc & Hv).
    intros k v. destruct (decide (k0 = k)) as [<-|Hne].
    - rewrite lookup_insert_eq. intros [= <-]. split; [done|]. split; [done|].
      intros Hks. unfold spec_value, keystore_key in *.
      by rewrite bool_decide_eq_false_2.
    - rewrite lookup_insert_ne by done. apply Hm. }
  apply H. intros k v. by rewrite lookup_empty.
Qed.

Lemma reader_keys_are_clean_witness :
  let props := foldl (apply_entry no_names) ∅ (readlines good_properties) in
  process_lines no_names ∅ (readlines good_properties) = Ok props
  /\ props !! lit "release.keystore" = Some (lit "/work/release.jks")
  /\ strip (lit "release.keystore") = lit "release.keystore".
Proof.
  intros props.
  assert (props !! lit "release.keystore" = Some (lit "/work/release.jks"))
    as Hl by (vm_compute; reflexivity).
  split; [apply process_lines_spec|]. split; [exact Hl|].
  exact (proj1 (reader_keys_are_clean no_names _ _
                  (process_lines_spec _ _ _) _ _ Hl)).
Defined.

(** X2: when the reader returns a mapping, the world is as it was, the
    file was read as text, and each of the four required keys is in the
    mapping. *)
Theorem reader_success_has_required_keys file w props w' :
  _read_signing_properties file w = (Ok props, w') ->
  w' = w
  /\ (forall k, k ∈ required_keys -> is_Some (props !! k))
  /\ exists text,
       read_text (fs w) (locate (cwd w) (Path file)) = Ok text
       /\ process_lines (unicodedata w) ∅ (readlines text) = Ok props.
Proof.
  rewrite read_signing_properties_eq.
  destruct (read_text _ _) as [text|e]; [|done].
  unfold check_required.
  destruct (missing_keys _) as [|k0 l] eqn:Em; [|done].
  intros [= <- <-]. split; [done|]. split.
  - intros k Hk. destruct (foldl _ _ _ !! k) eqn:E; [done|].
    assert (k ∈ missing_keys (foldl (apply_entry (unicodedata w)) ∅
                                (readlines text))) as Hin
      by by apply missing_keys_elem.
    rewrite Em in Hin. by apply elem_of_nil in Hin.
  - exists text. split; [done|]. apply process_lines_spec.
Qed.

Lemma reader_success_has_required_keys_witness :
  exists props,
    (_read_signing_properties (lit "signing.properties")
       (sample_world true good_properties good_tool)).1 = Ok props
    /\ is_Some (props !! lit "key.password").
Proof.
  assert (match (_read_signing_properties (lit "signing.properties")
                   (sample_world true good_properties good_tool)).1
          with Ok _ => true | Raise _ => false end = true) as Hb
    by (vm_compute; reflexivity).
  destruct (_read_signing_properties _ _) as [[props|e] w'] eqn:E;
    [|discriminate Hb].
  exists props. split; [done|].
  destruct (reader_success_has_required_keys _ _ _ _ E) as (_ & H & _).
  apply H. apply (bool_decide_unpack _). vm_compute. exact I.
Defined.

Lemma stat_raises f p e :
  stat f p = Raise e ->
  exists msg, e = FileNotFoundError msg \/ e = NotADirectoryError msg.
Proof.
  revert f. induction p as [|c p IH]; intros f; cbn [stat]; [done|].
  destruct f as [|es]; [intros [= <-]; eauto|].
  destruct (es !! c); [apply IH|intros [= <-]; eauto].
Qed.

Lemma utf8_decode_raises b e :
  utf8_decode b = Raise e -> is_UnicodeError e = true.
Proof.
  remember (length b) as n eqn:Hn. revert b Hn e.
  induction n as [n IH] using lt_wf_ind. intros b -> e.
  destruct b as [|b0 r0]; [done|]. cbn [utf8_decode].
  assert (forall r (f : list N -> list N), (length r < length (b0 :: r0))%nat ->
            rmap f (utf8_decode r) = Raise e -> is_UnicodeError e = true) as Hrec.
  { intros r f Hlen. unfold rmap, rbind.
    destruct (utf8_decode r) eqn:E; [done|]. intros [= <-].
    by eapply IH; [exact Hlen|reflexivity|]. }
  repeat case_match; subst; cbn [length] in *;
    try (by intros [= <-]);
    apply Hrec; cbn [length]; lia.
Qed.

(** X3: the reader fails in three ways only, and never changes the
    world.  It raises [FileNotFoundError], naming the file, when and only
    when opening the file does (nothing stands at that path); it raises
    [RuntimeError] for every other failure to read the file as UTF-8 text
    (a directory, a regular file in the way, bytes that are not UTF-8);
    and it raises [ValueError] when the text was read and a required key
    is absent. *)
Theorem reader_failure_classes file w e w' :
  _read_signing_properties file w = (Raise e, w') ->
  let loc := locate (cwd w) (Path file) in
  w' = w
  /\ ((exists cause, read_text (fs w) loc = Raise (FileNotFoundError cause)
                     /\ exists_ (fs w) loc = false
                     /\ e = FileNotFoundError
                              (lit "Properties file not found: " ++ file))
      \/ (exists cause, read_text (fs w) loc = Raise cause
                        /\ is_FileNotFoundError cause = false
                        /\ e = RuntimeError
                                 (lit "Error reading properties file: "
                                  ++ exn_str cause))
      \/ (exists text missing,
            read_text (fs w) loc = Ok text
            /\ missing <> []
            /\ e = ValueError (lit "Missing required properties: "
                               ++ join (lit ", ") missing))).
Proof.
  rewrite read_signing_properties_eq. intros H loc. subst loc.
  destruct (read_text _ _) as [text|cause] eqn:Er.
  - unfold check_required in H.
    destruct (missing_keys _) as [|k0 l] eqn:Em; [done|].
    injection H as <- <-. split; [done|]. right. right.
    exists text, (k0 :: l). done.
  - injection H as <- <-. split; [done|].
    destruct (is_FileNotFoundError cause) eqn:Ef.
    + left. destruct cause; try done. eexists. split; [done|]. split; [|done].
      unfold read_text, exists_ in *.
      destruct (stat _ _) as [[data|es]|e'] eqn:Es; [| |done]; [|done].
      apply utf8_decode_raises in Er. done.
    + right. left. by exists cause.
Qed.

Lemma reader_failure_classes_witness :
  let w := sample_world true good_properties good_tool in
  _read_signing_properties (lit "/tmp") w
  = (Raise (RuntimeError (lit "Error reading properties file: Is a directory")),
     w)
  /\ exists cause,
       read_text (fs w) (locate (cwd w) (Path (lit "/tmp"))) = Raise cause
       /\ is_FileNotFoundError cause = false.
Proof.
  intros w.
  assert (_read_signing_properties (lit "/tmp") w
          = (Raise (RuntimeError
                      (lit "Error reading properties file: Is a directory")),
             w)) as E by (vm_compute; reflexivity).
  split; [exact E|].
  destruct (reader_failure_classes _ _ _ _ E)
    as (_ & [(c & _ & _ & H)|[(c & H & Hc & _)|(t & m & _ & _ & H)]]);
    [discriminate H|by exists c|discriminate H].
Defined.

Lemma replace_from_absent old h new s :
  h ∉ s -> replace_from (h :: old) new O s = s.
Proof.
  induction s as [|c s IH]; [done|]. intros Hn.
  cbn [replace_from startswith].
  assert ((h =? c) = false) as ->.
  { apply N.eqb_neq. intros ->. apply Hn. by left. }
  cbn [andb]. rewrite IH; [done|]. intros H. apply Hn. by right.
Qed.

Lemma plain_is_tame s :
  Forall (fun c => c < 128 /\ c <> 92) s -> tame s = true.
Proof.
  induction 1 as [|c s [Hc Hb] _ IH]; [done|]. cbn [tame].
  apply N.ltb_lt in Hc as ->. apply N.eqb_neq in Hb as ->. done.
Qed.

(** X4: a keystore path that is ASCII and has no backslash in it (any
    POSIX-style path) goes through the unescaping untouched: the reader
    stores the trimmed value as it is written. *)
Theorem keystore_posix_path_kept gc props line value :
  spec_split line = Some (keystore_key, value) ->
  Forall (fun c => c < 128 /\ c <> 92) value ->
  process_line gc props line = Ok (<[keystore_key := value]> props).
Proof.
  intros Hs Hv. rewrite process_line_spec, (apply_entry_some _ _ _ _ _ Hs).
  assert (replace_separators value = value) as Hr.
  { assert (92 ∉ value) as Hn.
    { intros Hin. rewrite Forall_forall in Hv. by destruct (Hv _ Hin). }
    unfold replace_separators, replace. cbv zeta.
    change (lit "\\") with (92 :: [92]). change (lit "\:") with (92 :: [58]).
    rewrite (replace_from_absent [92] 92 _ value Hn).
    by rewrite replace_from_absent. }
  unfold spec_value, keystore_key. rewrite bool_decide_eq_true_2 by done.
  rewrite spec_keystore_tame; rewrite Hr; [done|]. by apply plain_is_tame.
Qed.

Lemma keystore_posix_path_kept_witness :
  process_line no_names ∅ (lit "release.keystore = /work/release.jks" ++ nl)
  = Ok (<[keystore_key := lit "/work/release.jks"]> ∅).
Proof.
  apply keystore_posix_path_kept.
  - vm_compute; reflexivity.
  - apply (bool_decide_unpack _). vm_compute. exact I.
Defined.

(** ** More about the validation of the inputs *)

Lemma stat_put_file p : forall f x y data,
  ~ p `prefix_of` x -> stat f x = Ok (File data) ->
  stat (put f p y) x = Ok (File data).
Proof.
  induction p as [|c p IH]; intros f x y data Hp Hx.
  - destruct Hp. apply prefix_nil.
  - destruct f as [|es]; [done|]. cbn [put].
    destruct x as [|c' x]; [done|]. cbn [stat] in Hx.
    destruct (decide (c = c')) as [<-|Hne].
    + assert (~ p `prefix_of` x) as Hp'.
      { intros H. apply Hp. by apply prefix_cons. }
      destruct p as [|c2 p]; [destruct Hp'; apply prefix_nil|].
      destruct (es !! c) as [n'|] eqn:E; [|done].
      cbn [stat]. rewrite lookup_insert_eq. by apply IH.
    + destruct p as [|c2 p].
      * cbn [stat]. by rewrite lookup_partial_alter_ne.
      * destruct (es !! c) as [n'|] eqn:E; [|by cbn [stat]].
        cbn [stat]. by rewrite lookup_insert_ne.
Qed.

Lemma kind_stat_file f x data : stat f x = Ok (File data) -> kind f x = Some false.
Proof. unfold kind. by intros ->. Qed.

(** A new directory hides nothing: what was there is there, as it
    was. *)
Lemma os_mkdir_keeps f p f' :
  os_mkdir f p = Ok f' ->
  (forall x, kind f x <> None -> kind f' x = kind f x)
  /\ (forall x data, stat f x = Ok (File data) -> stat f' x = Ok (File data)).
Proof.
  intros (Hk & Hd & Hne & ->)%os_mkdir_ok.
  assert (forall x, kind f x <> None -> ~ p `prefix_of` x) as Hout.
  { intros x Hx [q ->]. by rewrite kind_missing_below in Hx. }
  split.
  - intros x Hx. by rewrite kind_put_outside by auto.
  - intros x data Hx. apply stat_put_file; [|done]. apply Hout.
    by rewrite (kind_stat_file _ _ _ Hx).
Qed.

Lemma mkdir_leaf_keeps f p f' :
  mkdir_leaf f p = Ok f' ->
  (forall x, kind f x <> None -> kind f' x = kind f x)
  /\ (forall x data, stat f x = Ok (File data) -> stat f' x = Ok (File data)).
Proof.
  unfold mkdir_leaf. destruct (os_mkdir f p) as [f1|e] eqn:E.
  - intros [= <-]. eauto using os_mkdir_keeps.
  - destruct (is_FileNotFoundError e); [done|].
    destruct (is_dir f p); [|done]. by intros [= <-].
Qed.

Lemma mkdir_parents_keeps base rparts : forall f f',
  mkdir_parents f base rparts = Ok f' ->
  (forall x, kind f x <> None -> kind f' x = kind f x)
  /\ (forall x data, stat f x = Ok (File data) -> stat f' x = Ok (File data)).
Proof.
  induction rparts as [|c rparts IH]; intros f f'; cbn [mkdir_parents];
    (destruct (os_mkdir f _) as [f1|e] eqn:E;
       [intros [= <-]; eauto using os_mkdir_keeps|]);
    (destruct (is_FileNotFoundError e);
       [|destruct (is_dir f _); [|done]; by intros [= <-]]); [done|].
  destruct (mkdir_parents f base rparts) as [f1|] eqn:E1; [|done].
  cbn [rbind]. intros H.
  destruct (IH _ _ E1) as [Hk1 Hs1].
  destruct (mkdir_leaf_keeps _ _ _ H) as [Hk2 Hs2]. split.
  - intros x Hx. rewrite Hk2; rewrite Hk1; done.
  - eauto.
Qed.

Lemma mkdir_parents_noop f base rparts :
  is_dir f (base ++ rev rparts) = true -> mkdir_parents f base rparts = Ok f.
Proof.
  intros Hd.
  assert (os_mkdir f (base ++ rev rparts)
          = Raise (FileExistsError (lit "File exists"))) as E.
  { unfold os_mkdir. unfold is_dir in Hd.
    by destruct (stat f (base ++ rev rparts)). }
  destruct rparts; cbn [mkdir_parents]; rewrite E;
    cbn [is_FileNotFoundError]; by rewrite Hd.
Qed.

Lemma stat_notdir x : forall f e,
  stat f x = Raise e -> is_FileNotFoundError e = false ->
  exists q a rest, x = q ++ a :: rest /\ is_file f q = true.
Proof.
  induction x as [|c x IH]; intros f e; cbn [stat]; [done|].
  destruct f as [data|es].
  - intros _ _. by exists [], c, x.
  - destruct (es !! c) as [n'|] eqn:E.
    + intros H He. destruct (IH _ _ H He) as (q & a & rest & -> & Hq).
      exists (c :: q), a, rest. split; [done|].
      unfold is_file in *. cbn [stat]. by rewrite E.
    + by intros [= <-].
Qed.

Lemma is_file_not_dir f p n :
  stat f p = Ok n -> is_file f p = false -> is_dir f p = true.
Proof. unfold is_file, is_dir. intros ->. by destruct n. Qed.

Lemma mkdir_leaf_succeeds f p :
  is_dir f (removelast p) = true -> is_file f p = false ->
  exists f', mkdir_leaf f p = Ok f'.
Proof.
  intros Hh Hf. unfold mkdir_leaf, os_mkdir, holder_check.
  destruct (stat f p) as [n|e] eqn:E.
  - cbn [is_FileNotFoundError]. rewrite (is_file_not_dir _ _ _ E Hf). eauto.
  - unfold is_dir in Hh. destruct (stat f (removelast p)) as [[|es]|]; try done.
    cbn [rbind]. eauto.
Qed.

(** Making the parents succeeds when the starting directory is there
    and no regular file stands on the way. *)
Lemma mkdir_parents_succeeds base rparts : forall f,
  is_dir f base = true ->
  (forall q, q `prefix_of` base ++ rev rparts -> is_file f q = false) ->
  exists f', mkdir_parents f base rparts = Ok f'.
Proof.
  induction rparts as [|c rparts IH]; intros f Hb Hnf.
  - exists f. apply mkdir_parents_noop. by rewrite app_nil_r.
  - cbn [mkdir_parents].
    assert (is_file f (base ++ rev (c :: rparts)) = false) as Hp
      by (apply Hnf; done).
    destruct (os_mkdir f (base ++ rev (c :: rparts))) as [f1|e] eqn:E; [eauto|].
    assert (removelast (base ++ rev (c :: rparts)) = base ++ rev rparts) as Hrl.
    { cbn [rev]. by rewrite app_assoc, removelast_last. }
    assert (forall q, q `prefix_of` base ++ rev rparts -> is_file f q = false)
      as Hnf'.
    { intros q [k Hk]. apply Hnf. exists (k ++ [c]). cbn [rev].
      by rewrite (app_assoc base), Hk, (app_assoc q). }
    destruct (is_FileNotFoundError e) eqn:Ef.
    + destruct (IH f Hb Hnf') as [f1 E1]. rewrite E1. cbn [rbind].
      apply mkdir_leaf_succeeds.
      * rewrite Hrl. eauto using mkdir_parents_is_dir.
      * by rewrite (mkdir_parents_is_file _ _ _ _ _ E1).
    + unfold os_mkdir, holder_check in E.
      destruct (stat f (base ++ rev (c :: rparts))) as [n|e0] eqn:Es.
      * rewrite (is_file_not_dir _ _ _ Es Hp). eauto.
      * exfalso. rewrite Hrl in E.
        destruct (stat f (base ++ rev rparts)) as [[data|es]|e1] eqn:Eh;
          cbn [rbind] in E; try done.
        -- assert (is_file f (base ++ rev rparts) = true) as Hc
             by (unfold is_file; by rewrite Eh).
           rewrite Hnf' in Hc by done. done.
        -- injection E as ->.
           destruct (stat_notdir _ _ _ Eh Ef) as (q & a & rest & Eq & Hq).
           rewrite Hnf' in Hq; [done|]. rewrite Eq. by eexists.
Qed.

Lemma prefixes_of_spec p : forall q, q `prefix_of` p -> q ∈ prefixes_of p.
Proof.
  induction p as [|c p IH]; intros q Hq.
  - apply prefix_nil_inv in Hq as ->. cbn. by left.
  - destruct q as [|c' q]; cbn [prefixes_of]; [by left|]. right.
    apply prefix_cons_inv_1 in Hq as Hc. apply prefix_cons_inv_2 in Hq.
    subst c'. apply list_elem_of_fmap. eauto.
Qed.

Lemma validate_inputs_eq self aab out props w :
  _validate_inputs self aab out props w
  = if negb (exists_ (fs w) (locate (cwd w) (Path aab))) then
      (Raise (FileNotFoundError (lit "AAB file not found: " ++ aab)), w)
    else if negb (exists_ (fs w) (locate (cwd w) (bundletool_path self))) then
      (Raise (FileNotFoundError
                (lit "Bundletool JAR not found: "
                 ++ path_str (bundletool_path self))), w)
    else
      match props !! lit "release.keystore" with
      | None => (Raise (KeyError (lit "release.keystore")), w)
      | Some ks =>
          if negb (exists_ (fs w) (locate (cwd w) (Path ks))) then
            (Raise (FileNotFoundError (lit "Keystore file not found: " ++ ks)),
             w)
          else
            match mkdir_parents (fs w)
                    (match anchor (Path out) with [] => cwd w | _ => [] end)
                    (rev (removelast (parts (Path out))))
            with
            | Ok f1 =>
                (Ok tt, add_log (set_fs w f1)
                          (EMkdir (locate (cwd w) (parent (Path out)))))
            | Raise e => (Raise e, w)
            end
      end.
Proof.
  unfold _validate_inputs, mbind, M_bind, bind, path_exists, raise, getitem.
  destruct (exists_ (fs w) (locate (cwd w) (Path aab))); cbn [negb]; [|done].
  destruct (exists_ (fs w) (locate (cwd w) (bundletool_path self)));
    cbn [negb]; [|done].
  destruct (props !! lit "release.keystore") as [ks|]; [|done].
  unfold ret.
  destruct (exists_ (fs w) (locate (cwd w) (Path ks))); cbn [negb]; [|done].
  unfold mkdir_parent_of, fs_op. cbn [parent anchor parts].
  by destruct (mkdir_parents _ _ _).
Qed.

(** X5: when the validation succeeds, the AAB, the bundletool JAR and
    the keystore named in the properties all exist, and the directory
    that is to hold the output is there afterwards.  Nothing was lost on
    the way: whatever existed still exists as the same kind of thing,
    every regular file has the bytes it had, and no regular file was
    made.  The one effect logged is the [mkdir]. *)
Theorem validate_inputs_success self aab out props w w1 :
  _validate_inputs self aab out props w = (Ok tt, w1) ->
  let dir := locate (cwd w) (parent (Path out)) in
  exists_ (fs w) (locate (cwd w) (Path aab)) = true
  /\ exists_ (fs w) (locate (cwd w) (bundletool_path self)) = true
  /\ (exists ks, props !! keystore_key = Some ks
                 /\ exists_ (fs w) (locate (cwd w) (Path ks)) = true)
  /\ is_dir (fs w1) dir = true
  /\ (forall x, kind (fs w) x <> None -> kind (fs w1) x = kind (fs w) x)
  /\ (forall x data, stat (fs w) x = Ok (File data) ->
        stat (fs w1) x = Ok (File data))
  /\ (forall x, is_file (fs w1) x = is_file (fs w) x)
  /\ events_since w w1 = [EMkdir dir].
Proof.
  rewrite validate_inputs_eq. intros H dir. subst dir.
  destruct (exists_ (fs w) (locate (cwd w) (Path aab))); [|done].
  destruct (exists_ (fs w) (locate (cwd w) (bundletool_path self))); [|done].
  cbn [negb] in H. unfold keystore_key.
  destruct (props !! lit "release.keystore") as [ks|]; [|done].
  destruct (exists_ (fs w) (locate (cwd w) (Path ks))) eqn:Ek; [|done].
  cbn [negb] in H.
  destruct (mkdir_parents _ _ _) as [f1|] eqn:E; [|done].
  injection H as <-. cbn [fs add_log set_fs].
  destruct (mkdir_parents_keeps _ _ _ _ E) as [Hk Hs].
  split; [done|]. split; [done|]. split; [eauto|]. split.
  { apply mkdir_parents_is_dir in E. by rewrite rev_involutive in E. }
  split; [done|]. split; [done|].
  split; [eauto using mkdir_parents_is_file|]. by apply events_since_app.
Qed.

Lemma validate_inputs_success_witness :
  let w := sample_world true good_properties good_tool in
  let w1 := (_validate_inputs sample_wrapper (lit "app.aab")
               (lit "out/deep/app.apk")
               {[ keystore_key := lit "/work/release.jks" ]} w).2 in
  is_dir (fs w1) [lit "work"; lit "out"; lit "deep"] = true
  /\ stat (fs w1) [lit "work"; lit "app.aab"] = Ok (File [1; 2; 3]).
Proof.
  intros w w1.
  assert (_validate_inputs sample_wrapper (lit "app.aab")
            (lit "out/deep/app.apk")
            {[ keystore_key := lit "/work/release.jks" ]} w = (Ok tt, w1)) as E
    by (vm_compute; reflexivity).
  destruct (validate_inputs_success _ _ _ _ _ _ E)
    as (_ & _ & _ & Hd & _ & Hs & _).
  split; [exact Hd|]. apply Hs. vm_compute; reflexivity.
Defined.

(** X6: the validation reports the first file that is missing, in the
    order AAB, bundletool JAR, keystore, as a [FileNotFoundError] that
    names it; and however it fails, it leaves the world as it was. *)
Theorem validate_inputs_first_missing self aab out props w :
  let there p := exists_ (fs w) (locate (cwd w) p) in
  let run := _validate_inputs self aab out props w in
  (there (Path aab) = false ->
     run = (Raise (FileNotFoundError (lit "AAB file not found: " ++ aab)), w))
  /\ (there (Path aab) = true -> there (bundletool_path self) = false ->
        run = (Raise (FileNotFoundError
                        (lit "Bundletool JAR not found: "
                         ++ path_str (bundletool_path self))), w))
  /\ (forall ks,
        there (Path aab) = true -> there (bundletool_path self) = true ->
        props !! keystore_key = Some ks -> there (Path ks) = false ->
        run = (Raise (FileNotFoundError
                        (lit "Keystore file not found: " ++ ks)), w))
  /\ (forall e w1, run = (Raise e, w1) -> w1 = w).
Proof.
  cbv zeta. rewrite validate_inputs_eq. unfold keystore_key.
  split; [by intros ->|]. split; [by intros -> ->|]. split.
  - by intros ks -> -> -> ->.
  - intros e w1. repeat case_match; congruence.
Qed.

Lemma validate_inputs_first_missing_witness :
  let w := sample_world true good_properties good_tool in
  _validate_inputs sample_wrapper (lit "app.aab") (lit "out/app.apk")
    {[ keystore_key := lit "/work/gone.jks" ]} w
  = (Raise (FileNotFoundError (lit "Keystore file not found: /work/gone.jks")),
     w).
Proof.
  intros w.
  destruct (validate_inputs_first_missing sample_wrapper (lit "app.aab")
              (lit "out/app.apk") {[ keystore_key := lit "/work/gone.jks" ]} w)
    as (_ & _ & H & _).
  apply (H (lit "/work/gone.jks")); vm_compute; reflexivity.
Defined.

(** X7: validating again changes nothing: after a successful
    validation a second one succeeds as well and leaves the file system
    as the first one left it. *)
Theorem validate_inputs_idempotent self aab out props w w1 :
  _validate_inputs self aab out props w = (Ok tt, w1) ->
  exists w2,
    _validate_inputs self aab out props w1 = (Ok tt, w2) /\ fs w2 = fs w1.
Proof.
  intros H. pose proof H as H0. rewrite validate_inputs_eq in H0.
  destruct (exists_ (fs w) (locate (cwd w) (Path aab))) eqn:E1; [|done].
  destruct (exists_ (fs w) (locate (cwd w) (bundletool_path self))) eqn:E2;
    [|done].
  cbn [negb] in H0.
  destruct (props !! lit "release.keystore") as [ks|] eqn:Ep; [|done].
  destruct (exists_ (fs w) (locate (cwd w) (Path ks))) eqn:E3; [|done].
  cbn [negb] in H0.
  destruct (mkdir_parents _ _ _) as [f1|] eqn:E; [|done].
  injection H0 as <-.
  destruct (mkdir_parents_keeps _ _ _ _ E) as [Hk _].
  assert (forall p, exists_ (fs w) p = true -> exists_ f1 p = true) as Hex.
  { intros p. rewrite !exists_kind. intros Hp%bool_decide_eq_true.
    apply bool_decide_eq_true. by rewrite Hk. }
  rewrite validate_inputs_eq. cbn [fs cwd add_log set_fs].
  rewrite (Hex _ E1), (Hex _ E2), Ep, (Hex _ E3). cbn [negb].
  rewrite mkdir_parents_noop.
  - eexists. split; [reflexivity|done].
  - apply mkdir_parents_is_dir in E. by rewrite rev_involutive in *.
Qed.

Lemma validate_inputs_idempotent_witness :
  let w := sample_world true good_properties good_tool in
  let props : gmap (list N) (list N) :=
    {[ keystore_key := lit "/work/release.jks" ]} in
  let w1 := (_validate_inputs sample_wrapper (lit "app.aab")
               (lit "out/app.apk") props w).2 in
  exists w2,
    _validate_inputs sample_wrapper (lit "app.aab") (lit "out/app.apk") props w1
    = (Ok tt, w2) /\ fs w2 = fs w1.
Proof.
  intros w props w1.
  apply (validate_inputs_idempotent _ _ _ _ w). vm_compute; reflexivity.
Defined.

(** X8: the validation succeeds whenever the three files exist, the
    directory the output path starts from exists, and no regular file
    stands where a directory of the output path has to be: the missing
    directories are then made. *)
Theorem validate_inputs_succeeds self aab out props ks w :
  exists_ (fs w) (locate (cwd w) (Path aab)) = true ->
  exists_ (fs w) (locate (cwd w) (bundletool_path self)) = true ->
  props !! keystore_key = Some ks ->
  exists_ (fs w) (locate (cwd w) (Path ks)) = true ->
  is_dir (fs w) (match anchor (Path out) with [] => cwd w | _ => [] end) = true ->
  (forall q, q `prefix_of` locate (cwd w) (parent (Path out)) ->
     is_file (fs w) q = false) ->
  exists w1, _validate_inputs self aab out props w = (Ok tt, w1).
Proof.
  intros E1 E2 Ep E3 Hb Hnf. rewrite validate_inputs_eq.
  unfold keystore_key in Ep. rewrite E1, E2, Ep, E3. cbn [negb].
  destruct (mkdir_parents_succeeds
              (match anchor (Path out) with [] => cwd w | _ => [] end)
              (rev (removelast (parts (Path out)))) (fs w) Hb) as [f1 ->].
  - by rewrite rev_involutive.
  - eauto.
Qed.

Lemma validate_inputs_succeeds_witness :
  exists w1,
    _validate_inputs sample_wrapper (lit "app.aab") (lit "a/b/c/app.apk")
      {[ keystore_key := lit "/work/release.jks" ]}
      (sample_world true good_properties good_tool) = (Ok tt, w1).
Proof.
  apply (validate_inputs_succeeds _ _ _ _ (lit "/work/release.jks"));
    try (vm_compute; reflexivity).
  intros q Hq.
  assert (Forall (fun q => is_file (fs (sample_world true good_properties good_tool)) q = false)
            (prefixes_of [lit "work"; lit "a"; lit "b"; lit "c"])) as HF.
  { apply (bool_decide_unpack _). vm_compute. exact I. }
  rewrite Forall_forall in HF. apply HF. by apply prefixes_of_spec.
Defined.

(** ** More about the two files the conversion writes *)

Lemma open_write_succeeds f p :
  p <> [] -> is_dir f (removelast p) = true -> is_dir f p = false ->
  open_write f p = Ok (put f p (Some (File []))).
Proof.
  unfold open_write, holder_check, is_dir. intros _ Hh Hp.
  destruct (stat f (removelast p)) as [[|es]|]; try done.
  by destruct (stat f p) as [[|es']|].
Qed.

Lemma open_write_fails f p :
  is_dir f (removelast p) = false \/ is_dir f p = true ->
  exists e, open_write f p = Raise e.
Proof.
  unfold open_write, holder_check, is_dir. intros H.
  destruct (stat f p) as [[|es']|]; [| |].
  2:{ eauto. }
  all: destruct H as [H|H]; [|done];
    destruct (stat f (removelast p)) as [[|es]|]; try done; cbn [rbind]; eauto.
Qed.

Lemma is_dir_put_outside f p n (q : path) :
  ~ p `prefix_of` q -> is_dir (put f p n) q = is_dir f q.
Proof. intros H. by rewrite !is_dir_kind, kind_put_outside. Qed.

Lemma device_spec_round_trip :
  rbind (encode device_spec_content) utf8_decode = Ok device_spec_content.
Proof. vm_compute. reflexivity. Qed.

(** X9: [_create_device_spec] succeeds exactly when the directory it
    is given is a directory and no directory stands at
    [device_spec.json] inside it.  It then returns the path of that file,
    the file reads back as the JSON text of the source, nothing outside
    the file changes, and the write is the one effect.  Otherwise it
    raises and leaves the world as it was. *)
Theorem create_device_spec_spec temp_dir w :
  let file := joinpath (Path temp_dir) (lit "device_spec.json") in
  let p := locate (cwd w) file in
  let '(r, w') := _create_device_spec temp_dir w in
  if is_dir (fs w) (locate (cwd w) (Path temp_dir)) && negb (is_dir (fs w) p)
  then
    r = Ok (path_str file)
    /\ read_text (fs w') p = Ok device_spec_content
    /\ events_since w w' = [EWrite p]
    /\ (forall x, ~ p `prefix_of` x ->
          kind (fs w') x = kind (fs w) x
          /\ forall data, stat (fs w) x = Ok (File data) ->
               stat (fs w') x = Ok (File data))
  else (exists e, r = Raise e) /\ w' = w.
Proof.
  cbv zeta. unfold _create_device_spec, mbind, M_bind, bind, write_text.
  rewrite (locate_joinpath _ _ (lit "device_spec.json") eq_refl).
  change (parts (Path (lit "device_spec.json"))) with [lit "device_spec.json"].
  set (d := locate (cwd w) (Path temp_dir)).
  set (p := d ++ [lit "device_spec.json"]).
  assert (removelast p = d) as Hrl by apply removelast_last.
  assert (p <> []) as Hne by (unfold p; by destruct d).
  destruct (is_dir (fs w) d && negb (is_dir (fs w) p)) eqn:Ec.
  - apply andb_true_iff in Ec as [Hd Hp%negb_true_iff].
    rewrite open_write_succeeds by (by rewrite ?Hrl).
    pose proof device_spec_round_trip as Hrt.
    destruct (encode device_spec_content) as [data|]; [|done].
    cbn [rbind] in Hrt.
    split; [done|]. split; [|split; [by apply events_since_app|]];
      cbn [fs add_log set_fs].
    + unfold read_text. rewrite stat_put_here; [done|done|].
      rewrite Hrl, is_dir_put_outside; [done|]. apply prefix_longer.
    + intros x Hx. split.
      * by rewrite !kind_put_outside.
      * intros data' H. by do 2 (apply stat_put_file; [done|]).
  - destruct (open_write_fails (fs w) p) as [e ->]; [|eauto].
    rewrite Hrl. apply andb_false_iff in Ec as [->| ->%negb_false_iff]; eauto.
Qed.

Lemma stat_plain f p e : stat f p = Raise e -> plain e.
Proof. by intros (msg & [-> | ->])%stat_raises. Qed.

Lemma holder_check_plain f p e : holder_check f p = Raise e -> plain e.
Proof.
  unfold holder_check.
  destruct (stat f (removelast p)) as [[|es]|e'] eqn:E; try done.
  - by intros [= <-].
  - intros [= <-]. eauto using stat_plain.
Qed.

Lemma open_write_plain f p e : open_write f p = Raise e -> plain e.
Proof.
  unfold open_write.
  assert (rbind (holder_check f p)
            (fun _ => Ok (put f p (Some (File [])))) = Raise e -> plain e) as H.
  { destruct (holder_check f p) eqn:E; [done|].
    intros [= <-]. eauto using holder_check_plain. }
  destruct (stat f p) as [[|es]|]; try done. by intros [= <-].
Qed.

(** *** File names as the system reads them *)

Lemma split_from_app sep a : forall cur b,
  split_from sep cur (a ++ sep :: b)
  = split_from sep cur a ++ split_from sep [] b.
Proof.
  induction a as [|c a IH]; intros cur b; cbn [app split_from].
  - by rewrite N.eqb_refl.
  - destruct (c =? sep); [by rewrite IH|apply IH].
Qed.

Lemma split_from_plain sep b : forall cur,
  contains sep b = false -> split_from sep cur b = [rev cur ++ b].
Proof.
  induction b as [|c b IH]; intros cur H; cbn [split_from].
  - by rewrite app_nil_r.
  - cbn [contains existsb] in H. apply orb_false_iff in H as [Hc Hb].
    rewrite (N.eqb_sym c sep), Hc, (IH _ Hb). cbn [rev]. by rewrite <- app_assoc.
Qed.

Lemma startswith_slash_app a b :
  a <> [] -> startswith (lit "/") (a ++ b) = startswith (lit "/") a.
Proof. by destruct a. Qed.

Lemma locate_Path c s :
  locate c (Path s)
  = (if startswith (lit "/") s then [] else c)
    ++ List.filter is_part (split_on 47 s).
Proof.
  unfold locate, Path. cbn [anchor parts].
  destruct (startswith (lit "/") s); [|done].
  by destruct (_ && _).
Qed.

(** [os.path.join(a, b)] for a name [b]: the file [b] in [a]. *)
Lemma join_inside c a b :
  a <> [] -> contains 47 b = false -> is_part b = true ->
  os_path_join a b <> []
  /\ locate c (Path (os_path_join a b)) = locate c (Path a) ++ [b]
  /\ ending_of (os_path_join a b) = Bare.
Proof.
  intros Ha Hb Hp. unfold os_path_join.
  assert (startswith (lit "/") b = false) as ->.
  { destruct b as [|x b]; [done|]. cbn [contains existsb] in Hb.
    apply orb_false_iff in Hb as [Hx _].
    change (startswith (lit "/") (x :: b)) with ((47 =? x) && true).
    by rewrite Hx. }
  assert (forall l, ending_from false (b :: l) = Bare) as Hend.
  { unfold is_part in Hp. apply andb_true_iff in Hp as [H1 H2].
    apply negb_true_iff in H1, H2. intros. cbn [ending_from].
    by rewrite H1, H2. }
  destruct a as [|a0 a']; [done|]. clear Ha. set (a := a0 :: a').
  assert (a <> []) as Ha by done.
  destruct (List.last a 0 =? 47) eqn:El.
  - apply N.eqb_eq in El.
    destruct (exists_last Ha) as (a1 & x & Ea). rewrite Ea in El |- *.
    rewrite last_last in El. subst x. rewrite <- app_assoc. cbn [app].
    split; [by destruct a1|].
    rewrite !locate_Path. unfold ending_of, split_on.
    rewrite !split_from_app, (split_from_plain 47 b []) by done.
    cbn [rev app split_from]. rewrite !List.filter_app.
    cbn [List.filter is_part bool_decide decide_rel]. rewrite Hp.
    split; [|by rewrite rev_unit].
    replace (startswith (lit "/") (a1 ++ 47 :: b))
      with (startswith (lit "/") (a1 ++ [47])) by by destruct a1.
    rewrite app_nil_r. by rewrite app_assoc.
  - split; [done|]. change (lit "/" ++ b) with (47 :: b).
    rewrite !locate_Path. unfold ending_of, split_on.
    rewrite !split_from_app, (split_from_plain 47 b []) by done.
    cbn [rev app]. rewrite List.filter_app. cbn [List.filter]. rewrite Hp.
    split; [|by rewrite rev_unit].
    rewrite (startswith_slash_app a (47 :: b)) by done.
    by rewrite app_assoc.
Qed.

Lemma os_path_isdir_spec f c s :
  os_path_isdir f c s
  = negb (bool_decide (s = [])) && is_dir f (locate c (Path s)).
Proof.
  unfold os_path_isdir, os_stat, is_dir. destruct s as [|x s]; [done|].
  cbn [bool_decide decide_rel negb andb].
  destruct (ending_of (x :: s)); by destruct (stat f _) as [[|es]|].
Qed.

Lemma os_path_exists_bare f c s :
  s <> [] -> ending_of s = Bare ->
  os_path_exists f c s = exists_ f (locate c (Path s)).
Proof.
  intros Hs He. unfold os_path_exists, os_stat, exists_. rewrite He.
  destruct s; [done|]. by destruct (stat f _) as [[|es]|].
Qed.

Lemma os_open_write_ok f c s f' :
  os_open_write f c s = Ok f' ->
  s <> [] /\ ending_of s = Bare /\ open_write f (locate c (Path s)) = Ok f'.
Proof.
  unfold os_open_write. destruct s as [|x s]; [done|].
  destruct (ending_of (x :: s)); [done| |].
  - destruct (stat f _); [done|]. by destruct (holder_check f _).
  - by destruct (stat f _) as [[|es]|].
Qed.

Lemma os_open_write_plain f c s e : os_open_write f c s = Raise e -> plain e.
Proof.
  unfold os_open_write. destruct s as [|x s]; [by intros [= <-]|].
  destruct (ending_of (x :: s)).
  - apply open_write_plain.
  - destruct (stat f _); [by intros [= <-]|].
    destruct (holder_check f _) eqn:E; cbn [rbind]; [by intros [= <-]|].
    intros [= <-]. eauto using holder_check_plain.
  - destruct (stat f _) as [[|es]|e'] eqn:E; try by intros [= <-].
    intros [= <-]. eauto using stat_plain.
Qed.

(** [shutil.copyfile]: it fails and leaves the world as it was, or the
    source is a regular file, the destination is a bare name, for
    another place, whose holder is there, and the destination holds the
    bytes of the source. *)
Lemma shutil_copyfile_cases src dst w :
  let s := locate (cwd w) src in
  let d := locate (cwd w) (Path dst) in
  (exists e, shutil_copyfile src dst w = (Raise e, w) /\ plain e)
  \/ exists data,
       stat (fs w) s = Ok (File data)
       /\ s <> d /\ dst <> [] /\ ending_of dst = Bare
       /\ is_dir (fs w) d = false /\ d <> []
       /\ is_dir (fs w) (removelast d) = true
       /\ shutil_copyfile src dst w
          = (Ok tt,
             add_log
               (set_fs w (put (put (fs w) d (Some (File []))) d
                            (Some (File data))))
               (ECopy s d)).
Proof.
  cbv zeta. unfold shutil_copyfile.
  set (s := locate (cwd w) src). set (d := locate (cwd w) (Path dst)).
  destruct (bool_decide (s = d) && exists_ (fs w) s
            && os_path_exists (fs w) (cwd w) dst) eqn:Esame;
    [left; eexists; split; [reflexivity|done]|].
  destruct (stat (fs w) s) as [[data|es]|e] eqn:Es.
  - destruct (os_open_write (fs w) (cwd w) dst) as [f1|e] eqn:Eow.
    + right. exists data.
      apply os_open_write_ok in Eow as (Hne & Hend & Eow). fold d in Eow.
      pose proof Eow as Hnd.
      apply open_write_ok in Eow as (Hd & Hhold & ->).
      split; [done|]. split; [|split; [done|split; [done|split;
        [|split; [done|split; [done|reflexivity]]]]]].
      * intros E. rewrite (os_path_exists_bare _ _ _ Hne Hend) in Esame.
        fold d in Esame. rewrite <- E in Esame. unfold exists_ in Esame.
        rewrite Es, bool_decide_eq_true_2 in Esame by done. done.
      * unfold open_write, is_dir in *. by destruct (stat (fs w) d) as [[|]|].
    + left. destruct (is_IsADirectoryError e && _);
        eexists; (split; [reflexivity|]); [done|].
      eauto using os_open_write_plain.
  - left. eexists. split; [reflexivity|done].
  - left. eexists. split; [reflexivity|]. eauto using stat_plain.
Qed.

(** The third step, case by case: it fails and leaves the world as it
    was; or it copies the artefact to the destination, and then succeeds
    or fails according to whether the metadata can be set there. *)
Lemma copy_step_cases name out w :
  let src := locate (cwd w) (Path name) ++ [lit "universal.apk"] in
  let o := locate (cwd w) (Path out) in
  let dst := if is_dir (fs w) o then o ++ [lit "universal.apk"] else o in
  (exists e,
     copy_step name out w = (Raise e, w) /\ plain e
     /\ (exists_ (fs w) src = false ->
         e = RuntimeError (lit "Universal APK not found after extraction")))
  \/ exists data,
       stat (fs w) src = Ok (File data)
       /\ src <> dst /\ out <> []
       /\ (is_dir (fs w) o = false -> ending_of out = Bare)
       /\ is_dir (fs w) dst = false /\ dst <> []
       /\ is_dir (fs w) (removelast dst) = true
       /\ copy_step name out w
          = let w1 :=
              add_log
                (set_fs w (put (put (fs w) dst (Some (File []))) dst
                             (Some (File data))))
                (ECopy src dst) in
            if copystat_refused w dst
            then (Raise (PermissionError (lit "Operation not permitted")), w1)
            else (Ok tt,
                  add_log w1
                    (EPrint (check_mark ++ lit " APK saved to: " ++ out))).
Proof.
  cbv zeta. unfold copy_step, mbind, M_bind, bind, path_exists.
  rewrite (locate_joinpath _ _ (lit "universal.apk") eq_refl).
  change (parts (Path (lit "universal.apk"))) with [lit "universal.apk"].
  set (d := locate (cwd w) (Path name)).
  set (o := locate (cwd w) (Path out)).
  destruct (exists_ (fs w) (d ++ [lit "universal.apk"])) eqn:Eex.
  2:{ left. eexists. split; [reflexivity|]. by split. }
  unfold shutil_copy2, mbind, M_bind, bind.
  assert (basename_of (joinpath (Path name) (lit "universal.apk"))
          = lit "universal.apk") as ->.
  { unfold basename_of.
    rewrite (parts_joinpath _ (lit "universal.apk") eq_refl).
    change (parts (Path (lit "universal.apk"))) with [lit "universal.apk"].
    destruct (anchor _); [|apply last_last].
    destruct (parts (Path name) ++ [lit "universal.apk"]) eqn:E;
      [by destruct (parts (Path name))|].
    rewrite <- E. apply last_last. }
  rewrite os_path_isdir_spec. fold o.
  set (dst' := if negb (bool_decide (out = [])) && is_dir (fs w) o
               then os_path_join out (lit "universal.apk") else out).
  pose proof (shutil_copyfile_cases
                (joinpath (Path name) (lit "universal.apk")) dst' w) as H.
  cbv zeta in H.
  rewrite (locate_joinpath _ _ (lit "universal.apk") eq_refl) in H.
  change (parts (Path (lit "universal.apk"))) with [lit "universal.apk"] in H.
  fold d in H.
  destruct H as [(e & -> & He)|(data & Hs & Hsd & Hne & Hend & Hnd & Hd
                                  & Hhold & ->)].
  { left. exists e. split; [done|]. split; [done|]. intros; congruence. }
  right. exists data.
  assert (out <> []
          /\ locate (cwd w) (Path dst')
             = (if is_dir (fs w) o then o ++ [lit "universal.apk"] else o)
          /\ (is_dir (fs w) o = false -> ending_of out = Bare))
    as (Hout & Hloc & Hbare).
  { unfold dst' in *. destruct (decide (out = [])) as [->|Hout].
    - done.
    - rewrite bool_decide_eq_false_2 in Hne, Hend |- * by done.
      cbn [negb andb] in *. split; [done|].
      destruct (is_dir (fs w) o) eqn:Eo; [|by split].
      split; [|done]. by apply (join_inside (cwd w) out (lit "universal.apk")). }
  rewrite Hloc in *.
  repeat (split; [done|]).
  cbn [copystat_refused cwd add_log set_fs shutil_copystat].
  unfold shutil_copystat. cbn [copystat_refused cwd add_log set_fs].
  rewrite Hloc. destruct (copystat_refused w _); [done|].
  unfold print, emit. reflexivity.
Qed.

(** X10: the third step.  Without [universal.apk] in the temporary
    directory it raises the [RuntimeError] of the source.  When it
    succeeds, the output name was not empty and, unless it named a
    directory, ended neither in a slash nor in a ["."] component; the
    artefact was a regular file; the destination (the output path, or
    [universal.apk] inside it when the output path is a directory) is a
    regular file with the same bytes; every other regular file, the
    artefact included, is as it was; and the copy and the message are the
    two effects.  When it fails, either the world is as it was, or the
    copy has been made and the times and the mode could not be set on
    it: then the error is the [PermissionError] of that, the destination
    holds the bytes of the artefact, every other regular file is as it
    was, and the copy is the one effect. *)
Theorem copy_step_spec temp_dir out w :
  let src := locate (cwd w) (joinpath (Path temp_dir) (lit "universal.apk")) in
  let o := locate (cwd w) (Path out) in
  let dst := if is_dir (fs w) o then o ++ [lit "universal.apk"] else o in
  let '(r, w') := copy_step temp_dir out w in
  (exists_ (fs w) src = false ->
     r = Raise (RuntimeError (lit "Universal APK not found after extraction")))
  /\ (r = Ok tt ->
        out <> []
        /\ (is_dir (fs w) o = false -> ending_of out = Bare)
        /\ copystat_refused w dst = false
        /\ exists data,
             stat (fs w) src = Ok (File data)
             /\ stat (fs w') dst = Ok (File data)
             /\ stat (fs w') src = Ok (File data)
             /\ (forall x data', ~ dst `prefix_of` x ->
                   stat (fs w) x = Ok (File data') ->
                   stat (fs w') x = Ok (File data'))
             /\ events_since w w'
                = [ECopy src dst;
                   EPrint (check_mark ++ lit " APK saved to: " ++ out)])
  /\ (forall e, r = Raise e ->
        w' = w
        \/ (e = PermissionError (lit "Operation not permitted")
            /\ copystat_refused w dst = true
            /\ exists data,
                 stat (fs w) src = Ok (File data)
                 /\ stat (fs w') dst = Ok (File data)
                 /\ stat (fs w') src = Ok (File data)
                 /\ (forall x data', ~ dst `prefix_of` x ->
                       stat (fs w) x = Ok (File data') ->
                       stat (fs w') x = Ok (File data'))
                 /\ events_since w w' = [ECopy src dst])).
Proof.
  cbv zeta. rewrite (locate_joinpath _ _ (lit "universal.apk") eq_refl).
  change (parts (Path (lit "universal.apk"))) with [lit "universal.apk"].
  pose proof (copy_step_cases temp_dir out w) as H. cbv zeta in H.
  set (d := locate (cwd w) (Path temp_dir)) in *.
  set (o := locate (cwd w) (Path out)) in *.
  set (dst := if is_dir (fs w) o then o ++ [lit "universal.apk"] else o) in *.
  destruct H as [(e & -> & _ & He)|(data & Hs & Hsd & Hout & Hbare & Hnd
                                     & Hne & Hhold & ->)].
  { split; [intros H; by rewrite (He H)|]. split; [done|]. by left. }
  assert (forall x data', ~ dst `prefix_of` x ->
            stat (fs w) x = Ok (File data') ->
            stat (put (put (fs w) dst (Some (File []))) dst (Some (File data))) x
            = Ok (File data')) as Hframe.
  { intros x data' Hx H. by do 2 (apply stat_put_file; [done|]). }
  assert (stat (put (put (fs w) dst (Some (File []))) dst (Some (File data)))
            dst = Ok (File data)) as Hdst.
  { rewrite stat_put_here; [done|done|].
    rewrite is_dir_put_outside; [done|]. by apply removelast_not_below. }
  assert (~ dst `prefix_of` d ++ [lit "universal.apk"]) as Hsrc.
  { intros [k Hk]. destruct k as [|c k].
    - rewrite app_nil_r in Hk. done.
    - assert (exists_ (fs w) (dst ++ c :: k) = true) as Hex
        by (unfold exists_; by rewrite <- Hk, Hs).
      apply stat_below_is_dir in Hex. congruence. }
  destruct (copystat_refused w dst) eqn:Ecs;
    (split; [unfold exists_; by rewrite Hs|]).
  - split; [done|]. intros e [= <-]. right. split; [done|]. split; [done|].
    exists data. cbn [fs add_log set_fs].
    split; [done|]. split; [done|]. split; [by apply Hframe|].
    split; [exact Hframe|]. by apply events_since_app.
  - split; [|done]. intros _. split; [done|]. split; [done|]. split; [done|].
    exists data. cbn [fs add_log set_fs].
    split; [done|]. split; [done|]. split; [by apply Hframe|].
    split; [exact Hframe|].
    apply events_since_app. cbn [log add_log set_fs]. by rewrite <- app_assoc.
Qed.

(** ** The two runs of bundletool *)

Lemma run_step_eq cmd ok failed w :
  run_step cmd ok failed w
  = if existsb (contains 0) cmd
    then (Raise (ValueError (lit "embedded null byte")), w)
    else
      let o := (processes w cmd (fs w)).1 in
      let w2 := add_log (set_fs w (processes w cmd (fs w)).2) (ESpawn cmd o) in
      match spawn_error cmd o with
      | None => (Ok tt, add_log w2 (EPrint (check_mark ++ ok)))
      | Some (CalledProcessError _ _ out err as e) =>
          (Raise e,
           add_log (add_log (add_log w2 (EPrint (failed ++ exn_str e)))
                      (EPrint (lit "Command output: " ++ out)))
             (EPrint (lit "Command error: " ++ err)))
      | Some e => (Raise e, w2)
      end.
Proof.
  unfold run_step, try_catch, mbind, M_bind, bind, subprocess_run, print, emit.
  destruct (existsb (contains 0) cmd); [done|].
  destruct (processes w cmd (fs w)) as [o f']. cbn [fst snd].
  destruct o as [rc out err| |]; cbn [spawn_error]; [|done..].
  destruct (captured true out err) as [[out' err']|e].
  - by destruct (rc =? 0)%Z.
  - by destruct e.
Qed.

Lemma run_step_cases cmd ok failed w :
  let o := (processes w cmd (fs w)).1 in
  let '(r, w') := run_step cmd ok failed w in
  (w' = w /\ r = Raise (ValueError (lit "embedded null byte")))
  \/ (r = match spawn_error cmd o with None => Ok tt | Some e => Raise e end
      /\ exists evs,
           log w' = log w ++ ESpawn cmd o :: evs /\ Forall no_spawn evs).
Proof.
  cbv zeta. rewrite run_step_eq.
  destruct (existsb (contains 0) cmd); [by left|]. cbv zeta.
  destruct (spawn_error cmd _) as [e|]; [|right].
  - destruct e; right;
      try (split; [done|]; exists []; split; [done|constructor]).
    split; [done|]. eexists [_; _; _]. cbn [log add_log set_fs].
    rewrite <- !app_assoc. split; [done|]. by repeat constructor.
  - split; [done|]. eexists [_]. cbn [log add_log set_fs].
    rewrite <- app_assoc. split; [done|]. by repeat constructor.
Qed.

Lemma create_device_spec_steps P name :
  (forall loc, P (EWrite loc)) -> respects (steps P) (_create_device_spec name).
Proof.
  intros HP. unfold _create_device_spec. apply respects_bind; [apply _| |].
  - by apply steps_write_text.
  - intros. apply respects_ret. apply _.
Qed.

Lemma create_device_spec_value name w s :
  (_create_device_spec name w).1 = Ok s ->
  s = path_str (joinpath (Path name) (lit "device_spec.json")).
Proof.
  unfold _create_device_spec, mbind, M_bind, bind.
  destruct (write_text _ _ w) as [[[]|e] w1]; cbn; congruence.
Qed.

Lemma copy_step_steps P name out :
  (forall s d, P (ECopy s d)) -> (forall t, P (EPrint t)) ->
  respects (steps P) (copy_step name out).
Proof.
  intros Hc Hp w.
  destruct (copy_step_cases name out w)
    as [(e & -> & _)|(data & _ & _ & _ & _ & _ & _ & _ & ->)];
    [reflexivity|].
  cbv zeta. destruct (copystat_refused w _); cbn [snd].
  - by apply steps_set_fs_log.
  - etransitivity; [by apply steps_set_fs_log|by apply steps_add_log].
Qed.

Lemma convert_in_protocol self aab out props name w :
  let '(r, w') := convert_in self aab out props name w in
  exists evs, log w' = log w ++ evs /\ protocol self aab props name r (spawns evs).
Proof.
  unfold convert_in, mbind, M_bind, bind. unfold print at 1, emit, getitem.
  set (w1 := add_log w _).
  destruct (props !! lit "release.keystore") as [ks|] eqn:E1;
    [|exists [EPrint (lit "Step 1: Generating universal APK set...")];
      split; [done|]; by eexists].
  destruct (props !! lit "keystore.password") as [kp|] eqn:E2;
    [|exists [EPrint (lit "Step 1: Generating universal APK set...")];
      split; [done|]; by eexists].
  destruct (props !! lit "key.alias") as [al|] eqn:E3;
    [|exists [EPrint (lit "Step 1: Generating universal APK set...")];
      split; [done|]; by eexists].
  destruct (props !! lit "key.password") as [kyp|] eqn:E4;
    [|exists [EPrint (lit "Step 1: Generating universal APK set...")];
      split; [done|]; by eexists].
  unfold ret.
  set (apks := joinpath (Path name) (lit "temp.apks")).
  set (cmd1 := build_cmd self aab apks ks kp al kyp).
  assert (exists ks ks_pass alias key_pass,
            props !! lit "release.keystore" = Some ks
            /\ props !! lit "keystore.password" = Some ks_pass
            /\ props !! lit "key.alias" = Some alias
            /\ props !! lit "key.password" = Some key_pass
            /\ cmd1 = build_cmd self aab apks ks ks_pass alias key_pass) as Hb
    by (by exists ks, kp, al, kyp).
  pose proof (run_step_cases cmd1
                (lit " Universal APK set generated successfully")
                (lit "Error generating APK set: ") w1) as H1.
  cbv zeta in H1. destruct (run_step cmd1 _ _ w1) as [r2 w2].
  destruct H1 as [[-> ->]|(-> & evs2 & L2 & Q2)].
  { exists [EPrint (lit "Step 1: Generating universal APK set...")].
    split; [done|]. by eexists. }
  set (o1 := (processes w1 cmd1 (fs w1)).1) in *.
  destruct (spawn_error cmd1 o1) as [e1|] eqn:S1.
  { exists (EPrint (lit "Step 1: Generating universal APK set...")
            :: ESpawn cmd1 o1 :: evs2).
    split; [rewrite L2; cbn [log w1 add_log]; by rewrite <- app_assoc|].
    change (spawns (?a :: ESpawn cmd1 o1 :: evs2))
      with ((cmd1, o1) :: spawns evs2).
    rewrite (spawns_quiet _ Q2). split; [done|].
    exists e1. split; [done|]. rewrite S1. by intros ? [= <-]. }
  unfold print at 1, emit. set (w3 := add_log w2 _).
  pose proof (create_device_spec_steps no_spawn name ltac:(done) w3) as H4.
  pose proof (create_device_spec_value name w3) as V4.
  destruct (_create_device_spec name w3) as [[spec|e4] w4];
    cbn [fst snd] in H4, V4; destruct H4 as (_ & evs4 & L4 & Q4).
  2:{ exists (EPrint (lit "Step 1: Generating universal APK set...")
              :: ESpawn cmd1 o1
              :: evs2 ++ EPrint (lit "Step 2: Extracting universal APK...")
              :: evs4).
      split.
      { rewrite L4. cbn [log w3 add_log]. rewrite L2. cbn [log w1 add_log].
        by rewrite <- !app_assoc. }
      change (spawns (?a :: ESpawn cmd1 o1 :: ?l))
        with ((cmd1, o1) :: spawns l).
      rewrite spawns_app, (spawns_quiet _ Q2).
      change (spawns (EPrint ?t :: evs4)) with (spawns evs4).
      rewrite (spawns_quiet _ Q4). split; [done|].
      exists e4. split; [done|]. by rewrite S1. }
  rewrite (V4 spec eq_refl). clear V4 spec.
  set (cmd2 := extract_cmd self apks name _).
  pose proof (run_step_cases cmd2
                (lit " Universal APK extracted successfully")
                (lit "Error extracting APK: ") w4) as H5.
  cbv zeta in H5. destruct (run_step cmd2 _ _ w4) as [r5 w5].
  destruct H5 as [[-> ->]|(-> & evs5 & L5 & Q5)].
  { exists (EPrint (lit "Step 1: Generating universal APK set...")
            :: ESpawn cmd1 o1
            :: evs2 ++ EPrint (lit "Step 2: Extracting universal APK...")
            :: evs4).
    split.
    { rewrite L4. cbn [log w3 add_log]. rewrite L2. cbn [log w1 add_log].
      by rewrite <- !app_assoc. }
    change (spawns (?a :: ESpawn cmd1 o1 :: ?l))
      with ((cmd1, o1) :: spawns l).
    rewrite spawns_app, (spawns_quiet _ Q2).
    change (spawns (EPrint ?t :: evs4)) with (spawns evs4).
    rewrite (spawns_quiet _ Q4). split; [done|].
    eexists. split; [done|]. by rewrite S1. }
  set (o2 := (processes w4 cmd2 (fs w4)).1) in *.
  assert (forall evs6,
            Forall no_spawn evs6 ->
            spawns (EPrint (lit "Step 1: Generating universal APK set...")
                    :: ESpawn cmd1 o1
                    :: evs2
                       ++ EPrint (lit "Step 2: Extracting universal APK...")
                       :: evs4 ++ ESpawn cmd2 o2 :: evs5 ++ evs6)
            = [(cmd1, o1); (cmd2, o2)]) as Hsp.
  { intros evs6 Q6.
    change (spawns (?a :: ESpawn cmd1 o1 :: ?l))
      with ((cmd1, o1) :: spawns l).
    rewrite spawns_app, (spawns_quiet _ Q2).
    change (spawns (EPrint ?t :: ?l)) with (spawns l).
    rewrite spawns_app, (spawns_quiet _ Q4).
    change (spawns (ESpawn cmd2 o2 :: ?l)) with ((cmd2, o2) :: spawns l).
    by rewrite spawns_app, (spawns_quiet _ Q5), (spawns_quiet _ Q6). }
  destruct (spawn_error cmd2 o2) as [e2|] eqn:S2.
  { eexists. split.
    { rewrite L5, L4. cbn [log w3 add_log]. rewrite L2. cbn [log w1 add_log].
      rewrite <- !app_assoc. cbn [app].
      rewrite <- (app_nil_r evs5) at 1. reflexivity. }
    rewrite Hsp by constructor. split; [done|]. by rewrite S2. }
  pose proof (copy_step_steps no_spawn name out ltac:(done) ltac:(done) w5) as H6.
  destruct (copy_step name out w5) as [r6 w6]. cbn [snd] in H6.
  destruct H6 as (_ & evs6 & L6 & Q6).
  eexists. split.
  { rewrite L6, L5, L4. cbn [log w3 add_log]. rewrite L2. cbn [log w1 add_log].
    rewrite <- !app_assoc. cbn [app]. reflexivity. }
  rewrite Hsp by done. split; [done|]. by rewrite S2.
Qed.

Lemma reader_ignores_log file w e :
  (_read_signing_properties file (add_log w e)).1
  = (_read_signing_properties file w).1.
Proof. rewrite !read_signing_properties_eq. cbn [fs cwd unicodedata add_log].
  by destruct (read_text _ _). Qed.

Lemma convert_protocol_log self aab out sp w :
  let '(r, w') := convert_aab_to_apk self aab out sp w in
  exists evs,
    log w' = log w ++ evs
    /\ ((spawns evs = [] /\ exists e, r = Raise e)
        \/ exists props name,
             (_read_signing_properties sp w).1 = Ok props
             /\ EMkdtemp (locate (cwd w) (Path name)) ∈ evs
             /\ protocol self aab props name r (spawns evs)).
Proof.
  unfold convert_aab_to_apk, mbind, M_bind, bind. unfold print at 1, emit.
  set (e0 := EPrint _). set (w1 := add_log w e0).
  pose proof (reader_ignores_log sp w e0) as Hr.
  pose proof (read_signing_properties_frame sp w1) as Hf. fold w1 in Hr.
  destruct (_read_signing_properties sp w1) as [[props|e] w1'];
    cbn [fst snd] in Hr, Hf; subst w1'.
  2:{ exists [e0]. split; [done|]. left. eauto. }
  pose proof (validate_inputs_steps self aab out props w1) as Hv.
  destruct (_validate_inputs self aab out props w1) as [[[]|e] w2];
    cbn [snd] in Hv; destruct Hv as ((Hc & _) & evsv & Lv & Qv).
  2:{ exists (e0 :: evsv). split.
      - rewrite Lv. cbn [log w1 add_log]. by rewrite <- app_assoc.
      - left. change (spawns (e0 :: evsv)) with (spawns evsv).
        rewrite (spawns_quiet _ Qv). eauto. }
  unfold with_TemporaryDirectory, mkdtemp.
  destruct (mkdtemp_from _ _ _) as [[name f2]|e].
  2:{ exists (e0 :: evsv). split.
      - rewrite Lv. cbn [log w1 add_log]. by rewrite <- app_assoc.
      - left. change (spawns (e0 :: evsv)) with (spawns evsv).
        rewrite (spawns_quiet _ Qv). eauto. }
  set (w3 := add_log (set_fs w2 f2) _).
  pose proof (convert_in_protocol self aab out props name w3) as Hin.
  destruct (convert_in self aab out props name w3) as [r w4].
  destruct Hin as (evs & L4 & Hp). unfold cleanup.
  exists (e0 :: evsv
          ++ EMkdtemp (locate (cwd w2) (Path name))
          :: evs ++ [ERmtree (locate (cwd w4) (Path name))]).
  split.
  { cbn [log add_log set_fs]. rewrite L4. cbn [log w3 add_log set_fs].
    rewrite Lv. cbn [log w1 add_log]. by rewrite <- !app_assoc. }
  right. exists props, name. split; [done|]. split.
  - rewrite Hc. cbn [cwd w1 add_log]. apply elem_of_cons. right.
    apply elem_of_app. right. by left.
  - change (spawns (e0 :: ?l)) with (spawns l).
    rewrite spawns_app, (spawns_quiet _ Qv).
    change (spawns (EMkdtemp ?d :: ?l)) with (spawns l).
    rewrite spawns_app. cbn [spawns omap app]. by rewrite app_nil_r.
Qed.

(** X11: the external programs of one conversion.  A conversion that
    starts no program fails.  Otherwise it has read the properties and
    made its temporary directory, and it starts at most two programs:
    first bundletool's [build-apks], on the AAB, with the keystore, the
    passwords and the alias of the properties file and an archive in the
    temporary directory as output; then, only after that one has exited
    with status 0 and with output that is UTF-8, [extract-apks] on that
    same archive, with the temporary directory as output directory and
    the device specification written there.  What [subprocess.run]
    raises for a program (it could not be started, its output does not
    decode, its status is not 0) is what the conversion raises, so a
    conversion that succeeds has run both to status 0. *)
Theorem conversion_protocol self aab out sp w :
  let '(r, w') := convert_aab_to_apk self aab out sp w in
  let started := spawns (events_since w w') in
  (started = [] /\ exists e, r = Raise e)
  \/ exists props name,
       (_read_signing_properties sp w).1 = Ok props
       /\ EMkdtemp (locate (cwd w) (Path name)) ∈ events_since w w'
       /\ protocol self aab props name r started.
Proof.
  pose proof (convert_protocol_log self aab out sp w) as H.
  destruct (convert_aab_to_apk self aab out sp w) as [r w'].
  destruct H as (evs & L & H). cbv zeta.
  by rewrite (events_since_app _ _ _ L).
Qed.

(** ** The life of the temporary directory *)

#[global] Instance confined_preorder name : PreOrder (confined name).
Proof.
  split.
  - intros w. unfold confined. reflexivity.
  - intros a b c H1 H2. unfold confined in *.
    destruct H1 as [Hf H1]. pose proof Hf as [Hc _]. rewrite Hc in H2.
    etransitivity; [exact (conj Hf H1)|exact H2].
Qed.

Lemma confined_of_steps name {A} (m : M A) :
  (forall d, respects (steps (inside d)) m) -> respects (confined name) m.
Proof. intros H w. apply H. Qed.

Lemma run_step_spawns_and_prints (P : event -> Prop) cmd ok failed :
  (forall t, P (EPrint t)) -> (forall a o, P (ESpawn a o)) ->
  respects (steps P) (run_step cmd ok failed).
Proof.
  intros Hp Hs. unfold run_step.
  repeat (intros;
    first [ match goal with |- PreOrder _ => typeclasses eauto end
          | apply respects_bind | apply respects_try_catch
          | apply respects_raise | by apply steps_print
          | by apply steps_subprocess_run
          | match goal with
            | |- respects _ (match ?x with _ => _ end) => destruct x
            end ]).
Qed.

Lemma create_device_spec_confined name :
  respects (confined name) (_create_device_spec name).
Proof.
  intros w. unfold _create_device_spec, mbind, M_bind, bind, write_text.
  rewrite (locate_joinpath _ _ (lit "device_spec.json") eq_refl).
  change (parts (Path (lit "device_spec.json"))) with [lit "device_spec.json"].
  destruct (open_write (fs w) _) as [f1|]; [|reflexivity].
  destruct (encode device_spec_content); by apply steps_set_fs_log.
Qed.

Lemma copy_step_confined name out :
  respects (confined name) (copy_step name out).
Proof.
  intros w.
  destruct (copy_step_cases name out w)
    as [(e & -> & _)|(data & _ & _ & _ & _ & _ & _ & _ & ->)];
    [reflexivity|].
  cbv zeta. unfold confined. destruct (copystat_refused w _); cbn [snd].
  - by apply steps_set_fs_log.
  - etransitivity; [|by apply steps_add_log]. by apply steps_set_fs_log.
Qed.

Lemma convert_in_confined self aab out props name :
  respects (confined name) (convert_in self aab out props name).
Proof.
  unfold convert_in.
  repeat (intros;
    first [ match goal with |- PreOrder _ => typeclasses eauto end
          | apply copy_step_confined
          | apply create_device_spec_confined
          | apply respects_getitem
          | apply confined_of_steps; intros;
            first [ by apply steps_print
                  | by apply run_step_spawns_and_prints ]
          | apply respects_bind ]).
Qed.

Lemma mkdtemp_from_elem cwd0 names : forall f name f',
  mkdtemp_from f cwd0 names = Ok (name, f') -> name ∈ names.
Proof.
  induction names as [|n names IH]; intros f name f'; cbn [mkdtemp_from];
    [done|].
  destruct (os_mkdir f (locate cwd0 (Path n))) as [f1|e].
  - intros [= <- <-]. by left.
  - destruct e; try done. intros H. right. eauto.
Qed.

(** X12: the temporary directory of a conversion.  Either the
    conversion fails having done nothing but print and make the parent
    of the output, or it makes one temporary directory, under one of the
    names [tempfile] offers, and removes it as its last act, however the
    work in between ends.  In between, the only file it writes is
    [device_spec.json] in that directory and the only file it copies is
    [universal.apk] from that directory; and when the conversion is
    over, nothing is left at the directory's path. *)
Theorem temporary_directory_scoped self aab out sp w :
  let '(r, w') := convert_aab_to_apk self aab out sp w in
  let evs := events_since w w' in
  (Forall before_body evs /\ exists e, r = Raise e)
  \/ exists name pre mid,
       let d := locate (cwd w) (Path name) in
       evs = pre ++ EMkdtemp d :: mid ++ [ERmtree d]
       /\ Forall before_body pre /\ Forall (inside d) mid
       /\ name ∈ tmp_candidates w
       /\ kind (fs w') d = None.
Proof.
  unfold convert_aab_to_apk, mbind, M_bind, bind. unfold print at 1, emit.
  set (e0 := EPrint _). set (w1 := add_log w e0).
  pose proof (read_signing_properties_frame sp w1) as Hf.
  destruct (_read_signing_properties sp w1) as [[props|e] w1'];
    cbn [snd] in Hf; subst w1'.
  2:{ left. rewrite (events_since_app w w1 [e0] eq_refl).
      split; [by repeat constructor|eauto]. }
  pose proof (validate_inputs_spec self aab out props w1) as Hv.
  destruct (_validate_inputs self aab out props w1) as [[[]|e] w2].
  2:{ subst w2. left. rewrite (events_since_app w w1 [e0] eq_refl).
      split; [by repeat constructor|eauto]. }
  destruct Hv as (_ & f1 & -> & _).
  set (e1 := EMkdir _). set (w2 := add_log (set_fs w1 f1) e1).
  unfold with_TemporaryDirectory, mkdtemp.
  destruct (mkdtemp_from (fs w2) (cwd w2) (tmp_candidates w2))
    as [[name f2]|e] eqn:Et.
  2:{ left. rewrite (events_since_app w w2 [e0; e1]).
      - split; [by repeat constructor|eauto].
      - cbn [log w2 w1 add_log set_fs]. by rewrite <- app_assoc. }
  pose proof (mkdtemp_from_elem _ _ _ _ _ Et) as Hel.
  apply mkdtemp_from_ok, os_mkdir_ok in Et as (_ & _ & Hne & _).
  change (cwd w2) with (cwd w) in *.
  change (tmp_candidates w2) with (tmp_candidates w) in *.
  set (d := locate (cwd w) (Path name)) in *.
  set (w3 := add_log (set_fs w2 f2) (EMkdtemp d)).
  pose proof (convert_in_confined self aab out props name w3) as Hin.
  destruct (convert_in self aab out props name w3) as [r w4].
  cbn [snd] in Hin. destruct Hin as ((Hc & _) & mid & L4 & Q4).
  change (cwd w3) with (cwd w) in *. fold d in Q4.
  unfold cleanup. rewrite Hc. fold d.
  right. exists name, [e0; e1], mid. cbv zeta. fold d.
  split; [|split; [by repeat constructor|split; [done|split; [done|]]]].
  - apply events_since_app. cbn [log add_log set_fs]. rewrite L4.
    cbn [log w3 w2 w1 add_log set_fs]. by rewrite <- !app_assoc.
  - cbn [fs add_log set_fs].
    rewrite <- (app_nil_r d) at 2. by apply kind_put_None.
Qed.

(** ** All or nothing *)

Lemma keeps_print name x text : respects (keeps name x) (print text).
Proof.
  intros w. split; [by repeat split|]. exists [EPrint text]. by split.
Qed.

Lemma keeps_subprocess_run name x text argv :
  respects (keeps name x) (subprocess_run text argv).
Proof.
  intros w. unfold subprocess_run.
  destruct (existsb _ _); [reflexivity|].
  assert (tool_keeps w argv x -> is_file (fs w) x = false ->
          is_file (snd (processes w argv (fs w))) x = false) as Ht
    by (intros H; apply H).
  destruct (processes w argv (fs w)) as [o f']. cbn [snd] in Ht.
  assert (keeps name x w (add_log (set_fs w f') (ESpawn argv o))) as H.
  { split; [by repeat split|]. exists [ESpawn argv o]. split; [done|].
    intros Hk _ Hx. apply Ht; [|done]. apply (Hk argv o). by left. }
  destruct o as [rc out err| |]; [|done..].
  destruct (captured text out err) as [[out' err']|]; [|done].
  by destruct (rc =? 0)%Z.
Qed.

Lemma keeps_write_text name x seg content :
  anchor (Path seg) = [] ->
  respects (keeps name x) (write_text (joinpath (Path name) seg) content).
Proof.
  intros Hs w. unfold write_text. rewrite (locate_joinpath _ _ _ Hs).
  set (loc := locate (cwd w) (Path name) ++ parts (Path seg)).
  destruct (open_write (fs w) loc) as [f1|] eqn:E; [|reflexivity].
  apply open_write_ok in E as (_ & _ & ->).
  assert (forall f2,
            (~ locate (cwd w) (Path name) `prefix_of` x ->
             is_file f2 x = is_file (fs w) x) ->
            keeps name x w (add_log (set_fs w f2) (EWrite loc))) as H.
  { intros f2 H2. split; [by repeat split|]. exists [EWrite loc].
    split; [done|]. intros _ Hp Hx. cbn [fs add_log set_fs]. by rewrite H2. }
  destruct (encode content); cbn [snd]; apply H; intros Hp.
  - rewrite !is_file_kind, !kind_put_outside; [done|..];
      by apply not_prefix_below.
  - rewrite !is_file_kind, kind_put_outside; [done|].
    by apply not_prefix_below.
Qed.

#[global] Instance body_step_preorder name x : PreOrder (body_step name x).
Proof.
  split.
  - intros w. split; reflexivity.
  - intros a b c [H1 H2] [H3 H4]. split; etransitivity; eauto.
Qed.

Ltac respects_steps :=
  repeat (intros;
    first
      [ match goal with |- PreOrder _ => typeclasses eauto end
      | apply respects_bind
      | apply respects_try_catch
      | apply respects_ret
      | apply respects_raise
      | apply steps_print; event_ok
      | apply steps_subprocess_run; event_ok
      | apply steps_write_text; event_ok
      | apply keeps_print
      | apply keeps_subprocess_run
      | apply keeps_write_text; reflexivity
      | match goal with
        | |- respects _ (match ?x with _ => _ end) => destruct x
        end ]).

Lemma run_step_body name x cmd ok failed :
  respects (body_step name x) (run_step cmd ok failed).
Proof.
  apply respects_and; [by apply run_step_steps|].
  unfold run_step. respects_steps.
Qed.

Lemma create_device_spec_body name x :
  respects (body_step name x) (_create_device_spec name).
Proof.
  apply respects_and; unfold _create_device_spec; respects_steps.
Qed.

Lemma print_body name x text : respects (body_step name x) (print text).
Proof. apply respects_and; respects_steps. Qed.

Lemma body_post_raise out name x w0 w1 e :
  body_step name x w0 w1 -> body_post out name x w0 (Raise e) w1.
Proof.
  intros [(Hf & evs & E & Hq) (_ & evs' & E' & Hk)]. split; [done|].
  assert (evs' = evs) as -> by (rewrite E in E'; by apply app_inv_head in E').
  exists evs. split; [done|]. split.
  - eapply Forall_impl; [exact Hq|]. by intros [].
  - left. split; [|split; [by exists e|done]].
    eapply Forall_impl; [exact Hq|]. by intros [].
Qed.

(** The copy: once it is made the output is in place, and the output
    is not the temporary directory itself. *)
Lemma copy_step_ends out name x w0 w1 :
  body_step name x w0 w1 ->
  ends (copy_step name out) w1 (body_post out name x w0).
Proof.
  intros HR. pose proof HR as [(Hf & evs & E & Hq) _].
  pose proof Hf as (Ec & _ & _ & _ & _ & Ecs). unfold ends.
  destruct (copy_step_cases name out w1)
    as [(e & -> & _)|(data & Hs & Hsd & _ & _ & Hnd & Hne & Hhold & ->)];
    [by apply body_post_raise|].
  cbv zeta. rewrite Ec, Ecs in *.
  set (d := locate (cwd w0) (Path name)) in *.
  set (o := locate (cwd w0) (Path out)) in *.
  set (dst := if is_dir (fs w1) o then o ++ [lit "universal.apk"] else o) in *.
  set (f' := put (put (fs w1) dst (Some (File []))) dst (Some (File data))).
  assert (is_dir (fs w1) d = true) as Hd.
  { apply (stat_below_is_dir _ _ (lit "universal.apk") []).
    unfold exists_. by rewrite Hs. }
  assert (o <> d) as Hod.
  { intros Eo. apply Hsd. unfold dst. by rewrite Eo, Hd. }
  assert (dst <> d) as Hdd by (intros Eo; rewrite Eo in Hnd; congruence).
  assert (stat f' dst = Ok (File data)) as Hdst.
  { unfold f'. rewrite stat_put_here; [done|done|].
    rewrite is_dir_put_outside; [done|]. by apply removelast_not_below. }
  assert (is_dir f' o = is_dir (fs w1) o) as Ho.
  { unfold dst in *. destruct (is_dir (fs w1) o) eqn:Eo.
    - rewrite <- Eo. unfold f'.
      rewrite !is_dir_kind, !kind_put_outside by apply prefix_longer. done.
    - unfold is_dir. by rewrite Hdst. }
  assert (is_dir f' d = true) as Hd'.
  { rewrite <- Hd. unfold f'. rewrite !is_dir_kind.
    assert (~ dst `prefix_of` d) as Hp.
    { intros [k Hk]. destruct k as [|c k]; [by rewrite app_nil_r in Hk|].
      rewrite Hk in Hd. unfold is_dir in Hd.
      assert (exists_ (fs w1) (dst ++ c :: k) = true) as Hex
        by (unfold exists_; by destruct (stat (fs w1) (dst ++ c :: k))).
      apply stat_below_is_dir in Hex. congruence. }
    by rewrite !kind_put_outside. }
  assert (forall tail r',
            (match r' with
             | Ok _ => True
             | Raise e =>
                 copystat_refused w0 dst = true
                 /\ e = PermissionError (lit "Operation not permitted")
             end) ->
            Forall body_event tail ->
            body_post out name x w0 r'
              (foldl add_log
                 (add_log (set_fs w1 f')
                    (ECopy (d ++ [lit "universal.apk"]) dst)) tail)) as Hpost.
  { intros tail r' Hr Ht.
    assert (forall l w, fs (foldl add_log w l) = fs w
                        /\ same_frame w (foldl add_log w l)) as Hfold.
    { induction l as [|e l IH]; intros w; cbn [foldl]; [by repeat split|].
      destruct (IH (add_log w e)) as [-> H]. split; [done|].
      eapply same_frame_trans; [|exact H]. by repeat split. }
    split.
    { eapply same_frame_trans; [exact Hf|].
      eapply same_frame_trans; [|apply Hfold]. by repeat split. }
    exists (evs ++ ECopy (d ++ [lit "universal.apk"]) dst :: tail).
    rewrite log_foldl. cbn [log add_log set_fs]. rewrite E.
    split; [by rewrite <- !app_assoc|]. split.
    { apply Forall_app. split; [|by constructor].
      eapply Forall_impl; [exact Hq|]. by intros []. }
    right. exists (d ++ [lit "universal.apk"]), dst.
    rewrite (proj1 (Hfold _ _)). cbn [fs add_log set_fs]. fold f' o d.
    split; [apply elem_of_app; right; by left|].
    split; [by rewrite Ho|]. split; [unfold is_file; by rewrite Hdst|].
    done. }
  destruct (copystat_refused w0 dst) eqn:Er; cbn [fst snd].
  - by apply (Hpost []).
  - apply (Hpost [_]); [done|by repeat constructor].
Qed.

(** The body of the [with] block. *)
Lemma convert_in_ends self aab out props name x w :
  ends (convert_in self aab out props name) w (body_post out name x w).
Proof.
  assert (body_step name x w w) as Hw by reflexivity. revert Hw.
  generalize w at 2 3 as w1. intros w1 Hw. unfold convert_in.
  repeat match goal with
    | H : body_step _ _ ?w0 ?w1 |- ends (_ ≫= _) ?w1 _ =>
        apply (fun Hm Hr Hk =>
                 @ends_bind (body_step name x) (body_step_preorder name x)
                   _ _ _ _ w0 _ Hm Hr Hk w1 H);
        [ first [ apply print_body | apply run_step_body
                | apply create_device_spec_body
                | apply respects_getitem; apply _ ]
        | intros; by apply body_post_raise
        | clear dependent w1; intros ? w1 H ]
    end.
  by apply copy_step_ends.
Qed.

Lemma with_tempdir_cases self aab out props w1 :
  let '(r, w') := with_TemporaryDirectory (convert_in self aab out props) w1 in
  (w' = w1 /\ exists e, r = Raise e)
  \/ exists name f2 w3,
       let d := locate (cwd w1) (Path name) in
       os_mkdir (fs w1) d = Ok f2
       /\ (forall x,
             body_post out name x (add_log (set_fs w1 f2) (EMkdtemp d)) r w3)
       /\ w' = add_log (set_fs w3 (put (fs w3) d None)) (ERmtree d).
Proof.
  unfold with_TemporaryDirectory, mkdtemp.
  destruct (mkdtemp_from _ _ _) as [[name f2]|e] eqn:E; [|left; eauto].
  apply mkdtemp_from_ok in E.
  pose proof (fun x =>
                convert_in_ends self aab out props name x
                  (add_log (set_fs w1 f2)
                     (EMkdtemp (locate (cwd w1) (Path name))))) as H.
  unfold ends in H.
  destruct (convert_in _ _ _ _ _ _) as [r w3]. cbn [fst snd] in H.
  unfold cleanup. right. exists name, f2, w3. split; [done|]. split; [done|].
  destruct (H []) as ((Ec & _) & _). cbn [cwd add_log set_fs] in Ec.
  by rewrite Ec.
Qed.

(** C6: what a run leaves behind.  A temporary directory that the run
    made is gone when the run ends, however it ends.  When the run
    succeeds, it has made a copy and the destination of the copy (the
    output path, or [universal.apk] inside it when the output path is a
    directory) is a regular file.  When the run fails, one of two things
    has happened.  Either no copy was made, and then no regular file
    stands where none stood before, unless one of the programs that were
    started put it there.  Or the copy was made and the times and the
    mode could not be set on it: then the destination is a regular file
    although the run failed, and the error is the [PermissionError] of
    that. *)
Theorem conversion_all_or_nothing self aab out sp w :
  let '(r, w') := convert_aab_to_apk self aab out sp w in
  let o := locate (cwd w) (Path out) in
  let evs := events_since w w' in
  (forall d, EMkdtemp d ∈ evs -> exists_ (fs w') d = false)
  /\ match r with
     | Ok _ =>
         exists src dst,
           ECopy src dst ∈ evs
           /\ dst = (if is_dir (fs w') o then o ++ [lit "universal.apk"]
                     else o)
           /\ is_file (fs w') dst = true
     | Raise e =>
         (Forall (fun e => is_copy e = false) evs
          /\ forall x,
               started_keep w evs x ->
               is_file (fs w) x = false -> is_file (fs w') x = false)
         \/ (exists src dst,
               ECopy src dst ∈ evs
               /\ dst = (if is_dir (fs w') o then o ++ [lit "universal.apk"]
                         else o)
               /\ is_file (fs w') dst = true
               /\ copystat_refused w dst = true
               /\ e = PermissionError (lit "Operation not permitted"))
     end.
Proof.
  unfold convert_aab_to_apk, mbind, M_bind, bind.
  unfold print at 1, emit.
  set (e0 := EPrint _). set (w0 := add_log w e0).
  assert (forall e1s f,
            Forall before_body e1s ->
            (forall x, is_file f x = is_file (fs w) x) ->
            (forall d, EMkdtemp d ∈ e0 :: e1s -> exists_ f d = false)
            /\ Forall (fun e => is_copy e = false) (e0 :: e1s)
            /\ (forall x, started_keep w (e0 :: e1s) x ->
                  is_file (fs w) x = false -> is_file f x = false))
    as Hstop.
  { intros e1s f Hb Hf. split; [|split].
    - intros d [H|H]%elem_of_cons; [done|].
      rewrite Forall_forall in Hb. by destruct (Hb _ H).
    - constructor; [done|]. eapply Forall_impl; [exact Hb|]. by intros [].
    - intros x _ Hx. by rewrite Hf. }
  pose proof (read_signing_properties_frame sp w0) as Hread.
  destruct (_read_signing_properties sp w0) as [[props|e] w0'];
    cbn [snd] in Hread; subst w0'.
  2:{ rewrite (events_since_app w w0 [e0]) by done.
      destruct (Hstop [] (fs w)) as (H1 & H2 & H3); [done..|].
      split; [done|]. by left. }
  pose proof (validate_inputs_spec self aab out props w0) as Hval.
  destruct (_validate_inputs self aab out props w0) as [[[]|e] w1].
  2:{ subst w1. rewrite (events_since_app w w0 [e0]) by done.
      destruct (Hstop [] (fs w)) as (H1 & H2 & H3); [done..|].
      split; [done|]. by left. }
  destruct Hval as (_ & f1 & -> & Hdir & Hfile).
  set (e1 := EMkdir _) in *.
  set (w1 := add_log (set_fs w0 f1) e1).
  pose proof (with_tempdir_cases self aab out props w1) as Htmp.
  destruct (with_TemporaryDirectory _ w1) as [r w'].
  destruct Htmp as [[-> [e ->]]|(name & f2 & w3 & Hmk & Hbody & ->)].
  { rewrite (events_since_app w w1 [e0; e1])
      by (cbn [log w1 w0 add_log set_fs]; by rewrite <- app_assoc).
    destruct (Hstop [e1] f1) as (H1 & H2 & H3);
      [by repeat constructor|done|].
    split; [done|]. by left. }
  clear Hstop.
  cbn [cwd fs w1 w0 add_log set_fs] in Hmk, Hbody, Hdir.
  set (d := locate (cwd w) (Path name)) in *.
  set (o := locate (cwd w) (Path out)) in *.
  pose proof (fun x => os_mkdir_is_file _ _ _ x Hmk) as Hfile2.
  apply os_mkdir_ok in Hmk as (Hfresh & Hhold & Hne & Ef2).
  set (w2 := add_log (set_fs w1 f2) (EMkdtemp d)) in *.
  destruct (Hbody []) as (Hf & evs & Elog & Hev & _).
  cbn [cwd log fs w2 w1 w0 add_log set_fs] in Elog.
  rewrite (events_since_app w _ ([e0; e1; EMkdtemp d] ++ evs ++ [ERmtree d]))
    by (cbn [log add_log set_fs]; rewrite Elog; by rewrite <- !app_assoc).
  cbn [fs add_log set_fs].
  assert (forall q, d `prefix_of` q -> kind (put (fs w3) d None) q = None)
    as Hgone.
  { intros q [k ->]. by apply kind_put_None. }
  split.
  { intros d' H.
    assert (d' = d) as ->.
    { repeat (apply elem_of_cons in H as [H|H]); try done; [congruence|].
      apply elem_of_app in H as [H|H].
      - rewrite Forall_forall in Hev. by destruct (Hev _ H).
      - apply elem_of_cons in H as [H|H]; [done|by apply elem_of_nil in H]. }
    rewrite exists_kind, Hgone by done. done. }
  assert (d <> o -> ~ d `prefix_of` o) as Hout.
  { intros Hdo [[|a rest] E]; [by rewrite app_nil_r in E|].
    apply below_parent in E.
    pose proof (is_dir_prefix _ _ _ Hdir E) as Hd.
    rewrite is_dir_kind, Hfresh in Hd. done. }
  assert (forall src dst,
            ECopy src dst ∈ evs ->
            dst = (if is_dir (fs w3) o then o ++ [lit "universal.apk"] else o) ->
            is_file (fs w3) dst = true -> o <> d -> dst <> d ->
            ECopy src dst ∈ [e0; e1; EMkdtemp d] ++ evs ++ [ERmtree d]
            /\ dst = (if is_dir (put (fs w3) d None) o
                      then o ++ [lit "universal.apk"] else o)
            /\ is_file (put (fs w3) d None) dst = true) as Hcopied.
  { intros src dst Hin Edst Hfl Hod Hdd.
    assert (~ d `prefix_of` o) as Hpo by (apply Hout; congruence).
    assert (~ d `prefix_of` dst) as Hpd.
    { rewrite Edst. destruct (is_dir (fs w3) o); [|done].
      intros [Hp|Hp]%prefix_snoc_inv; [done|].
      apply Hdd. rewrite Edst. by destruct (is_dir (fs w3) o). }
    split; [|split].
    - apply elem_of_app. right. apply elem_of_app. by left.
    - by rewrite (is_dir_kind (put _ _ _)), kind_put_outside, <- is_dir_kind.
    - by rewrite is_file_kind, kind_put_outside, <- is_file_kind. }
  assert (forall x,
            (started_keep w2 evs x -> ~ d `prefix_of` x ->
             is_file (fs w2) x = false -> is_file (fs w3) x = false) ->
            started_keep w ([e0; e1; EMkdtemp d] ++ evs ++ [ERmtree d]) x ->
            is_file (fs w) x = false ->
            is_file (put (fs w3) d None) x = false) as Hkept.
  { intros x Hk Hst Hx. rewrite is_file_kind.
    destruct (decide (d `prefix_of` x)) as [Hp|Hp]; [by rewrite Hgone|].
    rewrite kind_put_outside, <- is_file_kind by done.
    apply Hk; [|done|].
    - intros argv o' Hin. apply (Hst argv o').
      apply elem_of_app. right. apply elem_of_app. by left.
    - cbn [fs w2 add_log set_fs]. by rewrite Hfile2, Hfile. }
  destruct r as [[]|e].
  - destruct (Hbody []) as (_ & evs' & Elog' & _ & Hres).
    cbn [cwd log fs w2 w1 w0 add_log set_fs] in Elog', Hres.
    assert (evs' = evs) as ->
      by (rewrite Elog in Elog'; by apply app_inv_head in Elog').
    destruct Hres as [(_ & [e He] & _)|(src & dst & Hin & Edst & Hfl & _
                                         & Hod & Hdd & _)]; [done|].
    fold o d in Edst, Hod, Hdd. exists src, dst. by apply Hcopied.
  - destruct (Hbody []) as (_ & evs' & Elog' & _ & Hres).
    cbn [cwd log fs w2 w1 w0 add_log set_fs] in Elog', Hres.
    assert (evs' = evs) as ->
      by (rewrite Elog in Elog'; by apply app_inv_head in Elog').
    destruct Hres as [(Hnc & _ & _)|(src & dst & Hin & Edst & Hfl & _
                                      & Hod & Hdd & Hcs & ->)].
    + left. split.
      * repeat (apply Forall_cons; split; [done|]).
        apply Forall_app. split; [done|by repeat constructor].
      * intros x. apply Hkept.
        destruct (Hbody x) as (_ & evs2 & Elog2 & _ & Hres).
        cbn [cwd log fs w2 w1 w0 add_log set_fs] in Elog2, Hres.
        assert (evs2 = evs) as ->
          by (rewrite Elog in Elog2; by apply app_inv_head in Elog2).
        destruct Hres as [(_ & _ & Hk)|(src & dst & Hin & _)]; [exact Hk|].
        rewrite Forall_forall in Hnc. by specialize (Hnc _ Hin).
    + right. fold o d in Edst, Hod, Hdd. exists src, dst.
      destruct (Hcopied src dst) as (H1 & H2 & H3); try done.
Qed.

Lemma spawn_in_spawns argv o evs :
  ESpawn argv o ∈ evs -> (argv, o) ∈ spawns evs.
Proof.
  intros H. unfold spawns. apply list_elem_of_omap.
  by exists (ESpawn argv o).
Qed.

Lemma put_keeps_is_file f p n x :
  ~ p `prefix_of` x -> is_file f x = false -> is_file (put f p n) x = false.
Proof. intros Hp. by rewrite !is_file_kind, kind_put_outside. Qed.

(** With a bundletool that works and an output name that ends in a
    slash, the copy fails; the two programs that ran put nothing at the
    output path, so nothing is there when the run is over. *)
Lemma conversion_all_or_nothing_witness :
  let w := sample_world true good_properties good_tool in
  let w' := (convert_aab_to_apk sample_wrapper (lit "app.aab")
               (lit "out/app.apk/") (lit "signing.properties") w).2 in
  exists_ (fs w') [lit "tmp"; lit "tmpab12cd34"] = false
  /\ is_file (fs w') [lit "work"; lit "out"; lit "app.apk"] = false.
Proof.
  intros w w'.
  pose proof (conversion_all_or_nothing sample_wrapper (lit "app.aab")
                (lit "out/app.apk/") (lit "signing.properties") w) as H.
  assert (match (convert_aab_to_apk sample_wrapper (lit "app.aab")
                   (lit "out/app.apk/") (lit "signing.properties") w).1
          with
          | Raise (FileNotFoundError _) => true
          | _ => false
          end = true) as Er
    by (vm_compute; reflexivity).
  set (apks := Path (lit "/tmp/tmpab12cd34/temp.apks")).
  assert (spawns (events_since w w')
          = [(build_cmd sample_wrapper (lit "app.aab") apks
                (lit "/work/release.jks") (lit "secret") (lit "upload")
                (lit "secret2"), Exited 0 [] []);
             (extract_cmd sample_wrapper apks (lit "/tmp/tmpab12cd34")
                (lit "/tmp/tmpab12cd34/device_spec.json"), Exited 0 [] [])])
    as Hsp by (vm_compute; reflexivity).
  assert (EMkdtemp [lit "tmp"; lit "tmpab12cd34"] ∈ events_since w w') as Hmk.
  { apply (list_elem_of_lookup_2 _ 2). vm_compute; reflexivity. }
  subst w'. destruct (convert_aab_to_apk _ _ _ _ w) as [r w'].
  cbn [fst snd] in *. destruct r as [[]|e]; [discriminate Er|].
  destruct H as [Htmp [[_ Hkeep]|(src & dst & _ & _ & _ & _ & ->)]];
    [|discriminate Er].
  split; [by apply Htmp|].
  apply Hkeep; [|vm_compute; reflexivity].
  intros argv o Hin f Hf. apply spawn_in_spawns in Hin. rewrite Hsp in Hin.
  change (processes w argv f) with (good_tool argv f).
  apply elem_of_cons in Hin as [[= -> _]|Hin];
    [|apply list_elem_of_singleton in Hin; injection Hin as -> _].
  - let r := eval vm_compute in
        (locate [] (Path (path_str apks))) in
    change (is_file
              (put f r (Some (File [80; 75])))
              [lit "work"; lit "out"; lit "app.apk"] = false).
    apply put_keeps_is_file; [|done]. intros [k Hk]. discriminate Hk.
  - let r := eval vm_compute in
        (locate [] (Path (lit "/tmp/tmpab12cd34")) ++ [lit "universal.apk"]) in
    change (is_file
              (put f r (Some (File [65; 80; 75])))
              [lit "work"; lit "out"; lit "app.apk"] = false).
    apply put_keeps_is_file; [|done]. intros [k Hk]. discriminate Hk.
Defined.

(** A run on a file system that does not let the times and the mode be
    set fails, and yet leaves the output where none was. *)
Lemma failed_run_can_leave_output :
  ~ (forall self aab out sp w e,
       (convert_aab_to_apk self aab out sp w).1 = Raise e ->
       is_file (fs w) (locate (cwd w) (Path out)) = false ->
       is_file (fs (convert_aab_to_apk self aab out sp w).2)
         (locate (cwd w) (Path out)) = false).
Proof.
  intros H.
  specialize (H sample_wrapper (lit "app.aab") (lit "out/app.apk")
                (lit "signing.properties") refusing_world
                (PermissionError (lit "Operation not permitted"))).
  assert (true = false) as Hf; [|discriminate Hf].
  rewrite <- H; vm_compute; reflexivity.
Qed.

(** ** A first step that fails *)

Lemma captured_raises out err e :
  captured true out err = Raise e -> is_UnicodeError e = true.
Proof.
  unfold captured, decode_output, rmap, rbind.
  destruct (utf8_decode out) as [o|e1] eqn:E1.
  - destruct (utf8_decode err) as [o2|e2] eqn:E2; [done|].
    intros [= <-]. eauto using utf8_decode_raises.
  - intros [= <-]. eauto using utf8_decode_raises.
Qed.

(** C5: when the first external program of a run (which is bundletool's
    [build-apks]) exits with a non-zero status, no second program is
    started and the run fails.  When what the program wrote on its
    standard output and on its error stream is UTF-8, the run raises
    [CalledProcessError] with that status, the command and the two
    texts; when it is not, the run raises the error of decoding it. *)
Theorem build_failure_stops_pipeline self aab out sp w :
  let '(r, w') := convert_aab_to_apk self aab out sp w in
  forall argv rc out' err' rest,
    spawns (events_since w w') = (argv, Exited rc out' err') :: rest ->
    rc <> 0%Z ->
    rest = []
    /\ nth 3 argv [] = lit "build-apks"
    /\ match captured true out' err' with
       | Ok (text_out, text_err) =>
           r = Raise (CalledProcessError rc argv text_out text_err)
       | Raise e => r = Raise e /\ is_UnicodeError e = true
       end.
Proof.
  pose proof (convert_protocol_log self aab out sp w) as H.
  destruct (convert_aab_to_apk self aab out sp w) as [r w'].
  destruct H as (evs & L & H).
  intros argv rc out' err' rest Hs Hrc.
  rewrite (events_since_app _ _ _ L) in Hs. rewrite Hs in H.
  destruct H as [[? _]|(props & name & _ & _ & Hb & Hrest)]; [done|].
  destruct Hb as (ks & kp & al & kyp & _ & _ & _ & _ & ->).
  assert (spawn_error
            (build_cmd self aab (joinpath (Path name) (lit "temp.apks"))
               ks kp al kyp) (Exited rc out' err')
          = match captured true out' err' with
            | Ok (text_out, text_err) =>
                Some (CalledProcessError rc
                        (build_cmd self aab
                           (joinpath (Path name) (lit "temp.apks"))
                           ks kp al kyp) text_out text_err)
            | Raise e => Some e
            end) as Hse.
  { cbn [spawn_error]. destruct (captured true out' err') as [[]|]; [|done].
    apply Z.eqb_neq in Hrc. by rewrite Hrc. }
  destruct rest as [|[argv2 o2] [|? ?]]; [|exfalso..].
  - split; [done|]. split; [done|]. destruct Hrest as (e & -> & He).
    destruct (captured true out' err') as [[text_out text_err]|e'] eqn:Ec.
    + by rewrite (He _ Hse).
    + rewrite (He _ Hse). split; [done|]. eauto using captured_raises.
  - destruct Hrest as (Hnone & _). rewrite Hse in Hnone.
    by destruct (captured true out' err') as [[]|].
  - done.
Qed.

Lemma build_failure_stops_pipeline_witness :
  (convert_aab_to_apk sample_wrapper (lit "app.aab") (lit "out/app.apk")
     (lit "signing.properties")
     (sample_world true good_properties failing_tool)).1
  = Raise (CalledProcessError 1
             (build_cmd sample_wrapper (lit "app.aab")
                (Path (lit "/tmp/tmpab12cd34/temp.apks"))
                (lit "/work/release.jks") (lit "secret") (lit "upload")
                (lit "secret2"))
             (lit "out") (lit "bad keystore")).
Proof.
  pose proof (build_failure_stops_pipeline sample_wrapper (lit "app.aab")
                (lit "out/app.apk") (lit "signing.properties")
                (sample_world true good_properties failing_tool)) as H.
  destruct (convert_aab_to_apk _ _ _ _ _) as [r w'] eqn:E. cbn [fst].
  apply (H _ 1%Z (lit "out") (lit "bad keystore") []); [|discriminate].
  assert (w' = (convert_aab_to_apk sample_wrapper (lit "app.aab")
                  (lit "out/app.apk") (lit "signing.properties")
                  (sample_world true good_properties failing_tool)).2) as ->
    by (by rewrite E).
  vm_compute; reflexivity.
Defined.

(** A [build-apks] that exits with status 1 after writing a byte that is
    not UTF-8: the run does not end with a [CalledProcessError]. *)
Lemma build_failure_not_always_tool_error :
  ~ (forall self aab out sp w argv rc out' err' rest,
       spawns (events_since w (convert_aab_to_apk self aab out sp w).2)
       = (argv, Exited rc out' err') :: rest ->
       rc <> 0%Z ->
       exists e,
         (convert_aab_to_apk self aab out sp w).1 = Raise e
         /\ is_CalledProcessError e = true).
Proof.
  intros H.
  destruct (H sample_wrapper (lit "app.aab") (lit "out/app.apk")
              (lit "signing.properties")
              (sample_world true good_properties garbling_tool)
              (build_cmd sample_wrapper (lit "app.aab")
                 (Path (lit "/tmp/tmpab12cd34/temp.apks"))
                 (lit "/work/release.jks") (lit "secret") (lit "upload")
                 (lit "secret2"))
              1%Z [255] (lit "bad keystore") []) as (e & E & He).
  - vm_compute; reflexivity.
  - discriminate.
  - vm_compute in E. injection E as <-. discriminate He.
Qed.

(** ** What a conversion can raise *)




























(** ** The whole run *)

Lemma with_TemporaryDirectory_steps (P : event -> Prop) {A}
    (body : str -> M A) :
  (forall d, P (EMkdtemp d)) -> (forall d, P (ERmtree d)) ->
  (forall name, respects (steps P) (body name)) ->
  respects (steps P) (with_TemporaryDirectory body).
Proof.
  intros Hm Hr Hb w. unfold with_TemporaryDirectory, mkdtemp.
  destruct (mkdtemp_from _ _ _) as [[name f2]|e]; [|reflexivity].
  set (w1 := add_log (set_fs w f2) _).
  pose proof (Hb name w1) as H. destruct (body name w1) as [r w2].
  unfold cleanup. cbn [snd] in *.
  etransitivity; [by apply steps_set_fs_log|].
  etransitivity; [exact H|]. by apply steps_set_fs_log.
Qed.

Lemma convert_steps (P : event -> Prop) self aab out sp :
  (forall e, no_stderr e -> P e) ->
  respects (steps P) (convert_aab_to_apk self aab out sp).
Proof.
  intros HP.
  assert (forall t, P (EPrint t)) by (intros; by apply HP).
  assert (forall a o, P (ESpawn a o)) by (intros; by apply HP).
  unfold convert_aab_to_apk, _validate_inputs, convert_in.
  repeat (intros;
    first [ match goal with |- PreOrder _ => typeclasses eauto end
          | apply read_signing_properties_respects
          | apply copy_step_steps; intros; by apply HP
          | apply create_device_spec_steps; intros; by apply HP
          | apply steps_mkdir_parent_of; intros; by apply HP
          | apply with_TemporaryDirectory_steps; intros; try by apply HP
          | by apply run_step_spawns_and_prints
          | by apply steps_print
          | apply respects_getitem | apply respects_path_exists
          | apply respects_raise
          | apply respects_bind
          | match goal with
            | |- respects _ (if ?x then _ else _) => destruct x
            end ]).
Qed.

Lemma find_java_steps (P : event -> Prop) :
  (forall a o, P (ESpawn a o)) -> respects (steps P) _find_java.
Proof. intros H w. rewrite find_java_eq. by apply steps_set_fs_log. Qed.

Lemma main_body_steps args : respects (steps no_stderr) (main_body args).
Proof.
  unfold main_body, __init__.
  repeat (intros;
    first [ match goal with |- PreOrder _ => typeclasses eauto end
          | by apply find_java_steps
          | by apply convert_steps
          | by apply steps_print
          | apply respects_ret
          | apply respects_bind ]).
Qed.

(** X14: what the script prints on the error stream.  Nothing in the
    wrapper prints there.  When the body of [main] raised, [main] prints
    one line there, as the last thing the run does: the failure sign,
    [ Error: ] and a text, which for a [CalledProcessError] is the
    [str(e)] of the source; and the exit status is 1.  When the body
    returned, the script prints nothing there and the exit status is 0.
    What the interpreter writes there of its own accord is not the
    script's and is not counted. *)
Theorem main_error_stream args w :
  let '(rc, w') := main args w in
  let evs := events_since w w' in
  match (main_body args w).1 with
  | Ok _ => rc = 0%Z /\ Forall no_stderr evs
  | Raise e =>
      rc = 1%Z
      /\ exists pre text,
           evs = pre ++ [EPrintErr ([10060] ++ lit " Error: " ++ text)]
           /\ Forall no_stderr pre
           /\ (is_CalledProcessError e = true -> text = exn_str e)
  end.
Proof.
  unfold main. pose proof (main_body_steps args w) as (_ & evs & L & Q).
  destruct (main_body args w) as [[u|e] w1]; cbn [fst snd] in *.
  - by rewrite (events_since_app _ _ _ L).
  - split; [done|]. exists evs, (exn_str e). split; [|done].
    apply events_since_app. cbn [log add_log]. by rewrite L, <- app_assoc.
Qed.

(** X15: the external programs of a whole run.  [main] always starts
    with the probe [java -version].  When the locator fails, that is the
    only program and the exit status is 1.  When the locator answers a
    runtime, the programs that follow are those of the one conversion
    [main] runs, through that runtime and the bundletool JAR of the
    arguments; the exit status is 0 exactly when that conversion
    returned; and either the conversion failed without starting a
    program, or it started its programs as the protocol says, build
    first and extract second. *)
Theorem main_programs args w :
  let '(rc, w') := main args w in
  exists o0 rest,
    spawns (events_since w w') = (java_probe, o0) :: rest
    /\ match _find_java w with
       | (Raise _, _) => rest = [] /\ rc = 1%Z
       | (Ok java, w2) =>
           let self := {| bundletool_path := Path (bundletool_jar args);
                          java_cmd := java |} in
           let '(r, w3) :=
             convert_aab_to_apk self (aab_file args) (output_file args)
               (signing_properties args) w2 in
           rest = spawns (events_since w2 w3)
           /\ (rc = 0%Z <-> r = Ok tt)
           /\ ((rest = [] /\ exists e, r = Raise e)
               \/ exists props name,
                    (_read_signing_properties (signing_properties args) w2).1
                    = Ok props
                    /\ protocol self (aab_file args) props name r rest)
       end.
Proof.
  unfold main, main_body, __init__, mbind, M_bind, bind.
  pose proof (find_java_eq w) as Ej.
  destruct (_find_java w) as [rj w2] eqn:E0. cbn [fst].
  injection Ej as Hrj ->.
  set (o0 := (processes w java_probe (fs w)).1) in *.
  set (w2 := add_log _ (ESpawn java_probe o0)).
  destruct rj as [java|e]; unfold mret, M_ret, ret.
  2:{ exists o0, []. split; [|done].
      rewrite (events_since_app w _ [ESpawn java_probe o0; failure_report e]);
        [done|].
      cbn [log w2 add_log set_fs]. by rewrite <- app_assoc. }
  cbv zeta.
  set (self := {| bundletool_path := Path (bundletool_jar args);
                  java_cmd := java |}).
  pose proof (convert_protocol_log self (aab_file args) (output_file args)
                (signing_properties args) w2) as Hc.
  destruct (convert_aab_to_apk self _ _ _ w2) as [r w3].
  destruct Hc as (evs & L & Hc).
  rewrite (events_since_app _ _ _ L).
  assert (forall tail,
            Forall no_spawn tail ->
            spawns (ESpawn java_probe o0 :: evs ++ tail)
            = (java_probe, o0) :: spawns evs) as Hsp.
  { intros tail Ht.
    change (spawns (ESpawn java_probe o0 :: ?l))
      with ((java_probe, o0) :: spawns l).
    by rewrite spawns_app, (spawns_quiet _ Ht), app_nil_r. }
  assert ((spawns evs = [] /\ exists e, r = Raise e)
          \/ exists props name,
               (_read_signing_properties (signing_properties args) w2).1
               = Ok props
               /\ protocol self (aab_file args) props name r (spawns evs))
    as Hp.
  { destruct Hc as [?|(props & name & ? & _ & ?)]; [by left|].
    right. by exists props, name. }
  destruct r as [[]|e].
  - unfold print, emit. exists o0, (spawns evs). split.
    + rewrite (events_since_app w _ (ESpawn java_probe o0 :: evs ++ [EPrint
        (nl ++ [127881] ++ lit " Successfully converted " ++ aab_file args
         ++ lit " to " ++ output_file args)])).
      * apply Hsp. by repeat constructor.
      * cbn [log add_log]. rewrite L. cbn [log w2 add_log set_fs].
        by rewrite <- !app_assoc.
    + done.
  - exists o0, (spawns evs). split.
    + rewrite (events_since_app w _
                 (ESpawn java_probe o0 :: evs ++ [failure_report e])).
      * apply Hsp. by repeat constructor.
      * cbn [log add_log]. rewrite L. cbn [log w2 add_log set_fs].
        by rewrite <- !app_assoc.
    + done.
Qed.

(** ** The bytes of the output *)

Lemma run_step_returns cmd ok failed w w' :
  run_step cmd ok failed w = (Ok tt, w') ->
  spawn_error cmd (processes w cmd (fs w)).1 = None
  /\ w' = add_log
            (add_log (set_fs w (processes w cmd (fs w)).2)
               (ESpawn cmd (processes w cmd (fs w)).1))
            (EPrint (check_mark ++ ok)).
Proof.
  rewrite run_step_eq. destruct (existsb _ _); [done|]. cbv zeta.
  destruct (spawn_error _ _) as [e|]; [by destruct e|]. by intros [= <-].
Qed.

Lemma copy_step_returns name out w w' :
  copy_step name out w = (Ok tt, w') ->
  let src := locate (cwd w) (Path name) ++ [lit "universal.apk"] in
  let o := locate (cwd w) (Path out) in
  let dst := if is_dir (fs w) o then o ++ [lit "universal.apk"] else o in
  exists data,
    stat (fs w) src = Ok (File data)
    /\ src <> dst /\ is_dir (fs w) dst = false
    /\ dst <> [] /\ is_dir (fs w) (removelast dst) = true
    /\ fs w' = put (put (fs w) dst (Some (File []))) dst (Some (File data))
    /\ log w' = log w ++ [ECopy src dst;
                          EPrint (check_mark ++ lit " APK saved to: " ++ out)]
    /\ cwd w' = cwd w.
Proof.
  cbv zeta.
  destruct (copy_step_cases name out w)
    as [(e & -> & _)|(data & Hs & Hsd & _ & _ & Hnd & Hne & Hhold & ->)];
    [done|].
  cbv zeta. destruct (copystat_refused w _); [done|]. intros [= <-].
  exists data. cbn [fs log cwd add_log set_fs]. rewrite <- app_assoc.
  done.
Qed.

Lemma convert_in_returns self aab out props name w w' :
  convert_in self aab out props name w = (Ok tt, w') ->
  exists cmd f w5 evs4 evs5,
    nth 3 cmd [] = lit "extract-apks"
    /\ same_frame w w5
    /\ fs w5 = (processes w cmd f).2
    /\ log w5 = log w ++ evs4 ++ ESpawn cmd (processes w cmd f).1 :: evs5
    /\ Forall no_spawn evs5
    /\ copy_step name out w5 = (Ok tt, w').
Proof.
  unfold convert_in, mbind, M_bind, bind. unfold print at 1, emit, getitem.
  set (w1 := add_log w _).
  destruct (props !! lit "release.keystore") as [ks|]; [|done].
  destruct (props !! lit "keystore.password") as [kp|]; [|done].
  destruct (props !! lit "key.alias") as [al|]; [|done].
  destruct (props !! lit "key.password") as [kyp|]; [|done].
  unfold ret. set (cmd1 := build_cmd _ _ _ _ _ _ _).
  pose proof (run_step_spawns_and_prints any_event cmd1
                (lit " Universal APK set generated successfully")
                (lit "Error generating APK set: ")
                ltac:(done) ltac:(done) w1) as H2.
  destruct (run_step cmd1 _ _ w1) as [[[]|e] w2]; [|done]. cbn [snd] in H2.
  unfold print at 1, emit. set (w3 := add_log w2 _).
  pose proof (create_device_spec_steps any_event name ltac:(done) w3) as H4.
  destruct (_create_device_spec name w3) as [[spec|e] w4]; [|done].
  cbn [snd] in H4. set (cmd2 := extract_cmd _ _ _ _).
  destruct (run_step cmd2 _ _ w4) as [[[]|e] w5] eqn:R5; [|done].
  apply run_step_returns in R5 as [_ ->]. intros Hcopy.
  assert (steps any_event w w4) as (S4 & evs4 & L4 & _).
  { etransitivity; [by apply (steps_add_log any_event w)|]. fold w1.
    etransitivity; [exact H2|].
    etransitivity; [by apply (steps_add_log any_event w2)|]. exact H4. }
  pose proof S4 as (_ & _ & _ & Hp & _).
  match type of Hcopy with
  | copy_step _ _ (add_log ?w5 ?e) = _ =>
      exists cmd2, (fs w4), (add_log w5 e), evs4, [e]
  end.
  rewrite <- Hp.
  split; [done|]. split; [|split; [done|split; [|split; [|exact Hcopy]]]].
  - eapply same_frame_trans; [exact S4|]. by repeat split.
  - cbn [log add_log set_fs]. by rewrite L4, <- !app_assoc.
  - by repeat constructor.
Qed.

(** X16: the bytes of the output.  When a conversion succeeds, the
    last program it ran was bundletool's [extract-apks]; the regular file
    that this run left as [universal.apk] in the temporary directory is
    what the output holds when the conversion is over, byte for byte: at
    the output path, or as [universal.apk] inside it when the output
    path was a directory by then.  The removal of the temporary
    directory does not take the output with it. *)
Theorem output_holds_the_artefact self aab out sp w :
  let '(r, w') := convert_aab_to_apk self aab out sp w in
  r = Ok tt ->
  exists name cmd f data,
    let d := locate (cwd w) (Path name) in
    let o := locate (cwd w) (Path out) in
    let f' := (processes w cmd f).2 in
    nth 3 cmd [] = lit "extract-apks"
    /\ last (spawns (events_since w w')) = Some (cmd, (processes w cmd f).1)
    /\ stat f' (d ++ [lit "universal.apk"]) = Ok (File data)
    /\ stat (fs w') (if is_dir f' o then o ++ [lit "universal.apk"] else o)
       = Ok (File data).
Proof.
  unfold convert_aab_to_apk, mbind, M_bind, bind. unfold print at 1, emit.
  set (e0 := EPrint _). set (w0 := add_log w e0).
  pose proof (read_signing_properties_frame sp w0) as Hread.
  destruct (_read_signing_properties sp w0) as [[props|e] w0'];
    cbn [snd] in Hread; subst w0'; [|done].
  pose proof (validate_inputs_spec self aab out props w0) as Hval.
  destruct (_validate_inputs self aab out props w0) as [[[]|e] w1]; [|done].
  destruct Hval as (_ & f1 & -> & Hdir & _).
  set (e1 := EMkdir _) in *. set (w1 := add_log (set_fs w0 f1) e1).
  unfold with_TemporaryDirectory, mkdtemp.
  destruct (mkdtemp_from (fs w1) (cwd w1) (tmp_candidates w1))
    as [[name f2]|e] eqn:Et; [|done].
  apply mkdtemp_from_ok, os_mkdir_ok in Et as (Hfresh & _ & Hne & _).
  cbn [cwd fs w1 w0 add_log set_fs] in Hfresh, Hdir, Hne |- *.
  set (d := locate (cwd w) (Path name)) in *.
  set (o := locate (cwd w) (Path out)) in *.
  set (w3 := add_log (set_fs w1 f2) (EMkdtemp d)).
  destruct (convert_in self aab out props name w3) as [r w6] eqn:Ein.
  unfold cleanup. intros ->.
  apply convert_in_returns in Ein
    as (cmd & f & w5 & evs4 & evs5 & Hcmd & S5 & F5 & L5 & Q5 & Hcopy).
  pose proof S5 as (Hc5 & _).
  apply copy_step_returns in Hcopy
    as (data & Hsrc & Hsd & Hnd & Hne' & Hhold & F6 & L6 & Hc6).
  cbn [cwd processes w3 w1 w0 add_log set_fs] in Hc5, F5, L5.
  rewrite Hc5 in Hsrc, Hsd, Hnd, Hne', Hhold, F6, L6, Hc6.
  fold d o in Hsrc, Hsd, Hnd, Hne', Hhold, F6, L6.
  rewrite F5 in Hsrc, Hsd, Hnd, Hne', Hhold, F6, L6.
  set (o2 := (processes w cmd f).1) in *.
  set (f' := (processes w cmd f).2) in *.
  set (dst := if is_dir f' o then o ++ [lit "universal.apk"] else o) in *.
  exists name, cmd, f, data. cbv zeta. fold d o f' dst.
  split; [done|]. split; [|split; [done|]].
  - rewrite (events_since_app w _
               (e0 :: e1 :: EMkdtemp d
                :: evs4 ++ ESpawn cmd o2
                :: evs5 ++ [ECopy (d ++ [lit "universal.apk"]) dst;
                            EPrint (check_mark ++ lit " APK saved to: " ++ out);
                            ERmtree d])).
    + change (spawns (e0 :: e1 :: EMkdtemp d :: ?l)) with (spawns l).
      rewrite spawns_app.
      change (spawns (ESpawn cmd o2 :: ?l)) with ((cmd, o2) :: spawns l).
      rewrite spawns_app, (spawns_quiet _ Q5). cbn [spawns omap app].
      apply last_snoc.
    + cbn [log add_log set_fs]. rewrite Hc6, L6, L5. fold d.
      unfold w3, w1, w0. cbn [log add_log set_fs].
      rewrite <- !app_assoc. done.
  - cbn [fs add_log set_fs]. rewrite Hc6. fold d.
    assert (is_dir f' d = true) as Hd.
    { apply (stat_below_is_dir _ _ (lit "universal.apk") []).
      unfold exists_. by rewrite Hsrc. }
    assert (d `prefix_of` o -> d = o) as Hout.
    { intros [[|a rest] E]; [by rewrite app_nil_r in E|].
      apply below_parent in E.
      pose proof (is_dir_prefix _ _ _ Hdir E) as Hd1.
      rewrite is_dir_kind, Hfresh in Hd1. done. }
    apply stat_put_file.
    + unfold dst in *. destruct (is_dir f' o) eqn:Eo.
      * intros [Hp|Hp]%prefix_snoc_inv.
        -- apply Hsd. by rewrite (Hout Hp).
        -- rewrite <- Hp in Hnd. congruence.
      * intros Hp%Hout. rewrite <- Hp in Hnd. congruence.
    + rewrite F6. apply stat_put_here; [done|].
      rewrite is_dir_put_outside; [done|]. by apply removelast_not_below.
Qed.

Lemma output_holds_the_artefact_witness :
  let w := sample_world true good_properties good_tool in
  let w' := (convert_aab_to_apk sample_wrapper (lit "app.aab")
               (lit "out/app.apk") (lit "signing.properties") w).2 in
  exists name cmd f data,
    let d := locate (cwd w) (Path name) in
    let o := locate (cwd w) (Path (lit "out/app.apk")) in
    let f' := (processes w cmd f).2 in
    nth 3 cmd [] = lit "extract-apks"
    /\ last (spawns (events_since w w')) = Some (cmd, (processes w cmd f).1)
    /\ stat f' (d ++ [lit "universal.apk"]) = Ok (File data)
    /\ stat (fs w') (if is_dir f' o then o ++ [lit "universal.apk"] else o)
       = Ok (File data).
Proof.
  intros w w'.
  pose proof (output_holds_the_artefact sample_wrapper (lit "app.aab")
                (lit "out/app.apk") (lit "signing.properties") w) as H.
  assert (match (convert_aab_to_apk sample_wrapper (lit "app.aab")
                   (lit "out/app.apk") (lit "signing.properties") w).1
          with Ok _ => true | Raise _ => false end = true) as Er
    by (vm_compute; reflexivity).
  subst w'. destruct (convert_aab_to_apk _ _ _ _ w) as [r w'].
  cbn [fst snd] in *. destruct r as [[]|e]; [|discriminate Er].
  exact (H eq_refl).
Defined.

(** ** What a successful conversion does, step by step *)

Lemma create_device_spec_returns name w s w' :
  _create_device_spec name w = (Ok s, w') ->
  s = path_str (joinpath (Path name) (lit "device_spec.json"))
  /\ exists f',
       w' = add_log (set_fs w f')
              (EWrite (locate (cwd w) (Path name) ++ [lit "device_spec.json"])).
Proof.
  unfold _create_device_spec, mbind, M_bind, bind, write_text.
  rewrite (locate_joinpath _ _ (lit "device_spec.json") eq_refl).
  change (parts (Path (lit "device_spec.json"))) with [lit "device_spec.json"].
  destruct (open_write (fs w) _) as [f1|]; [|done].
  destruct (encode device_spec_content); [|done].
  intros [= <- <-]. eauto.
Qed.

Lemma convert_in_trace self aab out props name w w' :
  convert_in self aab out props name w = (Ok tt, w') ->
  let d := locate (cwd w) (Path name) in
  exists cmd1 o1 cmd2 o2 dst,
    protocol self aab props name (Ok tt) [(cmd1, o1); (cmd2, o2)]
    /\ cwd w' = cwd w
    /\ log w'
       = log w
         ++ [EPrint (lit "Step 1: Generating universal APK set...");
             ESpawn cmd1 o1;
             EPrint (check_mark
                     ++ lit " Universal APK set generated successfully");
             EPrint (lit "Step 2: Extracting universal APK...");
             EWrite (d ++ [lit "device_spec.json"]);
             ESpawn cmd2 o2;
             EPrint (check_mark ++ lit " Universal APK extracted successfully");
             ECopy (d ++ [lit "universal.apk"]) dst;
             EPrint (check_mark ++ lit " APK saved to: " ++ out)].
Proof.
  unfold convert_in, mbind, M_bind, bind. unfold print at 1, emit, getitem.
  set (w1 := add_log w _).
  destruct (props !! lit "release.keystore") as [ks|] eqn:E1; [|done].
  destruct (props !! lit "keystore.password") as [kp|] eqn:E2; [|done].
  destruct (props !! lit "key.alias") as [al|] eqn:E3; [|done].
  destruct (props !! lit "key.password") as [kyp|] eqn:E4; [|done].
  unfold ret. set (cmd1 := build_cmd _ _ _ _ _ _ _).
  destruct (run_step cmd1 _ _ w1) as [[[]|e] w2] eqn:R1; [|done].
  apply run_step_returns in R1 as [S1 ->].
  unfold print at 1, emit.
  destruct (_create_device_spec name _) as [[spec|e] w4] eqn:R4; [|done].
  apply create_device_spec_returns in R4 as (-> & f4 & ->).
  set (cmd2 := extract_cmd _ _ _ _).
  destruct (run_step cmd2 _ _ _) as [[[]|e] w5] eqn:R5; [|done].
  apply run_step_returns in R5 as [S2 ->].
  intros Hcopy. cbv zeta.
  apply copy_step_returns in Hcopy as (data & _ & _ & _ & _ & _ & _ & L6 & Hc6).
  cbn [cwd fs log w1 add_log set_fs] in L6, Hc6, S1, S2.
  eexists cmd1, _, cmd2, _, _. split; [|split; [exact Hc6|]].
  - split; [by exists ks, kp, al, kyp|]. split; [exact S1|].
    split; [done|]. by rewrite S2.
  - rewrite L6. unfold w1. cbn [log add_log set_fs].
    rewrite <- !app_assoc. reflexivity.
Qed.

(** X17: a conversion that succeeds has done exactly this, in this
    order: announced itself, made the parent of the output, made the
    temporary directory, announced step 1, run [build-apks], reported it,
    announced step 2, written the device specification, run
    [extract-apks], reported it, copied [universal.apk] to the output,
    reported that, and removed the temporary directory.  The two
    programs are those of the protocol, and both exited with status 0. *)
Theorem success_trace self aab out sp w :
  let '(r, w') := convert_aab_to_apk self aab out sp w in
  r = Ok tt ->
  exists props name cmd1 o1 cmd2 o2 dst,
    let d := locate (cwd w) (Path name) in
    (_read_signing_properties sp w).1 = Ok props
    /\ protocol self aab props name (Ok tt) [(cmd1, o1); (cmd2, o2)]
    /\ events_since w w'
       = [EPrint (lit "Converting " ++ aab ++ lit " to " ++ out ++ lit "...");
          EMkdir (locate (cwd w) (parent (Path out)));
          EMkdtemp d;
          EPrint (lit "Step 1: Generating universal APK set...");
          ESpawn cmd1 o1;
          EPrint (check_mark
                  ++ lit " Universal APK set generated successfully");
          EPrint (lit "Step 2: Extracting universal APK...");
          EWrite (d ++ [lit "device_spec.json"]);
          ESpawn cmd2 o2;
          EPrint (check_mark ++ lit " Universal APK extracted successfully");
          ECopy (d ++ [lit "universal.apk"]) dst;
          EPrint (check_mark ++ lit " APK saved to: " ++ out);
          ERmtree d].
Proof.
  unfold convert_aab_to_apk, mbind, M_bind, bind. unfold print at 1, emit.
  set (e0 := EPrint _). set (w0 := add_log w e0).
  pose proof (reader_ignores_log sp w e0) as Hr. fold w0 in Hr.
  pose proof (read_signing_properties_frame sp w0) as Hread.
  destruct (_read_signing_properties sp w0) as [[props|e] w0'];
    cbn [fst snd] in Hr, Hread; subst w0'; [|done].
  pose proof (validate_inputs_spec self aab out props w0) as Hval.
  destruct (_validate_inputs self aab out props w0) as [[[]|e] w1]; [|done].
  destruct Hval as (_ & f1 & -> & _).
  unfold with_TemporaryDirectory, mkdtemp.
  destruct (mkdtemp_from _ _ _) as [[name f2]|e]; [|done].
  cbn [cwd fs w0 add_log set_fs].
  set (d := locate (cwd w) (Path name)).
  destruct (convert_in self aab out props name _) as [r w6] eqn:Ein.
  unfold cleanup. intros ->.
  apply convert_in_trace in Ein
    as (cmd1 & o1 & cmd2 & o2 & dst & Hp & Hc & L).
  cbn [cwd log w0 add_log set_fs] in Hc, L. fold d in L.
  exists props, name, cmd1, o1, cmd2, o2, dst. cbv zeta. fold d.
  split; [done|]. split; [done|].
  apply events_since_app. cbn [log add_log set_fs]. rewrite Hc, L. fold d.
  rewrite <- !app_assoc. reflexivity.
Qed.

Lemma success_trace_witness :
  let w := sample_world true good_properties good_tool in
  let w' := (convert_aab_to_apk sample_wrapper (lit "app.aab")
               (lit "out/app.apk") (lit "signing.properties") w).2 in
  length (events_since w w') = 13%nat.
Proof.
  intros w w'.
  pose proof (success_trace sample_wrapper (lit "app.aab")
                (lit "out/app.apk") (lit "signing.properties") w) as H.
  assert (match (convert_aab_to_apk sample_wrapper (lit "app.aab")
                   (lit "out/app.apk") (lit "signing.properties") w).1
          with Ok _ => true | Raise _ => false end = true) as Er
    by (vm_compute; reflexivity).
  subst w'. destruct (convert_aab_to_apk _ _ _ _ w) as [r w'].
  cbn [fst snd] in *. destruct r as [[]|e]; [|discriminate Er].
  destruct (H eq_refl) as (props & name & c1 & o1 & c2 & o2 & dst & _ & _ & ->).
  reflexivity.
Defined.

(** ** What a failing bundletool leaves on the standard output *)

Lemma spawns_print t l : spawns (EPrint t :: l) = spawns l.
Proof. done. Qed.

Lemma spawns_spawn c o l : spawns (ESpawn c o :: l) = (c, o) :: spawns l.
Proof. done. Qed.

Lemma report_lines_quiet failed e : Forall no_spawn (report_lines failed e).
Proof. destruct e; by repeat constructor. Qed.

Lemma run_step_report cmd ok failed w :
  run_step cmd ok failed w
  = if existsb (contains 0) cmd
    then (Raise (ValueError (lit "embedded null byte")), w)
    else
      let o := (processes w cmd (fs w)).1 in
      let w2 := add_log (set_fs w (processes w cmd (fs w)).2) (ESpawn cmd o) in
      match spawn_error cmd o with
      | None => (Ok tt, add_log w2 (EPrint (check_mark ++ ok)))
      | Some e => (Raise e, foldl add_log w2 (report_lines failed e))
      end.
Proof.
  rewrite run_step_eq. destruct (existsb _ _); [done|]. cbv zeta.
  destruct (spawn_error _ _) as [e|]; [|done]. by destruct e.
Qed.

Lemma convert_in_failure self aab out props name w :
  let '(r, w') := convert_in self aab out props name w in
  exists evs,
    log w' = log w ++ evs
    /\ forall cmd o e,
         (cmd, o) ∈ spawns evs -> spawn_error cmd o = Some e ->
         r = Raise e
         /\ exists pre failed,
              evs = pre ++ ESpawn cmd o :: report_lines failed e
              /\ ((nth 3 cmd [] = lit "build-apks"
                   /\ failed = lit "Error generating APK set: ")
                  \/ (nth 3 cmd [] = lit "extract-apks"
                      /\ failed = lit "Error extracting APK: ")).
Proof.
  unfold convert_in, mbind, M_bind, bind. unfold print at 1, emit, getitem.
  set (p1 := EPrint (lit "Step 1: Generating universal APK set...")).
  set (w1 := add_log w p1).
  assert (forall (r : result unit),
            exists evs : list event,
              log w1 = log w ++ evs
              /\ forall cmd o e,
                   (cmd, o) ∈ spawns evs -> spawn_error cmd o = Some e ->
                   r = Raise e
                   /\ exists pre failed,
                        evs = pre ++ ESpawn cmd o :: report_lines failed e
                        /\ ((nth 3 cmd [] = lit "build-apks"
                             /\ failed = lit "Error generating APK set: ")
                            \/ (nth 3 cmd [] = lit "extract-apks"
                                /\ failed = lit "Error extracting APK: ")))
    as Hkey.
  { intros r. exists [p1]. split; [done|].
    intros cmd o e Hin. by apply elem_of_nil in Hin. }
  destruct (props !! lit "release.keystore") as [ks|]; [|apply Hkey].
  destruct (props !! lit "keystore.password") as [kp|]; [|apply Hkey].
  destruct (props !! lit "key.alias") as [al|]; [|apply Hkey].
  destruct (props !! lit "key.password") as [kyp|]; [|apply Hkey].
  unfold ret. set (cmd1 := build_cmd _ _ _ _ _ _ _).
  rewrite run_step_report.
  destruct (existsb (contains 0) cmd1); [apply Hkey|]. clear Hkey.
  cbv zeta. destruct (processes w1 cmd1 (fs w1)) as [o1 f1]. cbn [fst snd].
  destruct (spawn_error cmd1 o1) as [e1|] eqn:S1.
  { exists (p1 :: ESpawn cmd1 o1
            :: report_lines (lit "Error generating APK set: ") e1).
    split.
    { rewrite log_foldl. cbn [log w1 add_log set_fs].
      by rewrite <- !app_assoc. }
    intros cmd o e Hin He. unfold p1 in Hin.
    rewrite spawns_print, spawns_spawn in Hin.
    rewrite (spawns_quiet _ (report_lines_quiet _ _)) in Hin.
    apply list_elem_of_singleton in Hin. injection Hin as -> ->.
    rewrite S1 in He. injection He as <-.
    split; [done|]. exists [p1], (lit "Error generating APK set: ").
    split; [done|by left]. }
  unfold print at 1, emit.
  set (ok1 := EPrint (check_mark ++ _)).
  set (p2 := EPrint (lit "Step 2: Extracting universal APK...")).
  set (w3 := add_log (add_log (add_log (set_fs w1 f1) _) ok1) p2).
  assert (forall tail cmd o e,
            Forall no_spawn tail ->
            (cmd, o) ∈ spawns (p1 :: ESpawn cmd1 o1 :: ok1 :: p2 :: tail) ->
            spawn_error cmd o = Some e -> False) as Hfirst.
  { intros tail cmd o e Qt Hin He. unfold p1, ok1, p2 in Hin.
    rewrite spawns_print, spawns_spawn, !spawns_print in Hin.
    rewrite (spawns_quiet _ Qt) in Hin.
    apply list_elem_of_singleton in Hin. injection Hin as -> ->.
    congruence. }
  pose proof (create_device_spec_steps no_spawn name ltac:(done) w3) as H4.
  pose proof (create_device_spec_value name w3) as V4.
  destruct (_create_device_spec name w3) as [[spec|e4] w4];
    cbn [fst snd] in H4, V4; destruct H4 as (_ & evs4 & L4 & Q4).
  2:{ exists (p1 :: ESpawn cmd1 o1 :: ok1 :: p2 :: evs4).
      split.
      { rewrite L4. cbn [log w3 w1 add_log set_fs]. by rewrite <- !app_assoc. }
      intros cmd o e Hin He. by destruct (Hfirst _ _ _ _ Q4 Hin He). }
  rewrite (V4 spec eq_refl). clear V4 spec.
  set (cmd2 := extract_cmd _ _ _ _).
  rewrite run_step_report.
  destruct (existsb (contains 0) cmd2).
  { exists (p1 :: ESpawn cmd1 o1 :: ok1 :: p2 :: evs4).
    split.
    { rewrite L4. cbn [log w3 w1 add_log set_fs]. by rewrite <- !app_assoc. }
    intros cmd o e Hin He. by destruct (Hfirst _ _ _ _ Q4 Hin He). }
  clear Hfirst.
  cbv zeta. destruct (processes w4 cmd2 (fs w4)) as [o2 f5]. cbn [fst snd].
  assert (forall tail cmd o e,
            Forall no_spawn tail ->
            (cmd, o)
              ∈ spawns (p1 :: ESpawn cmd1 o1 :: ok1 :: p2
                        :: evs4 ++ ESpawn cmd2 o2 :: tail) ->
            spawn_error cmd o = Some e -> cmd = cmd2 /\ o = o2) as Hlast.
  { intros tail cmd o e Qt Hin He. unfold p1, ok1, p2 in Hin.
    rewrite spawns_print, spawns_spawn, !spawns_print, spawns_app in Hin.
    rewrite (spawns_quiet _ Q4), spawns_spawn, (spawns_quiet _ Qt) in Hin.
    apply elem_of_cons in Hin as [Hin|Hin];
      [injection Hin as -> ->; congruence|].
    apply list_elem_of_singleton in Hin. by injection Hin as -> ->. }
  destruct (spawn_error cmd2 o2) as [e2|] eqn:S2.
  - exists (p1 :: ESpawn cmd1 o1 :: ok1 :: p2
            :: evs4 ++ ESpawn cmd2 o2
               :: report_lines (lit "Error extracting APK: ") e2).
    split.
    { rewrite log_foldl. cbn [log add_log set_fs]. rewrite L4.
      cbn [log w3 w1 add_log set_fs]. by rewrite <- !app_assoc. }
    intros cmd o e Hin He.
    destruct (Hlast _ _ _ _ (report_lines_quiet _ _) Hin He) as [-> ->].
    rewrite S2 in He. injection He as <-. split; [done|].
    exists (p1 :: ESpawn cmd1 o1 :: ok1 :: p2 :: evs4).
    exists (lit "Error extracting APK: "). split; [done|by right].
  - set (w5 := add_log _ (EPrint (check_mark ++ _))).
    pose proof (copy_step_steps no_spawn name out ltac:(done) ltac:(done) w5)
      as H6.
    destruct (copy_step name out w5) as [r6 w6]. cbn [snd] in H6.
    destruct H6 as (_ & evs6 & L6 & Q6).
    eexists (p1 :: ESpawn cmd1 o1 :: ok1 :: p2
             :: evs4 ++ ESpawn cmd2 o2 :: _ :: evs6).
    split.
    { rewrite L6. cbn [log w5 add_log set_fs]. rewrite L4.
      cbn [log w3 w1 add_log set_fs]. rewrite <- !app_assoc. reflexivity. }
    intros cmd o e Hin He.
    match type of Hin with
    | context [ESpawn cmd2 _ :: ?tail] =>
        assert (Forall no_spawn tail) as Qt by (by constructor)
    end.
    destruct (Hlast _ _ _ _ Qt Hin He) as [-> ->]. congruence.
Qed.

(** X18: when a program that a conversion started exits with a status
    other than 0, what the conversion raises and what it does after the
    program depends on what the program wrote.  If its standard output
    and its error stream are UTF-8, the conversion raises the
    [CalledProcessError] of that run, with the two texts, and after the
    program it does exactly this: it prints the error line of the step
    ([Error generating APK set: ] for [build-apks],
    [Error extracting APK: ] for [extract-apks]) with [str(e)], then the
    captured output, then the captured error output, and removes the
    temporary directory.  If they are not, the conversion raises the
    error of decoding them, and all it does after the program is to
    remove the temporary directory. *)
Theorem tool_failure_is_reported self aab out sp w :
  let '(r, w') := convert_aab_to_apk self aab out sp w in
  forall cmd rc out' err',
    (cmd, Exited rc out' err') ∈ spawns (events_since w w') -> rc <> 0%Z ->
    exists pre failed d,
      ((nth 3 cmd [] = lit "build-apks"
        /\ failed = lit "Error generating APK set: ")
       \/ (nth 3 cmd [] = lit "extract-apks"
           /\ failed = lit "Error extracting APK: "))
      /\ match captured true out' err' with
         | Ok (text_out, text_err) =>
             let e := CalledProcessError rc cmd text_out text_err in
             r = Raise e
             /\ events_since w w'
                = pre ++ [ESpawn cmd (Exited rc out' err');
                          EPrint (failed ++ exn_str e);
                          EPrint (lit "Command output: " ++ text_out);
                          EPrint (lit "Command error: " ++ text_err);
                          ERmtree d]
         | Raise e =>
             r = Raise e
             /\ is_UnicodeError e = true
             /\ events_since w w'
                = pre ++ [ESpawn cmd (Exited rc out' err'); ERmtree d]
         end.
Proof.
  unfold convert_aab_to_apk, mbind, M_bind, bind. unfold print at 1, emit.
  set (e0 := EPrint _). set (w1 := add_log w e0).
  pose proof (read_signing_properties_frame sp w1) as Hf.
  destruct (_read_signing_properties sp w1) as [[props|e] w1'];
    cbn [snd] in Hf; subst w1'.
  2:{ intros cmd rc out' err' Hin.
      rewrite (events_since_app w w1 [e0] eq_refl) in Hin.
      by apply elem_of_nil in Hin. }
  pose proof (validate_inputs_steps self aab out props w1) as Hv.
  destruct (_validate_inputs self aab out props w1) as [[[]|e] w2];
    cbn [snd] in Hv; destruct Hv as (_ & evsv & Lv & Qv).
  2:{ intros cmd rc out' err' Hin.
      rewrite (events_since_app w w2 (e0 :: evsv)) in Hin.
      - unfold e0 in Hin. rewrite spawns_print, (spawns_quiet _ Qv) in Hin.
        by apply elem_of_nil in Hin.
      - rewrite Lv. cbn [log w1 add_log]. by rewrite <- app_assoc. }
  unfold with_TemporaryDirectory, mkdtemp.
  destruct (mkdtemp_from _ _ _) as [[name f2]|e].
  2:{ intros cmd rc out' err' Hin.
      rewrite (events_since_app w w2 (e0 :: evsv)) in Hin.
      - unfold e0 in Hin. rewrite spawns_print, (spawns_quiet _ Qv) in Hin.
        by apply elem_of_nil in Hin.
      - rewrite Lv. cbn [log w1 add_log]. by rewrite <- app_assoc. }
  set (mk := EMkdtemp _). set (w3 := add_log (set_fs w2 f2) mk).
  pose proof (convert_in_failure self aab out props name w3) as Hin3.
  destruct (convert_in self aab out props name w3) as [r w4].
  destruct Hin3 as (evs & L4 & Hrep). unfold cleanup.
  set (rm := ERmtree _).
  rewrite (events_since_app w _ (e0 :: evsv ++ mk :: evs ++ [rm])).
  2:{ cbn [log add_log set_fs]. rewrite L4. cbn [log w3 add_log set_fs].
      rewrite Lv. cbn [log w1 add_log]. by rewrite <- !app_assoc. }
  intros cmd rc out' err' Hin Hrc. unfold e0 in Hin.
  rewrite spawns_print, spawns_app, (spawns_quiet _ Qv) in Hin.
  change (spawns (mk :: ?l)) with (spawns l) in Hin.
  rewrite spawns_app in Hin. cbn [spawns omap app] in Hin.
  rewrite app_nil_r in Hin.
  assert (exists e, spawn_error cmd (Exited rc out' err') = Some e)
    as [e He].
  { cbn [spawn_error]. destruct (captured true out' err') as [[]|]; [|eauto].
    apply Z.eqb_neq in Hrc. rewrite Hrc. eauto. }
  destruct (Hrep cmd _ e Hin He) as (-> & pre & failed & -> & Hst).
  exists (e0 :: evsv ++ mk :: pre), failed, (locate (cwd w4) (Path name)).
  split; [done|]. cbn [spawn_error] in He.
  destruct (captured true out' err') as [[text_out text_err]|e'] eqn:Ec.
  - apply Z.eqb_neq in Hrc. rewrite Hrc in He. injection He as <-.
    cbv zeta. split; [done|]. cbn [report_lines app].
    by rewrite <- !app_assoc.
  - injection He as <-. pose proof (captured_raises _ _ _ Ec) as Hu.
    split; [done|]. split; [done|].
    destruct e'; try discriminate Hu; cbn [report_lines app];
      by rewrite <- !app_assoc.
Qed.

Lemma tool_failure_is_reported_witness :
  let w := sample_world true good_properties failing_tool in
  let cmd := build_cmd sample_wrapper (lit "app.aab")
               (Path (lit "/tmp/tmpab12cd34/temp.apks"))
               (lit "/work/release.jks") (lit "secret") (lit "upload")
               (lit "secret2") in
  let e := CalledProcessError 1 cmd (lit "out") (lit "bad keystore") in
  let end_ := convert_aab_to_apk sample_wrapper (lit "app.aab")
                (lit "out/app.apk") (lit "signing.properties") w in
  exists pre failed d,
    ((nth 3 cmd [] = lit "build-apks"
      /\ failed = lit "Error generating APK set: ")
     \/ (nth 3 cmd [] = lit "extract-apks"
         /\ failed = lit "Error extracting APK: "))
    /\ end_.1 = Raise e
    /\ events_since w end_.2
       = pre ++ [ESpawn cmd (Exited 1 (lit "out") (lit "bad keystore"));
                 EPrint (failed ++ exn_str e);
                 EPrint (lit "Command output: " ++ lit "out");
                 EPrint (lit "Command error: " ++ lit "bad keystore");
                 ERmtree d].
Proof.
  intros w cmd e end_.
  pose proof (tool_failure_is_reported sample_wrapper (lit "app.aab")
                (lit "out/app.apk") (lit "signing.properties") w) as H.
  change (convert_aab_to_apk sample_wrapper _ _ _ w) with end_ in H.
  assert ((cmd, Exited 1 (lit "out") (lit "bad keystore"))
            ∈ spawns (events_since w end_.2)) as Hin.
  { apply (list_elem_of_lookup_2 _ 0). vm_compute; reflexivity. }
  clearbody end_. destruct end_ as [r w']. cbn [fst snd] in *.
  exact (H cmd 1%Z (lit "out") (lit "bad keystore") Hin ltac:(discriminate)).
Defined.

(** ** The model at work *)

Example strip_example : strip (lit "  key = v  " ++ nl) = lit "key = v".
Proof. vm_compute; reflexivity. Qed.

Example split_once_example :
  split_once 61 (lit "a=b=c") = Some (lit "a", lit "b=c").
Proof. vm_compute; reflexivity. Qed.

Example replace_example :
  replace (lit "\\") (lit "\") (lit "a\\\b\\\\c") = lit "a\\b\\c".
Proof. vm_compute; reflexivity. Qed.

Example readlines_example :
  readlines (lit "a" ++ [13; 10] ++ lit "b" ++ [13] ++ lit "c" ++ [10] ++ lit "d")
  = [lit "a" ++ nl; lit "b" ++ nl; lit "c" ++ nl; lit "d"].
Proof. vm_compute; reflexivity. Qed.

Example Path_example :
  path_str (joinpath (Path (lit "/tmp//x/./y/")) (lit "temp.apks"))
  = lit "/tmp/x/y/temp.apks"
  /\ path_str (Path []) = lit "."
  /\ path_str (parent (Path (lit "out/app.apk"))) = lit "out"
  /\ path_str (parent (Path (lit "app.apk"))) = lit ".".
Proof. vm_compute; done. Qed.

Example unicode_escape_example :
  unicode_escape_decode no_names (lit "\x41\102C\q\\")
  = Ok (lit "ABC\q\")
  /\ unicode_escape_decode no_names (lit "dir\")
     = Raise (decode_error "\ at end of string")
  /\ unicode_escape_decode no_names (lit "\N{DIGIT ONE}")
     = Raise (decode_error "unknown Unicode character name")
  /\ unicode_escape_decode
       (fun name => if bool_decide (name = lit "DIGIT ONE") then Some 49 else None)
       (lit "\N{DIGIT ONE}")
     = Ok (lit "1").
Proof. vm_compute; done. Qed.

(** The whole pipeline with a bundletool that works: the output holds
    what the extract step wrote as [universal.apk], the temporary
    directory is gone, and the exit status is 0. *)
Example happy_path :
  let end_ := main sample_args (sample_world true good_properties good_tool) in
  end_.1 = 0%Z
  /\ stat (fs end_.2) [lit "work"; lit "out"; lit "app.apk"]
     = Ok (File [65; 80; 75])
  /\ exists_ (fs end_.2) [lit "tmp"; lit "tmpab12cd34"] = false
  /\ length (spawns (log end_.2)) = 3%nat.
Proof. vm_compute; done. Qed.

(** With the default arguments and no [java] at all, nothing is
    converted and the exit status is 1. *)
Example no_java :
  main DEFAULT_CONFIG (sample_world true good_properties no_java_tool)
  = (1%Z,
     add_log
       (add_log (sample_world true good_properties no_java_tool)
          (ESpawn java_probe NotFound))
       (failure_report java_not_found)).
Proof. vm_compute; reflexivity. Qed.
